(** * cluster_service: the self-resubmitting job service

    A shallow embedding of [cservice.py] (class [ClusterService]) and of
    [whisper_service.py] (class [Whisper]), together with the properties of
    the job-lifecycle engine: template rendering, manifest filtering, the
    settle gate, work discovery, self submission and the fresh-launch lock.

    Conventions of the embedding.
    - A [pathlib.Path] is the list of its components below the root; the
      working directory is taken to be absolute, so [Path.absolute] is the
      identity and [str] of a path is [path_str].
    - The file system is a finite map from paths to nodes (a regular file
      with its text and modification time, or a directory).
    - [time.time()] reads a clock kept in the state; seconds are integers.
    - Python control flow is a state-and-outcome monad: a computation returns
      a value, leaves through [exit(code)], raises an exception, or runs out
      of fuel in an unbounded [while True] loop.
    - The scheduler command, the YAML codec and the transcription callback
      are collaborators outside the repository and enter as section
      variables. *)

From Stdlib Require Import ZArith String Ascii List Lia Bool.
From stdpp Require Import base option list gmap strings pretty.

Local Open Scope string_scope.
Local Open Scope Z_scope.

(** ** Strings *)

Module PyStr.

(** [str.isspace] on the ASCII range: TAB, LF, VT, FF, CR, FS, GS, RS, US
    and the blank. *)
Definition isspace (c : ascii) : bool :=
  let n := nat_of_ascii c in
  ((9 <=? n)%nat && (n <=? 13)%nat) || ((28 <=? n)%nat && (n <=? 32)%nat).

Fixpoint lstrip (s : string) : string :=
  match s with
  | String c s' => if isspace c then lstrip s' else s
  | EmptyString => EmptyString
  end.

(** [rstrip] drops a character when it is a blank and everything after it
    has already been dropped. *)
Fixpoint rstrip (s : string) : string :=
  match s with
  | String c s' =>
      match rstrip s' with
      | EmptyString => if isspace c then EmptyString else String c EmptyString
      | r => String c r
      end
  | EmptyString => EmptyString
  end.

Definition strip (s : string) : string := rstrip (lstrip s).

(** [sep.join(xs)] *)
Fixpoint join (sep : string) (xs : list string) : string :=
  match xs with
  | [] => ""
  | [x] => x
  | x :: xs' => x +:+ sep +:+ join sep xs'
  end.

End PyStr.

(** ** [string.Template.safe_substitute]

    The standard pattern of [string.Template] is
    [\$(?: (?P<escaped>\$) | (?P<named>id) | {(?P<braced>id)} | (?P<invalid>) )]
    with [id = [_a-z][_a-z0-9]*], ASCII only, case-insensitive.  A match of
    [named] or [braced] is replaced by the mapping's value when the name is a
    key and left as it stands otherwise; [escaped] becomes one delimiter;
    [invalid] (a lone delimiter) is left as it stands. *)

Module Template.

Definition is_letter (c : ascii) : bool :=
  let n := nat_of_ascii c in
  ((65 <=? n)%nat && (n <=? 90)%nat) || ((97 <=? n)%nat && (n <=? 122)%nat).

Definition is_digit (c : ascii) : bool :=
  let n := nat_of_ascii c in (48 <=? n)%nat && (n <=? 57)%nat.

Definition is_idstart (c : ascii) : bool :=
  is_letter c || Ascii.eqb c "_".

Definition is_idchar (c : ascii) : bool :=
  is_idstart c || is_digit c.

(** The longest run of identifier characters at the head of [s], and what
    follows it (the regular expression is greedy). *)
Fixpoint take_id (s : string) : string * string :=
  match s with
  | String c s' =>
      if is_idchar c
      then let '(name, rest) := take_id s' in (String c name, rest)
      else (EmptyString, s)
  | EmptyString => (EmptyString, EmptyString)
  end.

(** [convert]: the value of a known name, the matched text otherwise. *)
Definition convert (mapping : gmap string string) (name matched : string) : string :=
  match mapping !! name with
  | Some v => v
  | None => matched
  end.

Definition dollar : ascii := "$".

(** The [braced] alternative on the text after the opening brace: an
    identifier and the closing brace. *)
Definition braced (s : string) : option (string * string) :=
  match s with
  | String c _ =>
      if is_idstart c then
        let '(name, rest) := take_id s in
        match rest with
        | String c' after => if Ascii.eqb c' "}" then Some (name, after) else None
        | EmptyString => None
        end
      else None
  | EmptyString => None
  end.

(** [pattern.sub(convert, template)], scanning from the left; [fuel] bounds
    the number of characters still to scan.  At a delimiter the
    alternatives are tried in the order of the pattern. *)
Fixpoint sub (fuel : nat) (mapping : gmap string string) (s : string) : string :=
  match fuel with
  | O => s
  | S fuel' =>
      match s with
      | EmptyString => EmptyString
      | String c rest =>
          if negb (Ascii.eqb c dollar) then String c (sub fuel' mapping rest)
          else
            match rest with
            | EmptyString => String dollar EmptyString
            | String c1 rest' =>
                if Ascii.eqb c1 dollar then
                  String dollar (sub fuel' mapping rest')
                else if is_idstart c1 then
                  let '(name, after) := take_id rest in
                  convert mapping name (String dollar name)
                    +:+ sub fuel' mapping after
                else if Ascii.eqb c1 "{" then
                  match braced rest' with
                  | Some (name, after) =>
                      convert mapping name (String dollar ("{" +:+ name +:+ "}"))
                        +:+ sub fuel' mapping after
                  | None => String dollar (sub fuel' mapping rest)
                  end
                else String dollar (sub fuel' mapping rest)
            end
      end
  end.

Definition safe_substitute (mapping : gmap string string) (template : string) : string :=
  sub (String.length template) mapping template.

(** Shapes of template text used to state what rendering does. *)
Definition no_dollar (s : string) : bool :=
  forallb (fun c => negb (Ascii.eqb c dollar)) (list_ascii_of_string s).

Definition identifier (s : string) : bool :=
  match s with
  | String c s' => is_idstart c && forallb is_idchar (list_ascii_of_string s')
  | EmptyString => false
  end.

(** [s] does not go on with an identifier character. *)
Definition breaks_id (s : string) : bool :=
  match s with
  | String c _ => negb (is_idchar c)
  | EmptyString => true
  end.

End Template.

(** ** Paths and the file system *)

Abbreviation Path := (list string).

(** [p / name] *)
Definition joinpath (p : Path) (name : string) : Path := (p ++ [name])%list.
Infix "//" := joinpath (at level 40, left associativity).

(** [p.parent] *)
Definition parent (p : Path) : Path := removelast p.

(** [str(p)] for an absolute path. *)
Definition path_str (p : Path) : string :=
  match p with
  | [] => "/"
  | _ => String.concat "" (map (fun c => "/" +:+ c) p)
  end.

Inductive node :=
  | File (content : string) (mtime : Z)
  | Dir.

Abbreviation filesystem := (gmap Path node).

(** [strip_dir dir p]: the components of [p] below [dir], when [p] lies
    below [dir]. *)
Fixpoint strip_dir (dir p : Path) : option Path :=
  match dir, p with
  | [], _ => Some p
  | d :: dir', c :: p' => if bool_decide (d = c) then strip_dir dir' p' else None
  | _ :: _, [] => None
  end.

(** [dir.glob("*/" + name)] for a literal [name]: the entries called [name]
    one directory below [dir], in the order the file system lists them. *)
Definition glob_star (fs : filesystem) (dir : Path) (name : string) : list Path :=
  List.filter
    (fun p => match strip_dir dir p with
              | Some [_; n] => bool_decide (n = name)
              | _ => false
              end)
    (map fst (map_to_list fs)).

(** ** Program state and control flow *)

Inductive level := DEBUG | INFO | WARNING | ERROR.

Global Instance level_eq_dec : EqDecision level.
Proof. solve_decision. Defined.

Definition level_rank (l : level) : nat :=
  match l with DEBUG => 10 | INFO => 20 | WARNING => 30 | ERROR => 40 end.

Inductive exn :=
  | FileExistsError
  | FileNotFoundError
  | IsADirectoryError
  | AttributeError
  | ValueError
  | YAMLError
  | CallbackError.

Definition exn_str (e : exn) : string :=
  match e with
  | FileExistsError => "FileExistsError"
  | FileNotFoundError => "FileNotFoundError"
  | IsADirectoryError => "IsADirectoryError"
  | AttributeError => "AttributeError"
  | ValueError => "ValueError"
  | YAMLError => "YAMLError"
  | CallbackError => "CallbackError"
  end.

Global Instance exn_eq_dec : EqDecision exn.
Proof. solve_decision. Defined.

(** The handlers [atexit.register] receives: the source registers one kind,
    [lambda: path.unlink(missing_ok=True)]. *)
Inductive handler := UnlinkMissingOk (p : Path).

(** The instance attributes of [ClusterService].  [None] is an attribute
    that was never assigned (reading it raises [AttributeError]), or, for
    [workdir], the default [None]. *)
Record ClusterService := {
  JOB_SETTLE_TIME : Z;
  workdir : option Path;
  job_warnings : option (gset Path)
}.

(** One job folder's descriptor after [yaml.safe_load], and after
    [get_todo_list] has added [jobdir] and [settled].  A descriptor that
    loads is taken to be a mapping with a [manifest] list of names and a
    [model] name; the other job parameters reach only the transcription
    callback. *)
Record descriptor := { d_manifest : list string; d_model : string }.

Record jobdata := {
  manifest : list string;
  model : string;
  jobdir : Path;
  settled : bool
}.

Record state := {
  fs : filesystem;
  clock : Z;
  threshold : level;
  log : list (level * string);
  ran : list (string * string);
  written : list Path;
  atexit_handlers : list handler;
  handed : list (jobdata * string * Z);
  self : ClusterService
}.

(** [fs] is the file system, [clock] the wall clock, [threshold] the level of
    the root logger and [log] what it has emitted.  Three traces record what
    the program has done: [ran] every command given to [subprocess.run] with
    its input, [written] every path opened in mode ["w"], [handed] every
    manifest entry handed to the transcription callback, with the job it
    belongs to and the time. *)

Definition set_fs (f : filesystem -> filesystem) (st : state) : state :=
  {| fs := f (fs st); clock := clock st; threshold := threshold st; log := log st;
     ran := ran st; written := written st; atexit_handlers := atexit_handlers st;
     handed := handed st; self := self st |}.

Definition set_clock (t : Z) (st : state) : state :=
  {| fs := fs st; clock := t; threshold := threshold st; log := log st;
     ran := ran st; written := written st; atexit_handlers := atexit_handlers st;
     handed := handed st; self := self st |}.

Definition set_threshold (l : level) (st : state) : state :=
  {| fs := fs st; clock := clock st; threshold := l; log := log st;
     ran := ran st; written := written st; atexit_handlers := atexit_handlers st;
     handed := handed st; self := self st |}.

Definition add_log (e : level * string) (st : state) : state :=
  {| fs := fs st; clock := clock st; threshold := threshold st;
     log := (log st ++ [e])%list;
     ran := ran st; written := written st; atexit_handlers := atexit_handlers st;
     handed := handed st; self := self st |}.

Definition add_ran (c : string * string) (st : state) : state :=
  {| fs := fs st; clock := clock st; threshold := threshold st; log := log st;
     ran := (ran st ++ [c])%list; written := written st;
     atexit_handlers := atexit_handlers st; handed := handed st; self := self st |}.

Definition add_written (p : Path) (st : state) : state :=
  {| fs := fs st; clock := clock st; threshold := threshold st; log := log st;
     ran := ran st; written := (written st ++ [p])%list;
     atexit_handlers := atexit_handlers st; handed := handed st; self := self st |}.

Definition add_atexit (h : handler) (st : state) : state :=
  {| fs := fs st; clock := clock st; threshold := threshold st; log := log st;
     ran := ran st; written := written st;
     atexit_handlers := (atexit_handlers st ++ [h])%list;
     handed := handed st; self := self st |}.

Definition add_handed (c : jobdata * string * Z) (st : state) : state :=
  {| fs := fs st; clock := clock st; threshold := threshold st; log := log st;
     ran := ran st; written := written st; atexit_handlers := atexit_handlers st;
     handed := (handed st ++ [c])%list; self := self st |}.

Definition set_self (s : ClusterService) (st : state) : state :=
  {| fs := fs st; clock := clock st; threshold := threshold st; log := log st;
     ran := ran st; written := written st; atexit_handlers := atexit_handlers st;
     handed := handed st; self := s |}.

(** How a block of Python ends. *)
Inductive outcome (A : Type) :=
  | Return (a : A)
  | Exit (code : Z)
  | Raise (e : exn)
  | Diverge.
Arguments Return {A} a.
Arguments Exit {A} code.
Arguments Raise {A} e.
Arguments Diverge {A}.

Definition M (A : Type) : Type := state -> outcome A * state.

Definition ret {A} (a : A) : M A := fun st => (Return a, st).

Definition bind {A B} (m : M A) (k : A -> M B) : M B :=
  fun st =>
    match m st with
    | (Return a, st') => k a st'
    | (Exit c, st') => (Exit c, st')
    | (Raise e, st') => (Raise e, st')
    | (Diverge, st') => (Diverge, st')
    end.

Notation "x <- m ;; k" := (bind m (fun x => k))
  (at level 100, m at next level, right associativity).
Notation "m ;; k" := (bind m (fun _ => k))
  (at level 100, right associativity).

(** [exit(code)] raises [SystemExit], which no [except] clause of the source
    catches. *)
Definition exit {A} (code : Z) : M A := fun st => (Exit code, st).
Definition raise {A} (e : exn) : M A := fun st => (Raise e, st).
Definition diverge {A} : M A := fun st => (Diverge, st).

Definition get : M state := fun st => (Return st, st).
Definition modify (f : state -> state) : M unit := fun st => (Return tt, f st).

(** [try: body except Exception as e: handler(e)] *)
Definition try_except {A} (body : M A) (handler : exn -> M A) : M A :=
  fun st =>
    match body st with
    | (Raise e, st') => handler e st'
    | r => r
    end.

(** [try: body except E: handler] for one exception class [E]. *)
Definition try_except_only {A} (E : exn) (body : M A) (handler : M A) : M A :=
  try_except body (fun e => if decide (e = E) then handler else raise e).

(** *** [logging] *)

Definition logging (l : level) (msg : string) : M unit :=
  fun st =>
    if (level_rank (threshold st) <=? level_rank l)%nat
    then (Return tt, add_log (l, msg) st)
    else (Return tt, st).

(** *** [time] *)

Definition time : M Z := fun st => (Return (clock st), st).

(** [time.sleep(d)]: a negative [d] is refused with [ValueError]. *)
Definition sleep (d : Z) : M unit :=
  if d <? 0 then raise ValueError
  else modify (fun st => set_clock (clock st + d) st).

(** *** Files *)

Definition exists_ (p : Path) : M bool :=
  fun st => (Return (match fs st !! p with Some _ => true | None => false end), st).

Definition is_dir (p : Path) : M bool :=
  fun st => (Return (match fs st !! p with Some Dir => true | _ => false end), st).

(** [open(p).read()] *)
Definition read_text (p : Path) : M string :=
  fun st =>
    match fs st !! p with
    | Some (File c _) => (Return c, st)
    | Some Dir => (Raise IsADirectoryError, st)
    | None => (Raise FileNotFoundError, st)
    end.

(** [open(p, "w")] followed by writing [c] and closing. *)
Definition write_text (p : Path) (c : string) : M unit :=
  fun st =>
    match fs st !! p with
    | Some Dir => (Raise IsADirectoryError, st)
    | _ => (Return tt, add_written p (set_fs (insert p (File c (clock st))) st))
    end.

(** [open(p, "x")]: exclusive creation of an empty file. *)
Definition open_x (p : Path) : M unit :=
  fun st =>
    match fs st !! p with
    | Some _ => (Raise FileExistsError, st)
    | None => (Return tt, set_fs (insert p (File "" (clock st))) st)
    end.

(** [p.unlink(missing_ok=True)] *)
Definition unlink_missing_ok (p : Path) : M unit :=
  fun st =>
    match fs st !! p with
    | Some Dir => (Raise IsADirectoryError, st)
    | Some (File _ _) => (Return tt, set_fs (delete p) st)
    | None => (Return tt, st)
    end.

(** [p.stat().st_mtime]; the time of a directory is not kept, and the source
    takes the time only of descriptors it has just read as files. *)
Definition stat_mtime (p : Path) : M Z :=
  fun st =>
    match fs st !! p with
    | Some (File _ t) => (Return t, st)
    | Some Dir => (Return 0, st)
    | None => (Raise FileNotFoundError, st)
    end.

(** [atexit.register(h)] *)
Definition atexit_register (h : handler) : M unit := modify (add_atexit h).

Definition run_handler (h : handler) : M unit :=
  match h with
  | UnlinkMissingOk p => unlink_missing_ok p
  end.

(** ** [cservice.py] *)

Definition nl : string := String (ascii_of_nat 10) EmptyString.

(** The result of [subprocess.run]. *)
Record CompletedProcess := {
  returncode : Z;
  stdout : string;
  stderr : string
}.

(** [argparse]'s namespace. *)
Record Args := {
  a_debug : bool;
  a_workdir : Path;
  a_continuation : bool
}.

(** [vars(args)] with the [jobid] entry: what [jobinfo.yaml] holds. *)
Record Info := {
  i_debug : bool;
  i_workdir : string;
  i_continuation : bool;
  i_jobid : option string
}.

Definition set_jobid (j : option string) (i : Info) : Info :=
  {| i_debug := i_debug i; i_workdir := i_workdir i;
     i_continuation := i_continuation i; i_jobid := j |}.

(** [ClusterService.__init__(self, workdir=None, settle_time=300)]: two
    attributes are assigned, [job_warnings] is not. *)
Definition init (wd : option Path) (settle_time : Z) : ClusterService :=
  {| JOB_SETTLE_TIME := settle_time; workdir := wd; job_warnings := None |}.

Definition lock_file (wd : Path) : Path := wd // "submit.lock".
Definition jobinfo_file (wd : Path) : Path := wd // "jobinfo.yaml".
Definition submit_file (wd : Path) : Path := wd // ".submit".
Definition sample_file (wd : Path) : Path := wd // ".submit.sample".

Definition sample_text : string :=
  "sbatch --signal B:USR1@30 -D$workdir \" +:+ nl +:+
  "   -e $workdir/stderr.out -o $workdir/stdout.out \" +:+ nl +:+
  "   --open-mode=append --parsable \" +:+ nl +:+
  "   --mail-type=ALL \" +:+ nl +:+
  "   -p general" +:+ nl.

(** [d.update(e)]: the entries of [e] win. *)
Definition dict_update (d e : gmap string string) : gmap string string := e ∪ d.

(** The variables a submission template is rendered against. *)
Definition template_vars (wd : Path) (environ : gmap string string) : gmap string string :=
  dict_update {[ "workdir" := path_str wd ]} environ.

(** The rendered submission command for the text of [.submit]. *)
Definition render (wd : Path) (environ : gmap string string) (text : string) : string :=
  Template.safe_substitute (template_vars wd environ) (PyStr.strip text).

Definition slurm_script (main_file wd : Path) (debug : bool) : string :=
  let command_array :=
    ([path_str main_file; path_str wd; "--continuation"]
       ++ (if debug then ["--debug"] else []))%list in
  PyStr.join nl ["#!/bin/bash"; PyStr.join " " command_array; "exit $?"].

Section ClusterService.

(** [os.environ] and [__main__.__file__] *)
Variable environ : gmap string string.
Variable main_file : Path.

(** [subprocess.run(command, input=script, shell=True, ...)] *)
Variable run_shell : string -> string -> CompletedProcess.

(** [yaml.safe_load] on a job descriptor and on [jobinfo.yaml] ([None]: the
    text does not parse), and [yaml.safe_dump] of the job information. *)
Variable load_descriptor : string -> option descriptor.
Variable load_info : string -> option Info.
Variable dump_info : Info -> string.

(** The methods a subclass provides. *)
Variable filter_jobdata : jobdata -> M jobdata.
Variable work : nat -> M unit.

Definition get_workdir : M Path :=
  fun st =>
    match workdir (self st) with
    | Some wd => (Return wd, st)
    | None => (Raise AttributeError, st)
    end.

Definition get_job_warnings : M (gset Path) :=
  fun st =>
    match job_warnings (self st) with
    | Some s => (Return s, st)
    | None => (Raise AttributeError, st)
    end.

Definition set_job_warnings (s : gset Path) : M unit :=
  modify (fun st =>
    set_self {| JOB_SETTLE_TIME := JOB_SETTLE_TIME (self st);
                workdir := workdir (self st);
                job_warnings := Some s |} st).

Definition set_workdir (wd : Path) : M unit :=
  modify (fun st =>
    set_self {| JOB_SETTLE_TIME := JOB_SETTLE_TIME (self st);
                workdir := Some wd;
                job_warnings := job_warnings (self st) |} st).

Definition subprocess_run (command script : string) : M CompletedProcess :=
  fun st => (Return (run_shell command script), add_ran (command, script) st).

Definition safe_load_descriptor (text : string) : M descriptor :=
  match load_descriptor text with
  | Some d => ret d
  | None => raise YAMLError
  end.

Definition safe_load_info (text : string) : M Info :=
  match load_info text with
  | Some i => ret i
  | None => raise YAMLError
  end.

(** The [for jobfile in self.workdir.glob(...)] loop of [get_todo_list];
    [continue] is the recursive call on the remaining files. *)
Fixpoint discover (files : list Path) (results : list jobdata) : M (list jobdata) :=
  match files with
  | [] => ret results
  | jobfile :: rest =>
      loaded <-
        try_except
          (text <- read_text jobfile ;;
           d <- safe_load_descriptor text ;;
           ret (Some d))
          (fun e =>
             seen <- get_job_warnings ;;
             (if bool_decide (jobfile ∈ seen) then ret tt
              else
                set_job_warnings ({[ jobfile ]} ∪ seen) ;;
                logging WARNING
                  ("Cannot read " +:+ path_str jobfile +:+ ": " +:+ exn_str e)) ;;
             ret None) ;;
      match loaded with
      | None => discover rest results
      | Some d =>
          now <- time ;;
          mtime <- stat_mtime jobfile ;;
          st <- get ;;
          jd <- filter_jobdata
                  {| manifest := d_manifest d;
                     model := d_model d;
                     jobdir := parent jobfile;
                     settled := (JOB_SETTLE_TIME (self st) <? now - mtime) |} ;;
          match manifest jd with
          | [] =>
              logging DEBUG
                ("The job file " +:+ path_str jobfile +:+ " is finished, skipping") ;;
              discover rest results
          | _ => discover rest (results ++ [jd])%list
          end
      end
  end.

(** The [while True] loop that closes [get_todo_list]. *)
Fixpoint settle_loop (fuel : nat) (results : list jobdata) : M (list jobdata) :=
  match fuel with
  | O => diverge
  | S fuel' =>
      let todo := List.filter settled results in
      match results, todo with
      | _ :: _, [] =>
          logging INFO "Waiting for jobs to settle." ;;
          st <- get ;;
          sleep (JOB_SETTLE_TIME (self st)) ;;
          settle_loop fuel' results
      | _, _ => ret results
      end
  end.

Definition get_todo_list (fuel : nat) (jobfile : string) : M (list jobdata) :=
  wd <- get_workdir ;;
  st <- get ;;
  results <- discover (glob_star (fs st) wd jobfile) [] ;;
  settle_loop fuel results.

(** [self_submission(self, info)] in its three consecutive blocks: reading
    the template, running the rendered command, recording the job
    information.  The dictionary [info] is updated in place, so the updated
    record is returned. *)
Definition read_template (wd : Path) : M string :=
  read_text (submit_file wd).

Definition submit (wd : Path) (info : Info) (text : string) : M CompletedProcess :=
  let submit_command := render wd environ text in
  let script := slurm_script main_file wd (i_debug info) in
  logging DEBUG ("Submission command:" +:+ nl +:+ submit_command) ;;
  logging DEBUG ("Submitting job with slurm script:" +:+ nl +:+ script) ;;
  p <- subprocess_run submit_command script ;;
  (if bool_decide (returncode p ≠ 0) then
     logging ERROR
       ("Couldn't submit ourselves, rc " +:+ pretty (returncode p) +:+ ": "
          +:+ stderr p) ;;
     exit 1
   else ret tt) ;;
  ret p.

Definition record (wd : Path) (info : Info) (p : CompletedProcess) : M Info :=
  let info' := set_jobid (Some (PyStr.strip (stdout p))) info in
  write_text (jobinfo_file wd) (dump_info info') ;;
  ret info'.

Definition self_submission (info : Info) : M Info :=
  wd <- get_workdir ;;
  text <- read_template wd ;;
  p <- submit wd info text ;;
  record wd info p.

(** The handler [main] installs for [SIGUSR1]. *)
Definition usr1handler (info : Info) : M unit :=
  self_submission info ;;
  exit 0.

Definition jobid_str (j : option string) : string :=
  match j with Some s => s | None => "None" end.

(** [open(lock, "x")] and the registration of the handler that follows it. *)
Definition acquire (wd : Path) : M unit :=
  open_x (lock_file wd) ;;
  atexit_register (UnlinkMissingOk (lock_file wd)).

(** [vars(args)] with [jobid] set to [None], on the fresh-launch path, where
    [continuation] is false. *)
Definition fresh_info (args : Args) : Info :=
  {| i_debug := a_debug args;
     i_workdir := path_str (a_workdir args);
     i_continuation := false;
     i_jobid := None |}.

Definition submitted_message (info : Info) : string :=
  "Job initially submitted with jobid " +:+ jobid_str (i_jobid info).

Definition active_message : string :=
  "Jobinfo file already exists, service is already in the system".

Definition conflict_message : string := "Submission conflict".

(** The block under [if not args.continuation:] of [main].  It always ends
    the process, so it fits any result type. *)
Definition fresh_launch {A} (args : Args) (wd : Path) : M A :=
  try_except_only FileExistsError
    (acquire wd ;;
     j <- exists_ (jobinfo_file wd) ;;
     (if negb j then
        info <- self_submission (fresh_info args) ;;
        logging INFO (submitted_message info)
      else logging INFO active_message) ;;
     unlink_missing_ok (lock_file wd))
    (logging INFO conflict_message) ;;
  exit 0.

(** [main(self)], after [argparse] has produced [args].  The delivery of
    [SIGUSR1] to [usr1handler] is asynchronous and is not part of this
    sequential run. *)
Definition main (fuel : nat) (args : Args) : M unit :=
  modify (set_threshold (if a_debug args then DEBUG else INFO)) ;;
  set_workdir (a_workdir args) ;;
  wd <- get_workdir ;;
  d <- is_dir wd ;;
  (if negb d then
     logging ERROR
       ("The working directory " +:+ path_str wd +:+ " isn't a directory") ;;
     exit 1
   else ret tt) ;;
  s <- exists_ (submit_file wd) ;;
  (if negb s then
     logging ERROR "The working direcory doesn't contain a .submit file" ;;
     sample <- exists_ (sample_file wd) ;;
     (if negb sample then
        logging INFO "Creating a sample .submit file" ;;
        write_text (sample_file wd) sample_text
      else ret tt) ;;
     exit 1
   else ret tt) ;;
  j <- exists_ (jobinfo_file wd) ;;
  let continuation := a_continuation args && j in
  info <- (if negb continuation then fresh_launch args wd
           else
             text <- read_text (jobinfo_file wd) ;;
             safe_load_info text) ;;
  work fuel ;;
  logging INFO "Finished processing things.  Shutting down." ;;
  unlink_missing_ok (jobinfo_file wd).

(** Interpreter shutdown: the registered handlers run last-registered
    first; an exception in a handler is reported and otherwise ignored. *)
Fixpoint run_atexit (hs : list handler) (st : state) : state :=
  match hs with
  | [] => st
  | h :: hs' => snd (run_handler h (run_atexit hs' st))
  end.

(** One process from start to end: its exit status and the state it leaves.
    [None] is a process that has not come to an end within [fuel]. *)
Definition run_process (fuel : nat) (args : Args) (st : state) : option Z * state :=
  match main fuel args st with
  | (Return _, st') => (Some 0, run_atexit (atexit_handlers st') st')
  | (Exit c, st') => (Some c, run_atexit (atexit_handlers st') st')
  | (Raise _, st') => (Some 1, run_atexit (atexit_handlers st') st')
  | (Diverge, st') => (None, st')
  end.

End ClusterService.

(** ** [whisper_service.py] *)

Module Whisper.
Section Whisper.

Variable environ : gmap string string.
Variable main_file : Path.
Variable run_shell : string -> string -> CompletedProcess.
Variable load_descriptor : string -> option descriptor.
Variable load_info : string -> option Info.
Variable dump_info : Info -> string.

(** The [whisper] and [torch] libraries: the device name, whether
    [whisper.load_model] succeeds for a model name, and what the body of the
    [try] block computes for one item ([None]: it raises). *)
Variable device : string.
Variable load_model : string -> bool.
Variable transcribe : jobdata -> string -> option string.

(** [l.remove(x)]: drops the first occurrence, [ValueError] if there is
    none. *)
Fixpoint list_remove (x : string) (l : list string) : M (list string) :=
  match l with
  | [] => raise ValueError
  | y :: l' =>
      if bool_decide (x = y) then ret l'
      else (r <- list_remove x l' ;; ret (y :: r))
  end.

(** The truth value of a string. *)
Definition truthy (s : string) : bool := negb (bool_decide (s = "")).

Definition marker (dir : Path) (file : string) : Path :=
  dir // (file +:+ ".whisper.json").

(** The condition under which [filter_jobdata] removes [file], read on the
    file system of [st]. *)
Definition finished (st : state) (dir : Path) (file : string) : bool :=
  truthy file && match fs st !! marker dir file with Some _ => true | None => false end.

(** [for file in list(jobdata['manifest'])]: [files] is the copy being
    iterated, [m] the manifest being edited. *)
Fixpoint filter_loop (dir : Path) (files m : list string) : M (list string) :=
  match files with
  | [] => ret m
  | file :: rest =>
      finished <- (if truthy file then exists_ (marker dir file) else ret false) ;;
      if (finished : bool) then
        m' <- list_remove file m ;;
        filter_loop dir rest m'
      else filter_loop dir rest m
  end.

Definition filter_jobdata (jd : jobdata) : M jobdata :=
  m <- filter_loop (jobdir jd) (manifest jd) (manifest jd) ;;
  ret {| manifest := m; model := model jd; jobdir := jobdir jd; settled := settled jd |}.

Definition get_todo_list : nat -> string -> M (list jobdata) :=
  get_todo_list load_descriptor filter_jobdata.

(** The [try] block of [work] for one manifest entry, and its [except]. *)
Definition process_item (t : jobdata) (f : string) (process_count : nat) : M nat :=
  try_except
    (logging INFO ("Starting processing of " +:+ f) ;;
     st <- get ;;
     modify (add_handed (t, f, clock st)) ;;
     res <- match transcribe t f with
            | Some r => ret r
            | None => raise CallbackError
            end ;;
     write_text (marker (jobdir t) f) res ;;
     ret (S process_count))
    (fun _ =>
       logging ERROR ("Failed during transcription of " +:+ f) ;;
       ret process_count).

Fixpoint process_manifest (t : jobdata) (items : list string) (process_count : nat)
  : M nat :=
  match items with
  | [] => ret process_count
  | f :: rest =>
      n <- process_item t f process_count ;;
      process_manifest t rest n
  end.

Fixpoint process_jobs (model_name : string) (todo : list jobdata) (process_count : nat)
  : M nat :=
  match todo with
  | [] => ret process_count
  | t :: rest =>
      if bool_decide (model t ≠ model_name) then
        process_jobs model_name rest process_count
      else
        logging INFO ("Processing job in " +:+ path_str (jobdir t)) ;;
        n <- process_manifest t (manifest t) process_count ;;
        process_jobs model_name rest n
  end.

Fixpoint process_models (models : list string) (todo : list jobdata) (process_count : nat)
  : M nat :=
  match models with
  | [] => ret process_count
  | model_name :: rest =>
      logging INFO
        ("Starting processing for jobs using " +:+ model_name +:+ " model") ;;
      (if load_model model_name then ret tt else raise CallbackError) ;;
      n <- process_jobs model_name todo process_count ;;
      process_models rest todo n
  end.

(** The [while True] loop of [work]; the set of model names is listed
    without repetition. *)
Fixpoint work_loop (fuel : nat) : M unit :=
  match fuel with
  | O => diverge
  | S fuel' =>
      todo <- get_todo_list fuel "whisper.job" ;;
      match todo with
      | [] => ret tt
      | _ :: _ =>
          logging INFO
            ("Starting processing of " +:+ pretty (length todo) +:+ " jobs") ;;
          process_count <- process_models (remove_dups (map model todo)) todo 0%nat ;;
          match process_count with
          | O =>
              logging WARNING
                "Some processes didn't complete even though they were valid"
          | S _ => work_loop fuel'
          end
      end
  end.

Definition work (fuel : nat) : M unit :=
  logging INFO ("Whisper will use " +:+ device +:+ " for computation") ;;
  work_loop fuel.

Definition main : nat -> Args -> M unit :=
  main environ main_file run_shell load_info dump_info work.

Definition run_process : nat -> Args -> state -> option Z * state :=
  run_process environ main_file run_shell load_info dump_info work.

End Whisper.
End Whisper.

(** ** Two fresh launches on one working directory

    Two processes run [fresh_launch] on the same directory.  They share the
    file system, the clock and the traces of commands run and paths written;
    each has its own logger, its own [atexit] handlers and its own instance.
    A process advances by one block at a time, each block holding at most
    one file-system call, and the blocks of the two processes interleave in
    any order. *)

Module Race.
Section Race.

Variable environ : gmap string string.
Variable main_file : Path.
Variable run_shell : string -> string -> CompletedProcess.
Variable dump_info : Info -> string.

(** The working directory both processes were started on. *)
Variable wd : Path.

(** Where a process stands in [fresh_launch]. *)
Inductive pc :=
  | AtOpen
  | AtCheck
  | AtRead
  | AtRun (wd' : Path) (text : string)
  | AtWrite (wd' : Path) (p : CompletedProcess)
  | AtUnlink
  | AtExit (code : Z)
  | Done (code : Z).

Record proc := { at_ : pc; args : Args; own : state }.

Record world := { common : state; first : proc; second : proc }.

(** The state a process sees: the shared part of [c], its own part of
    [own p]. *)
Definition view (c : state) (p : proc) : state :=
  {| fs := fs c; clock := clock c; ran := ran c; written := written c;
     threshold := threshold (own p); log := log (own p);
     atexit_handlers := atexit_handlers (own p); handed := handed (own p);
     self := self (own p) |}.

(** How a block inside the [try] of [fresh_launch] hands over: to the next
    block, to [exit], to the [except FileExistsError] clause followed by
    [exit(0)], or to the interpreter's exit with status 1 on any other
    exception. *)
Definition leave {A} (r : outcome A * state) (next : A -> pc) : pc * state :=
  match r with
  | (Return a, st) => (next a, st)
  | (Exit c, st) => (AtExit c, st)
  | (Raise e, st) =>
      if decide (e = FileExistsError)
      then (AtExit 0, snd (logging INFO conflict_message st))
      else (AtExit 1, st)
  | (Diverge, st) => (AtExit 1, st)
  end.

Definition block (p : proc) (st : state) : pc * state :=
  match at_ p with
  | AtOpen => leave (acquire wd st) (fun _ => AtCheck)
  | AtCheck =>
      leave ((j <- exists_ (jobinfo_file wd) ;;
              if negb j then ret true
              else (logging INFO active_message ;; ret false)) st)
            (fun submit : bool => if submit then AtRead else AtUnlink)
  | AtRead =>
      leave ((wd' <- get_workdir ;;
              text <- read_template wd' ;;
              ret (wd', text)) st)
            (fun '(wd', text) => AtRun wd' text)
  | AtRun wd' text =>
      leave (submit environ main_file run_shell wd' (fresh_info (args p)) text st)
            (AtWrite wd')
  | AtWrite wd' r =>
      leave ((info <- record dump_info wd' (fresh_info (args p)) r ;;
              logging INFO (submitted_message info)) st)
            (fun _ => AtUnlink)
  | AtUnlink => leave (unlink_missing_ok (lock_file wd) st) (fun _ => AtExit 0)
  | AtExit code => (Done code, run_atexit (atexit_handlers st) st)
  | Done code => (Done code, st)
  end.

Definition step_proc (c : state) (p : proc) : state * proc :=
  let '(pc', st') := block p (view c p) in
  (st', {| at_ := pc'; args := args p; own := st' |}).

(** The scheduler picks the second process ([true]) or the first. *)
Definition step (w : world) (who : bool) : world :=
  if who then
    let '(c, p) := step_proc (common w) (second w) in
    {| common := c; first := first w; second := p |}
  else
    let '(c, p) := step_proc (common w) (first w) in
    {| common := c; first := p; second := second w |}.

Definition run (schedule : list bool) (w : world) : world :=
  fold_left step schedule w.

(** Both processes at the start of [fresh_launch], as [main] leaves them:
    the logger at the level the arguments ask for, the instance knowing the
    working directory, nothing logged and no handler registered.  The shared
    traces start empty. *)
Definition fresh_state (files : filesystem) (now : Z) (a : Args) : state :=
  {| fs := files; clock := now;
     threshold := if a_debug a then DEBUG else INFO;
     log := []; ran := []; written := []; atexit_handlers := []; handed := [];
     self := {| JOB_SETTLE_TIME := 300; workdir := Some wd;
                job_warnings := None |} |}.

Definition fresh_proc (files : filesystem) (now : Z) (a : Args) : proc :=
  {| at_ := AtOpen; args := a; own := fresh_state files now a |}.

Definition start (files : filesystem) (now : Z) (a1 a2 : Args) : world :=
  {| common := fresh_state files now a1;
     first := fresh_proc files now a1;
     second := fresh_proc files now a2 |}.

(** What a process has observed, read off its log. *)
Definition says (msg : string) (p : proc) : bool :=
  existsb (fun e => bool_decide (e = (INFO, msg))) (log (own p)).

Definition announces_submission (p : proc) : bool :=
  existsb (fun e => match e with
                    | (INFO, msg) =>
                        String.prefix "Job initially submitted with jobid " msg
                    | _ => false
                    end)
          (log (own p)).

(** How often [jobinfo.yaml] has been opened for writing. *)
Definition records_created (w : world) : nat :=
  length (List.filter (fun p => bool_decide (p = jobinfo_file wd)) (written (common w))).

(** How many submission commands have been run. *)
Definition submissions (w : world) : nat := length (ran (common w)).

(** The blocks a process still has to run. *)
Definition remaining (k : pc) : nat :=
  match k with
  | AtOpen => 7
  | AtCheck => 6
  | AtRead => 5
  | AtRun _ _ => 4
  | AtWrite _ _ => 3
  | AtUnlink => 2
  | AtExit _ => 1
  | Done _ => 0
  end.

(** Phases of a process: between acquiring the lock and unlinking it; having
    found no [jobinfo.yaml] and not yet run the command; having run the
    command and not yet written [jobinfo.yaml]. *)
Definition guarded (k : pc) : bool :=
  match k with
  | AtCheck | AtRead | AtRun _ _ | AtWrite _ _ | AtUnlink => true
  | _ => false
  end.

Definition submitting (k : pc) : bool :=
  match k with
  | AtRead | AtRun _ _ => true
  | _ => false
  end.

Definition recording (k : pc) : bool :=
  match k with
  | AtWrite _ _ => true
  | _ => false
  end.

Definition leaving (k : pc) : bool :=
  match k with
  | AtUnlink | AtExit _ | Done _ => true
  | _ => false
  end.

Definition observed (p : proc) : bool :=
  announces_submission p || says active_message p || says conflict_message p.

(** What holds of one process at every point of a race in which the
    submission command succeeds. *)
Record proc_ok (p : proc) : Prop := {
  ok_workdir : workdir (self (own p)) = Some wd;
  ok_threshold : (level_rank (threshold (own p)) <=? level_rank INFO)%nat = true;
  ok_handlers :
    atexit_handlers (own p) = []
    \/ (at_ p <> AtOpen
        /\ atexit_handlers (own p) = [UnlinkMissingOk (lock_file wd)]);
  ok_pc :
    match at_ p with
    | AtRun wd' _ => wd' = wd
    | AtWrite wd' _ => wd' = wd
    | AtExit c => c = 0
    | Done c => c = 0
    | _ => True
    end;
  ok_quiet : leaving (at_ p) = false -> announces_submission p = false;
  ok_observed : leaving (at_ p) = true -> observed p = true
}.

(** What holds of the shared state and the two processes together. *)
Record inv (c : state) (p q : proc) : Prop := {
  inv_p : proc_ok p;
  inv_q : proc_ok q;
  inv_template : exists text mtime, fs c !! submit_file wd = Some (File text mtime);
  inv_mutex : guarded (at_ p) && guarded (at_ q) = false;
  inv_held_p : guarded (at_ p) = true -> at_ q = AtOpen ->
               is_Some (fs c !! lock_file wd);
  inv_held_q : guarded (at_ q) = true -> at_ p = AtOpen ->
               is_Some (fs c !! lock_file wd);
  inv_lock : guarded (at_ p) || guarded (at_ q) = true ->
             fs c !! lock_file wd <> Some Dir;
  inv_absent : submitting (at_ p) || recording (at_ p)
               || submitting (at_ q) || recording (at_ q) = true ->
               fs c !! jobinfo_file wd = None;
  inv_announced :
    length (List.filter (fun f => bool_decide (f = jobinfo_file wd)) (written c))
    = ((if announces_submission p then 1 else 0)
       + (if announces_submission q then 1 else 0))%nat;
  inv_stage :
    let created :=
      length (List.filter (fun f => bool_decide (f = jobinfo_file wd)) (written c)) in
    if recording (at_ p) || recording (at_ q)
    then length (ran c) = 1%nat /\ created = 0%nat
    else if submitting (at_ p) || submitting (at_ q)
    then length (ran c) = 0%nat /\ created = 0%nat
    else (length (ran c) = 0%nat /\ created = 0%nat)
         \/ (length (ran c) = 1%nat /\ created = 1%nat
             /\ is_Some (fs c !! jobinfo_file wd))
}.

Definition invariant (w : world) : Prop := inv (common w) (first w) (second w).

(** A process run on its own, block after block. *)
Fixpoint alone (n : nat) (c : state) (p : proc) : state * proc :=
  match n with
  | O => (c, p)
  | S n' => let '(c', p') := step_proc c p in alone n' c' p'
  end.

(** What is left of the [try] block of [fresh_launch] for a process with
    arguments [a] that stands at [k]: the blocks from [k] on, in the order
    of the source. *)
Definition release : M unit := unlink_missing_ok (lock_file wd).

Definition ahead_write (a : Args) (wd' : Path) (r : CompletedProcess) : M unit :=
  info <- record dump_info wd' (fresh_info a) r ;;
  logging INFO (submitted_message info) ;;
  release.

Definition ahead_run (a : Args) (wd' : Path) (text : string) : M unit :=
  r <- submit environ main_file run_shell wd' (fresh_info a) text ;;
  ahead_write a wd' r.

Definition ahead_read (a : Args) : M unit :=
  wd' <- get_workdir ;;
  text <- read_template wd' ;;
  ahead_run a wd' text.

Definition ahead_check (a : Args) : M unit :=
  j <- exists_ (jobinfo_file wd) ;;
  if negb j then ahead_read a
  else (logging INFO active_message ;; release).

Definition ahead_open (a : Args) : M unit :=
  acquire wd ;;
  ahead_check a.

(** The [try ... except FileExistsError] around such a remainder, and the
    [exit(0)] after it. *)
Definition guard (body : M unit) : M unit :=
  try_except_only FileExistsError body (logging INFO conflict_message) ;;
  exit 0.

(** The exit status of a process that ended with outcome [o]. *)
Definition status {A} (o : outcome A) : Z :=
  match o with
  | Return _ => 0
  | Exit code => code
  | Raise _ => 1
  | Diverge => 1
  end.

(** The end of a process whose [main] ended as [r]: the handlers run. *)
Definition finish (a : Args) (r : outcome unit * state) : state * proc :=
  let st := run_atexit (atexit_handlers (snd r)) (snd r) in
  (st, {| at_ := Done (status (fst r)); args := a; own := st |}).

End Race.
End Race.

(** ** Concrete runs

    A working directory [/jobs/run1] with collaborators fixed: a scheduler
    that accepts or rejects the submission, a table of descriptor texts, and
    a transcription that succeeds or fails. *)

Module Scenario.

Definition wd : Path := ["jobs"; "run1"].
Definition main_file : Path := ["opt"; "whisper_service.py"].
Definition environ : gmap string string := {[ "HOME" := "/home/amp" ]}.

Definition load_descriptor (text : string) : option descriptor :=
  if bool_decide (text = "small: a b")
  then Some {| d_manifest := ["a"; "b"]; d_model := "small" |}
  else if bool_decide (text = "small: c")
  then Some {| d_manifest := ["c"]; d_model := "small" |}
  else None.

Definition dump_info (i : Info) : string := "jobid: " +:+ jobid_str (i_jobid i).

Definition load_info (text : string) : option Info :=
  if bool_decide (text = "jobid: 4242")
  then Some {| i_debug := false; i_workdir := "/jobs/run1";
               i_continuation := false; i_jobid := Some "4242" |}
  else None.

Definition accepted (command script : string) : CompletedProcess :=
  {| returncode := 0; stdout := "4242" +:+ nl; stderr := "" |}.

Definition rejected (command script : string) : CompletedProcess :=
  {| returncode := 3; stdout := ""; stderr := "no partition" |}.

Definition device : string := "cpu".
Definition load_model (name : string) : bool := true.
Definition transcribes (t : jobdata) (f : string) : option string := Some "{}".
Definition fails (t : jobdata) (f : string) : option string := None.

(** A process that has just started [Whisper().main()]: the instance as
    [__init__] leaves it, the root logger at its default level. *)
Definition boot (files : list (Path * node)) (now : Z) : state :=
  {| fs := list_to_map files; clock := now; threshold := WARNING; log := [];
     ran := []; written := []; atexit_handlers := []; handed := [];
     self := init None 300 |}.

Definition base : list (Path * node) :=
  [ (wd, Dir); (wd // ".submit", File "sbatch -D $workdir" 0) ].

Definition running : list (Path * node) :=
  (base ++ [ (wd // "jobinfo.yaml", File "jobid: 4242" 0) ])%list.

Definition job_A : list (Path * node) :=
  [ (wd // "A", Dir);
    (wd // "A" // "whisper.job", File "small: a b" 0);
    (wd // "A" // "a.whisper.json", File "{}" 0) ].

Definition job_B : list (Path * node) :=
  [ (wd // "B", Dir);
    (wd // "B" // "whisper.job", File "small: c" 900) ].

Definition job_M : list (Path * node) :=
  [ (wd // "M", Dir);
    (wd // "M" // "whisper.job", File "manifest: [a" 0) ].

(** At time 1000 with a settle time of 300, [A]'s descriptor (modified at
    0) is settled, [B]'s (modified at 900) is not. *)
Definition mixed : state := boot (running ++ job_A ++ job_B)%list 1000.
Definition unsettled : state := boot (running ++ job_B)%list 1000.
Definition drained : state := boot running 1000.
Definition malformed : state := boot (running ++ job_M ++ job_A)%list 1000.
Definition settled_A : state := boot (running ++ job_A)%list 1000.
Definition cold : state := boot base 1000.

Definition continuation : Args :=
  {| a_debug := false; a_workdir := wd; a_continuation := true |}.
Definition launch : Args :=
  {| a_debug := false; a_workdir := wd; a_continuation := false |}.

(** The instance once [main] has stored the working directory. *)
Definition in_work (st : state) : state :=
  set_self {| JOB_SETTLE_TIME := JOB_SETTLE_TIME (self st);
              workdir := Some wd;
              job_warnings := job_warnings (self st) |}
           (set_threshold INFO st).

Definition get_todo_list : nat -> string -> M (list jobdata) :=
  Whisper.get_todo_list load_descriptor.

Definition work (transcribe : jobdata -> string -> option string) : nat -> M unit :=
  Whisper.work load_descriptor device load_model transcribe.

Definition run_process (run_shell : string -> string -> CompletedProcess)
    (transcribe : jobdata -> string -> option string)
  : nat -> Args -> state -> option Z * state :=
  Whisper.run_process environ main_file run_shell load_descriptor load_info
    dump_info device load_model transcribe.

End Scenario.

(** ** [activate_venv.py] *)

Module ActivateVenv.

Inductive error :=
  | KeyError (key : string)
  | ValueError
  | OSError.

(** The importing process: [os.environ] and what has been printed. *)
Record process := {
  environ : gmap string string;
  printed : list string
}.

(** How a statement leaves the process: still running, with an exception, or
    replaced by [os.execve(path, argv, os.environ)]. *)
Inductive status :=
  | Running
  | Raised (e : error)
  | Replaced (path : string) (argv : list string).

Definition stmt := process -> status * process.

(** Statements in sequence. *)
Fixpoint run (body : list stmt) (p : process) : status * process :=
  match body with
  | [] => (Running, p)
  | s :: rest =>
      match s p with
      | (Running, p') => run rest p'
      | r => r
      end
  end.

Definition print (line : string) : stmt :=
  fun p => (Running, {| environ := environ p; printed := (printed p ++ [line])%list |}).

(** [print(label, os.environ[key])] *)
Definition print_env (label key : string) : stmt :=
  fun p =>
    match environ p !! key with
    | Some v => print (label +:+ " " +:+ v) p
    | None => (Raised (KeyError key), p)
    end.

Definition nul : ascii := ascii_of_nat 0.

Definition has_nul (s : string) : bool :=
  existsb (Ascii.eqb nul) (list_ascii_of_string s).

(** The names [os.putenv] refuses: empty, or with [=] or a null byte. *)
Definition illegal_name (key : string) : bool :=
  bool_decide (key = "")
  || existsb (fun c => Ascii.eqb c "="%char || Ascii.eqb c nul) (list_ascii_of_string key).

(** [os.environ[key] = val] *)
Definition setenv (key val : string) : stmt :=
  fun p =>
    if illegal_name key || has_nul val then (Raised ValueError, p)
    else (Running, {| environ := <[key := val]> (environ p); printed := printed p |}).

(** [update_env(key, val, delim)], [val] already converted by [str]. *)
Definition update_env (key val : string) (delim : string) : stmt :=
  fun p =>
    match environ p !! key with
    | Some old => setenv key (val +:+ delim +:+ old) p
    | None => setenv key val p
    end.

(** [str(p / name)] for the string [p] of a resolved path. *)
Definition child (p name : string) : string :=
  if bool_decide (p = "/") then "/" +:+ name else p +:+ "/" +:+ name.

Section Bootstrap.

(** [sys.path[0]], the resolved [.venv] below it, the directories that hold
    a shared library below [.venv] in the order the set lists them, the
    entries of [.venv/environ] with their text ([None]: it cannot be read),
    the resolved [__main__.__file__], [sys.argv] and whether [os.execve]
    succeeds; and the texts [print] makes of the interpreter version, of the
    process id and of [sys.argv]. *)
Variable script_dir : string.
Variable venv_path : string.
Variable lib_dirs : list string.
Variable environ_files : list (string * option string).
Variable this_script : string.
Variable argv : list string.
Variable executable : bool.
Variable python_version pid argv_repr : string.

Definition update_lib_path (debug : bool) : stmt :=
  run (map (fun p => update_env "LD_LIBRARY_PATH" p ":") lib_dirs
       ++ (if debug then [print_env "LD_LIBRARY_PATH:" "LD_LIBRARY_PATH"] else []))%list.

(** One turn of [for p in (venv_path / "environ").glob('*')]. *)
Definition load_environ_file (entry : string * option string) : stmt :=
  fun p =>
    match snd entry with
    | Some text => update_env (fst entry) (PyStr.strip text) ":" p
    | None => (Raised OSError, p)
    end.

Definition execve : stmt :=
  fun p => if executable then (Replaced this_script argv, p) else (Raised OSError, p).

(** The module body, run when [activate_venv] is imported.  The second of
    sleep before the re-exec in debug mode is left out: the process keeps no
    clock. *)
Definition bootstrap : stmt :=
  fun p =>
    let debug := bool_decide (is_Some (environ p !! "ACTIVATE_DEBUG")) in
    run
      ((if debug then [print ("Using Python Version: " +:+ python_version)] else [])
       ++ [fun p =>
             match environ p !! "VENV_RESTART" with
             | None =>
                 run
                   ([ update_env "VIRTUAL_ENV" venv_path ":";
                      update_env "PATH" (child venv_path "bin") ":";
                      update_env "VENV_RESTART" "1" ":";
                      update_lib_path debug;
                      update_env "PYTHONPATH" script_dir ":" ]
                    ++ map load_environ_file environ_files
                    ++ (if debug then
                          [ print ("Preparing to re-exec " +:+ pid);
                            print ("args: " +:+ this_script +:+ " " +:+ argv_repr) ]
                        else [])
                    ++ [execve])%list p
             | Some _ =>
                 run
                   (if debug then
                      [ print ("Second go-round " +:+ pid);
                        print_env "PATH:" "PATH";
                        print_env "LD_LIBRARY_PATH:" "LD_LIBRARY_PATH" ]
                    else []) p
             end])%list p.

End Bootstrap.

(** The process [os.execve] starts: the environment it was given, nothing
    printed yet. *)
Definition restarted (p : process) : process :=
  {| environ := environ p; printed := [] |}.

(** Every variable of [env] is still set in [env'], its old value at the end
    of the new one. *)
Definition extends (env env' : gmap string string) : Prop :=
  forall key old, env !! key = Some old ->
    exists pre, env' !! key = Some (pre +:+ old).

(** A statement that only adds to the environment, in front of what is
    there, and does not replace the process. *)
Definition grows (s : stmt) : Prop :=
  forall p, extends (environ p) (environ (snd (s p)))
            /\ forall path argv, fst (s p) <> Replaced path argv.

(** A statement that leaves the environment as it is and ends running or
    with a [KeyError]. *)
Definition looks (s : stmt) : Prop :=
  forall p, environ (snd (s p)) = environ p
            /\ (fst (s p) = Running \/ exists key, fst (s p) = Raised (KeyError key)).

End ActivateVenv.

(** ** States and measures the properties are stated with *)

(** The state in which [main] goes on once it has set the logger level and
    stored the working directory. *)
Definition after_setup (args : Args) (st : state) : state :=
  set_self {| JOB_SETTLE_TIME := JOB_SETTLE_TIME (self st);
              workdir := Some (a_workdir args);
              job_warnings := job_warnings (self st) |}
           (set_threshold (if a_debug args then DEBUG else INFO) st).

(** The state a call of [logging] leaves. *)
Definition logged (l : level) (msg : string) (st : state) : state :=
  if (level_rank (threshold st) <=? level_rank l)%nat then add_log (l, msg) st else st.

(** What [main] does when [.submit] is missing, as a computation of its own. *)
Definition refuse_unconfigured (wd : Path) : M unit :=
  logging ERROR "The working direcory doesn't contain a .submit file" ;;
  sample <- exists_ (sample_file wd) ;;
  (if negb sample then
     logging INFO "Creating a sample .submit file" ;;
     write_text (sample_file wd) sample_text
   else ret tt) ;;
  exit 1.

(** What a computation that only looks leaves as it was: the files, the
    commands run, the paths written, the items handed to the callback and the
    exit handlers. *)
Definition untouched (st st' : state) : Prop :=
  fs st' = fs st /\ ran st' = ran st /\ written st' = written st
  /\ handed st' = handed st /\ atexit_handlers st' = atexit_handlers st.

Definition read_only {A} (m : M A) : Prop :=
  forall st, untouched st (snd (m st)).

(** The entries of the jobs of a to-do list, each with its job, in the order
    of the list, and the record [work] keeps of handing one over at time
    [now]. *)
Definition items_of (todo : list jobdata) : list (jobdata * string) :=
  flat_map (fun t => map (pair t) (manifest t)) todo.

Definition stamp (now : Z) (items : list (jobdata * string))
  : list (jobdata * string * Z) :=
  map (fun i => (i, now)) items.

(** Whether the [try] block of [work] gets to its end for entry [f] of job
    [t]: the callback gives a result and the marker can be opened for
    writing. *)
Definition completes (transcribe : jobdata -> string -> option string)
    (st : state) (t : jobdata) (f : string) : bool :=
  match transcribe t f with
  | Some _ =>
      match fs st !! Whisper.marker (jobdir t) f with
      | Some Dir => false
      | _ => true
      end
  | None => false
  end.

(** Same directories, same clock, same commands and handlers. *)
Definition steady (st st' : state) : Prop :=
  clock st' = clock st /\ ran st' = ran st
  /\ atexit_handlers st' = atexit_handlers st
  /\ (forall p, fs st' !! p = Some Dir <-> fs st !! p = Some Dir).

(** What discovery makes of one descriptor, read on the state [st]: nothing
    when the file cannot be read or parsed or when every entry of its manifest
    has its marker; otherwise the job with the entries still to do. *)
Definition pending_job (load_descriptor : string -> option descriptor)
    (st : state) (jobfile : Path) : option jobdata :=
  match fs st !! jobfile with
  | Some (File text mtime) =>
      match load_descriptor text with
      | Some d =>
          match List.filter (fun f => negb (Whisper.finished st (parent jobfile) f))
                  (d_manifest d) with
          | [] => None
          | m =>
              Some {| manifest := m; model := d_model d; jobdir := parent jobfile;
                      settled := (JOB_SETTLE_TIME (self st) <? clock st - mtime) |}
          end
      | None => None
      end
  | _ => None
  end.

(** Whether the descriptor can be read and parsed. *)
Definition readable (load_descriptor : string -> option descriptor)
    (st : state) (jobfile : Path) : Prop :=
  exists text mtime d,
    fs st !! jobfile = Some (File text mtime) /\ load_descriptor text = Some d.

(** Two states discovery cannot tell apart. *)
Definition same_view (st st' : state) : Prop :=
  fs st' = fs st /\ clock st' = clock st
  /\ JOB_SETTLE_TIME (self st') = JOB_SETTLE_TIME (self st)
  /\ workdir (self st') = workdir (self st)
  /\ (is_Some (job_warnings (self st)) -> is_Some (job_warnings (self st'))).

(** ** More concrete situations *)

Module Startup.

Definition script_dir : string := "/opt/amp".
Definition venv_path : string := "/opt/amp/.venv".
Definition lib_dirs : list string := ["/opt/amp/.venv/lib"].
Definition environ_files : list (string * option string) :=
  [("HF_HOME", Some ("/srv/models" +:+ nl))].
Definition this_script : string := "/opt/amp/whisper_service.py".
Definition argv : list string := ["whisper_service.py"; "/jobs/run1"].

Definition bootstrap (executable : bool) : ActivateVenv.stmt :=
  ActivateVenv.bootstrap script_dir venv_path lib_dirs environ_files this_script argv
    executable "('3', '11', '4')" "4711" "['whisper_service.py', '/jobs/run1']".

(** A login shell's environment, and one in which debugging was asked for
    in a tree without shared libraries. *)
Definition login : ActivateVenv.process :=
  {| ActivateVenv.environ := {[ "PATH" := "/usr/bin" ]}; ActivateVenv.printed := [] |}.

Definition debugging : ActivateVenv.process :=
  {| ActivateVenv.environ := {[ "ACTIVATE_DEBUG" := "1" ]}; ActivateVenv.printed := [] |}.

End Startup.

(** A working directory in which [jobinfo.yaml] is a directory, one in which
    it does not parse, an instance with [job_warnings] assigned, and a
    to-do list of two jobs with different models. *)
Definition blocked_record : state :=
  Scenario.in_work
    (Scenario.boot (Scenario.base ++ [(jobinfo_file Scenario.wd, Dir)])%list 1000).

Definition garbled : state :=
  Scenario.boot (Scenario.base ++ [(jobinfo_file Scenario.wd, File "jobid: [" 0)])%list 1000.

Definition warned (seen : gset Path) (st : state) : state :=
  set_self {| JOB_SETTLE_TIME := JOB_SETTLE_TIME (self st);
              workdir := workdir (self st);
              job_warnings := Some seen |} st.

Definition two_jobs : list jobdata :=
  [ {| manifest := ["a"; "b"]; model := "small"; jobdir := Scenario.wd // "A";
       settled := true |};
    {| manifest := ["c"]; model := "large"; jobdir := Scenario.wd // "B";
       settled := false |} ].

(** * Properties *)

(** ** Template rendering *)

Module TemplateFacts.
Import Template.

Lemma take_id_length s name rest :
  take_id s = (name, rest) -> (String.length rest <= String.length s)%nat.
Proof.
  revert name rest.
  induction s as [|c s IH]; intros name rest H; simpl in H.
  - inversion H; subst; simpl; lia.
  - destruct (is_idchar c).
    + destruct (take_id s) as [n r] eqn:E. inversion H; subst.
      specialize (IH _ _ eq_refl). simpl. lia.
    + inversion H; subst. simpl. lia.
Qed.

Lemma braced_length s name after :
  braced s = Some (name, after) -> (String.length after < String.length s)%nat.
Proof.
  unfold braced. destruct s as [|c s]; [discriminate|].
  destruct (is_idstart c); [|discriminate].
  destruct (take_id (String c s)) as [n r] eqn:E.
  destruct r as [|c' r]; [discriminate|].
  destruct (Ascii.eqb c' "}"); [|discriminate].
  intros H; inversion H; subst.
  apply take_id_length in E. simpl in *. lia.
Qed.

(** Any fuel that covers the text gives the same rendering. *)
Lemma sub_fuel mapping n : forall m s,
  (String.length s <= n)%nat -> (String.length s <= m)%nat ->
  sub n mapping s = sub m mapping s.
Proof.
  induction n as [|n IH]; intros m s Hn Hm.
  - destruct s; simpl in Hn; [|lia]. destruct m; reflexivity.
  - destruct s as [|c rest]; [destruct m; reflexivity|].
    destruct m as [|m]; [simpl in Hm; lia|].
    simpl in Hn, Hm. cbn [sub].
    destruct (negb (Ascii.eqb c dollar)).
    { f_equal. apply IH; lia. }
    destruct rest as [|c1 rest']; [reflexivity|].
    simpl in Hn, Hm.
    destruct (Ascii.eqb c1 dollar).
    { f_equal. apply IH; lia. }
    destruct (is_idstart c1).
    { destruct (take_id (String c1 rest')) as [name after] eqn:E.
      apply take_id_length in E. simpl in E.
      f_equal. apply IH; lia. }
    destruct (Ascii.eqb c1 "{").
    { destruct (braced rest') as [[name after]|] eqn:E.
      - apply braced_length in E. f_equal. apply IH; lia.
      - f_equal. apply IH; simpl; lia. }
    f_equal. apply IH; simpl; lia.
Qed.

Lemma idstart_not_dollar c : is_idstart c = true -> Ascii.eqb c dollar = false.
Proof.
  intros H. destruct (Ascii.eqb_spec c dollar) as [->|]; [|reflexivity].
  vm_compute in H. discriminate.
Qed.

Lemma idstart_idchar c : is_idstart c = true -> is_idchar c = true.
Proof. unfold is_idchar. intros ->. reflexivity. Qed.

Lemma append_nil (t : string) : EmptyString +:+ t = t.
Proof. reflexivity. Qed.

Lemma append_cons c (s t : string) : String c s +:+ t = String c (s +:+ t).
Proof. reflexivity. Qed.

Lemma take_id_run name post :
  forallb is_idchar (list_ascii_of_string name) = true ->
  breaks_id post = true ->
  take_id (name +:+ post) = (name, post).
Proof.
  induction name as [|c name IH]; intros Hn Hp.
  - rewrite append_nil. destruct post as [|c post]; [reflexivity|].
    simpl in *. apply negb_true_iff in Hp. rewrite Hp. reflexivity.
  - rewrite append_cons. simpl in Hn. apply andb_prop in Hn as [Hc Hn].
    simpl. rewrite Hc, (IH Hn Hp). reflexivity.
Qed.

Lemma length_append (s t : string) :
  String.length (s +:+ t) = (String.length s + String.length t)%nat.
Proof.
  induction s as [|c s IH]; [reflexivity|].
  rewrite append_cons. simpl. rewrite IH. reflexivity.
Qed.

Lemma append_assoc (s t u : string) : (s +:+ t) +:+ u = s +:+ (t +:+ u).
Proof.
  induction s as [|c s IH]; [reflexivity|].
  rewrite !append_cons, IH. reflexivity.
Qed.

(** Text without a delimiter is copied. *)
Lemma safe_substitute_text mapping pre s :
  no_dollar pre = true ->
  safe_substitute mapping (pre +:+ s) = pre +:+ safe_substitute mapping s.
Proof.
  unfold safe_substitute, no_dollar.
  induction pre as [|c pre IH]; intros H; [reflexivity|].
  rewrite !append_cons. simpl in H. apply andb_prop in H as [Hc H].
  simpl. rewrite Hc. f_equal. apply IH, H.
Qed.

(** [$name] becomes the value of [name], or stays. *)
Lemma safe_substitute_named mapping name post :
  identifier name = true ->
  breaks_id post = true ->
  safe_substitute mapping (String dollar (name +:+ post))
  = convert mapping name (String dollar name) +:+ safe_substitute mapping post.
Proof.
  intros Hid Hp. unfold safe_substitute.
  destruct name as [|c name]; [discriminate|].
  simpl in Hid. apply andb_prop in Hid as [Hc Hn].
  change (String.length (String dollar (String c name +:+ post)))
    with (S (String.length (String c name +:+ post))).
  cbn [sub]. change (Ascii.eqb dollar dollar) with true. cbn [negb].
  change (String c name +:+ post) with (String c (name +:+ post)).
  cbv iota. rewrite (idstart_not_dollar _ Hc), Hc.
  change (String c (name +:+ post)) with (String c name +:+ post).
  rewrite take_id_run; [|simpl; rewrite (idstart_idchar _ Hc); exact Hn|exact Hp].
  f_equal. apply sub_fuel; rewrite ?length_append; lia.
Qed.

(** [${name}] becomes the value of [name], or stays. *)
Lemma safe_substitute_braced mapping name post :
  identifier name = true ->
  safe_substitute mapping (String dollar ("{" +:+ name +:+ "}" +:+ post))
  = convert mapping name (String dollar ("{" +:+ name +:+ "}"))
      +:+ safe_substitute mapping post.
Proof.
  intros Hid. unfold safe_substitute.
  destruct name as [|c name]; [discriminate|].
  simpl in Hid. apply andb_prop in Hid as [Hc Hn].
  assert (Hb : braced (String c name +:+ "}" +:+ post) = Some (String c name, post)).
  { unfold braced. rewrite append_cons. cbv beta iota. rewrite Hc.
    rewrite <- append_cons.
    rewrite take_id_run; [reflexivity| |reflexivity].
    simpl. rewrite (idstart_idchar _ Hc). exact Hn. }
  change ("{" +:+ String c name +:+ "}" +:+ post)
    with (String "{" (String c name +:+ "}" +:+ post)).
  change (String.length (String dollar (String "{" (String c name +:+ "}" +:+ post))))
    with (S (S (String.length (String c name +:+ "}" +:+ post)))).
  set (n := S (String.length (String c name +:+ "}" +:+ post))).
  cbn [sub]. change (Ascii.eqb dollar dollar) with true. cbn [negb]. cbv iota.
  change (Ascii.eqb "{" dollar) with false. cbv iota.
  change (is_idstart "{") with false. cbv iota.
  change (Ascii.eqb "{" "{") with true. cbv iota.
  rewrite Hb. f_equal. subst n.
  apply sub_fuel; rewrite ?length_append; simpl; rewrite ?length_append; simpl; lia.
Qed.

(** An escaped delimiter becomes one delimiter; a delimiter that starts no
    placeholder stays. *)
Lemma safe_substitute_escaped mapping post :
  safe_substitute mapping (String dollar (String dollar post))
  = String dollar (safe_substitute mapping post).
Proof.
  unfold safe_substitute. simpl String.length.
  set (n := S (String.length post)). cbn [sub].
  change (Ascii.eqb dollar dollar) with true. cbn [negb]. cbv iota.
  f_equal. subst n. apply sub_fuel; lia.
Qed.

End TemplateFacts.

Lemma template_vars_lookup (wd : Path) (environ : gmap string string) (name : string) :
  template_vars wd environ !! name
  = match environ !! name with
    | Some v => Some v
    | None => if bool_decide (name = "workdir") then Some (path_str wd) else None
    end.
Proof.
  unfold template_vars, dict_update. rewrite lookup_union.
  destruct (environ !! name) as [v|] eqn:E.
  - destruct ({["workdir" := path_str wd]} !! name); reflexivity.
  - case_bool_decide as Hn.
    + subst name. rewrite lookup_singleton_eq. reflexivity.
    + rewrite lookup_singleton_ne by congruence. reflexivity.
Qed.

(** C8 (amended).  Rendering is a total function of the template text, the
    working directory and the environment.  After text without a delimiter,
    a placeholder [$name] or [${name}] becomes the value of [name] in the
    environment; [$workdir] becomes the working directory when the
    environment defines no variable of that name; a placeholder that names
    neither is left in the command as it was written.  For an environment
    that defines no [workdir], the template [sbatch -D $workdir] on
    [/jobs/run1] renders to [sbatch -D /jobs/run1]. *)
Theorem render_substitutes (wd : Path) (environ : gmap string string) :
  let vars := template_vars wd environ in
  let value (name written : string) : string :=
    match environ !! name with
    | Some v => v
    | None => if bool_decide (name = "workdir") then path_str wd else written
    end in
  (forall pre name post,
      Template.no_dollar pre = true ->
      Template.identifier name = true ->
      Template.breaks_id post = true ->
      Template.safe_substitute vars (pre +:+ String "$" (name +:+ post))
      = pre +:+ value name (String "$" name) +:+ Template.safe_substitute vars post)
  /\ (forall pre name post,
      Template.no_dollar pre = true ->
      Template.identifier name = true ->
      Template.safe_substitute vars (pre +:+ String "$" ("{" +:+ name +:+ "}" +:+ post))
      = pre +:+ value name (String "$" ("{" +:+ name +:+ "}"))
          +:+ Template.safe_substitute vars post)
  /\ (environ !! "workdir" = None ->
      render ["jobs"; "run1"] environ "sbatch -D $workdir" = "sbatch -D /jobs/run1").
Proof.
  intros vars value.
  assert (Hconv : forall name written,
             Template.convert vars name written = value name written).
  { intros name w. unfold Template.convert, vars, value.
    rewrite template_vars_lookup.
    destruct (environ !! name); [reflexivity|]. case_bool_decide; reflexivity. }
  split; [|split].
  - intros pre name post Hpre Hid Hpost.
    rewrite TemplateFacts.safe_substitute_text by exact Hpre.
    change (String "$" (name +:+ post)) with (String Template.dollar (name +:+ post)).
    rewrite TemplateFacts.safe_substitute_named by assumption.
    rewrite Hconv. reflexivity.
  - intros pre name post Hpre Hid.
    rewrite TemplateFacts.safe_substitute_text by exact Hpre.
    change (String "$" ("{" +:+ name +:+ "}" +:+ post))
      with (String Template.dollar ("{" +:+ name +:+ "}" +:+ post)).
    rewrite TemplateFacts.safe_substitute_braced by assumption.
    rewrite Hconv. reflexivity.
  - intros Hnone. unfold render.
    change (PyStr.strip "sbatch -D $workdir")
      with ("sbatch -D " +:+ String Template.dollar ("workdir" +:+ "")).
    rewrite TemplateFacts.safe_substitute_text by reflexivity.
    rewrite TemplateFacts.safe_substitute_named by reflexivity.
    unfold Template.convert. rewrite template_vars_lookup, Hnone.
    reflexivity.
Qed.

(** Rendering against an environment that defines [HOME] only. *)
Lemma render_substitutes_witness :
  render ["jobs"; "run1"] Scenario.environ "sbatch -D $workdir" = "sbatch -D /jobs/run1"
  /\ Template.safe_substitute (template_vars Scenario.wd Scenario.environ)
       ("cd " +:+ String "$" ("HOME" +:+ "/x $nonexistent"))
     = "cd /home/amp/x $nonexistent".
Proof.
  split.
  - apply (render_substitutes Scenario.wd Scenario.environ). reflexivity.
  - rewrite (proj1 (render_substitutes Scenario.wd Scenario.environ)
               "cd " "HOME" "/x $nonexistent" eq_refl eq_refl eq_refl).
    reflexivity.
Defined.

(** C8 as stated fails: a variable called [workdir] in the environment
    replaces the working directory in the rendered command. *)
Lemma render_environment_wins :
  ~ (forall environ : gmap string string,
       render ["jobs"; "run1"] environ "sbatch -D $workdir" = "sbatch -D /jobs/run1").
Proof.
  intros H. specialize (H {[ "workdir" := "/tmp" ]}).
  vm_compute in H. discriminate.
Qed.

(** ** Manifest filtering *)

Section FilterFacts.

Variable st : state.
Variable dir : Path.

Let keep (file : string) : bool := negb (Whisper.finished st dir file).
Let occ (l : list string) (x : string) : nat := count_occ string_dec l x.

(** [l.remove(x)] on a list that holds [x]: one occurrence goes, the
    entries that are kept anyway are not touched. *)
Lemma list_remove_present x : forall l,
  (0 < occ l x)%nat ->
  exists l',
    Whisper.list_remove x l st = (Return l', st)
    /\ (forall y, occ l' y = if bool_decide (x = y) then pred (occ l y) else occ l y)
    /\ (keep x = false -> List.filter keep l' = List.filter keep l).
Proof.
  subst occ. cbv beta.
  induction l as [|y l IH]; intros Hocc; [simpl in Hocc; lia|].
  cbn [Whisper.list_remove]. case_bool_decide as Hxy.
  - subst y. exists l. split; [reflexivity|]. split.
    + intros z. cbn [count_occ]. case_bool_decide as Hz.
      * subst z. destruct (string_dec x x); [reflexivity|congruence].
      * destruct (string_dec x z); [congruence|reflexivity].
    + intros Hk. cbn [List.filter]. rewrite Hk. reflexivity.
  - cbn [count_occ] in Hocc. destruct (string_dec y x) as [->|Hne]; [congruence|].
    destruct (IH Hocc) as (l' & Hrun & Hcount & Hfilter).
    exists (y :: l'). split; [|split].
    + unfold bind. rewrite Hrun. reflexivity.
    + intros z. cbn [count_occ]. rewrite Hcount.
      destruct (string_dec y z) as [->|]; case_bool_decide; try reflexivity.
      congruence.
    + intros Hk. cbn [List.filter]. rewrite (Hfilter Hk). reflexivity.
Qed.

Lemma filter_keep_all (m : list string) :
  (forall x, keep x = false -> occ m x = 0%nat) -> List.filter keep m = m.
Proof.
  subst occ. cbv beta.
  induction m as [|y m IH]; intros H; [reflexivity|].
  cbn [List.filter]. destruct (keep y) eqn:Hy.
  - f_equal. apply IH. intros x Hx. specialize (H x Hx).
    cbn [count_occ] in H. destruct (string_dec y x); [discriminate|exact H].
  - specialize (H y Hy). cbn [count_occ] in H.
    destruct (string_dec y y); [discriminate|congruence].
Qed.

(** The loop over the copy removes exactly the finished entries. *)
Lemma filter_loop_filter : forall files m,
  (forall x, keep x = false -> occ m x = occ files x) ->
  Whisper.filter_loop dir files m st = (Return (List.filter keep m), st).
Proof.
  induction files as [|file rest IH]; intros m H.
  - cbn [Whisper.filter_loop]. unfold ret. rewrite filter_keep_all; [reflexivity|].
    intros x Hx. rewrite (H x Hx). reflexivity.
  - cbn [Whisper.filter_loop]. unfold bind at 1.
    assert (Hcond :
      (if Whisper.truthy file then exists_ (Whisper.marker dir file) else ret false) st
      = (Return (Whisper.finished st dir file), st)).
    { unfold Whisper.finished. destruct (Whisper.truthy file); reflexivity. }
    rewrite Hcond.
    destruct (Whisper.finished st dir file) eqn:Hfin.
    + assert (Hk : keep file = false) by (subst keep; cbv beta; rewrite Hfin; reflexivity).
      destruct (list_remove_present file m) as (m' & Hrun & Hcount & Hfilter).
      { rewrite (H file Hk). subst occ. cbn [count_occ].
        destruct (string_dec file file); [lia|congruence]. }
      unfold bind. rewrite Hrun, <- (Hfilter Hk). apply IH.
      intros x Hx. rewrite Hcount, (H x Hx). subst occ. cbn [count_occ].
      case_bool_decide as Hfx.
      * subst x. destruct (string_dec file file); [reflexivity|congruence].
      * destruct (string_dec file x); [congruence|reflexivity].
    + apply IH. intros x Hx. rewrite (H x Hx). subst occ. cbn [count_occ].
      destruct (string_dec file x) as [->|]; [|reflexivity].
      subst keep. cbv beta in Hx. rewrite Hfin in Hx. discriminate.
Qed.

End FilterFacts.

Lemma filter_jobdata_filter (jd : jobdata) (st : state) :
  Whisper.filter_jobdata jd st
  = (Return {| manifest :=
                 List.filter (fun f => negb (Whisper.finished st (jobdir jd) f))
                             (manifest jd);
               model := model jd; jobdir := jobdir jd; settled := settled jd |},
     st).
Proof.
  unfold Whisper.filter_jobdata, bind.
  rewrite filter_loop_filter; [reflexivity|]. reflexivity.
Qed.

Lemma filter_sublist {A} (f : A -> bool) (l : list A) : sublist (List.filter f l) l.
Proof.
  induction l as [|x l IH]; cbn [List.filter]; [constructor|].
  destruct (f x); [apply sublist_skip, IH|apply sublist_cons, IH].
Qed.

(** C9 (amended).  [filter_jobdata] ends normally and leaves the file system
    alone.  An entry of the manifest with a non-empty name is removed exactly
    when its completion marker [<name>.whisper.json] exists in the job
    directory; an entry with the empty name is never removed.  What remains
    is a subsequence of the manifest: nothing is added, nothing is
    reordered.  A manifest [a, b] with a marker for [a] only filters to
    [b]. *)
Theorem filter_jobdata_shrinks (jd : jobdata) (st : state) :
  exists m,
    Whisper.filter_jobdata jd st
    = (Return {| manifest := m; model := model jd; jobdir := jobdir jd;
                 settled := settled jd |}, st)
    /\ (forall file,
          In file m <->
          In file (manifest jd)
          /\ (file = "" \/ fs st !! Whisper.marker (jobdir jd) file = None))
    /\ sublist m (manifest jd)
    /\ (manifest jd = ["a"; "b"] ->
        is_Some (fs st !! Whisper.marker (jobdir jd) "a") ->
        fs st !! Whisper.marker (jobdir jd) "b" = None ->
        m = ["b"]).
Proof.
  eexists. split; [apply filter_jobdata_filter|]. split; [|split].
  - intros file. rewrite filter_In. unfold Whisper.finished, Whisper.truthy.
    split; intros [Hin H]; (split; [exact Hin|]).
    + case_bool_decide as He; [left; exact He|]. right.
      destruct (fs st !! Whisper.marker (jobdir jd) file); [discriminate|reflexivity].
    + destruct H as [He | Hm]; [subst file; reflexivity|].
      rewrite Hm. destruct (negb (bool_decide (file = ""))); reflexivity.
  - apply filter_sublist.
  - intros -> [n Ha] Hb. cbn [List.filter]. unfold Whisper.finished.
    rewrite Ha, Hb. reflexivity.
Qed.

(** Job [A]: manifest [a, b], marker for [a] only. *)
Lemma filter_jobdata_shrinks_witness :
  exists m,
    fst (Whisper.filter_jobdata
           {| manifest := ["a"; "b"]; model := "small";
              jobdir := Scenario.wd // "A"; settled := true |}
           Scenario.settled_A)
    = Return {| manifest := m; model := "small"; jobdir := Scenario.wd // "A";
                settled := true |}
    /\ m = ["b"].
Proof.
  destruct (filter_jobdata_shrinks
              {| manifest := ["a"; "b"]; model := "small";
                 jobdir := Scenario.wd // "A"; settled := true |}
              Scenario.settled_A) as (m & Hrun & _ & _ & Hex).
  exists m. split.
  - rewrite Hrun. reflexivity.
  - apply Hex.
    + reflexivity.
    + vm_compute. eexists. reflexivity.
    + vm_compute. reflexivity.
Defined.

(** C9 as stated fails: an entry with the empty name stays in the manifest
    although its marker, [.whisper.json] in the job directory, exists. *)
Lemma filter_keeps_empty_name :
  ~ (forall (jd jd' : jobdata) (st : state) (file : string),
       Whisper.filter_jobdata jd st = (Return jd', st) ->
       In file (manifest jd) ->
       (~ In file (manifest jd') <->
        is_Some (fs st !! Whisper.marker (jobdir jd) file))).
Proof.
  intros H.
  pose (jd := {| manifest := [""]; model := "small"; jobdir := Scenario.wd // "A";
                 settled := true |}).
  pose (st := Scenario.boot [(Scenario.wd // "A" // ".whisper.json", File "{}" 0)] 1000).
  specialize (H jd jd st "" eq_refl (or_introl eq_refl)).
  destruct H as [_ H]. apply H.
  - vm_compute. eexists. reflexivity.
  - left. reflexivity.
Qed.

(** ** Paths in the working directory *)

Lemma joinpath_inj (p : Path) (a b : string) : p // a = p // b -> a = b.
Proof.
  unfold joinpath. intros H. apply app_inv_head in H. congruence.
Qed.

Lemma lock_ne_jobinfo wd : lock_file wd <> jobinfo_file wd.
Proof. intros H. apply joinpath_inj in H. discriminate. Qed.

Lemma jobinfo_ne_lock wd : jobinfo_file wd <> lock_file wd.
Proof. intros H. apply joinpath_inj in H. discriminate. Qed.

Lemma lock_ne_submit wd : lock_file wd <> submit_file wd.
Proof. intros H. apply joinpath_inj in H. discriminate. Qed.

Lemma jobinfo_ne_submit wd : jobinfo_file wd <> submit_file wd.
Proof. intros H. apply joinpath_inj in H. discriminate. Qed.

Lemma sample_ne_submit wd : sample_file wd <> submit_file wd.
Proof. intros H. apply joinpath_inj in H. discriminate. Qed.

(** ** The configuration check of [main] *)

Section MainFacts.

Variable environ : gmap string string.
Variable main_file : Path.
Variable run_shell : string -> string -> CompletedProcess.
Variable load_info : string -> option Info.
Variable dump_info : Info -> string.
Variable work : nat -> M unit.

Let service_main := main environ main_file run_shell load_info dump_info work.

(** C10.  On a working directory that is a directory and holds no
    [.submit], [main] leaves through [exit(1)].  It writes the sample text
    to [.submit.sample] when that file does not exist and writes nothing
    when it does; every other path of the file system is as before, and no
    command is run. *)
Theorem main_without_submit_file (fuel : nat) (args : Args) (st : state) :
  fs st !! a_workdir args = Some Dir ->
  fs st !! submit_file (a_workdir args) = None ->
  exists st',
    service_main fuel args st = (Exit 1, st')
    /\ fs st' = match fs st !! sample_file (a_workdir args) with
                | Some _ => fs st
                | None => <[sample_file (a_workdir args)
                              := File sample_text (clock st)]> (fs st)
                end
    /\ written st' = match fs st !! sample_file (a_workdir args) with
                     | Some _ => written st
                     | None => (written st ++ [sample_file (a_workdir args)])%list
                     end
    /\ ran st' = ran st
    /\ atexit_handlers st' = atexit_handlers st.
Proof.
  intros Hdir Hsubmit. subst service_main. unfold main.
  unfold bind, modify, set_workdir, get_workdir, is_dir, exists_, logging,
    write_text, exit, ret.
  destruct (a_debug args); cbn; rewrite Hdir; cbn; rewrite Hsubmit; cbn;
    destruct (fs st !! sample_file (a_workdir args)) eqn:Hs; cbn;
    rewrite ?Hs; cbn; eexists; repeat split.
Qed.

End MainFacts.

(** An empty working directory: the sample is written, nothing else. *)
Lemma main_without_submit_file_witness :
  exists st',
    Whisper.main Scenario.environ Scenario.main_file Scenario.accepted
      Scenario.load_descriptor Scenario.load_info Scenario.dump_info
      Scenario.device Scenario.load_model Scenario.transcribes
      1 Scenario.launch (Scenario.boot [(Scenario.wd, Dir)] 1000)
    = (Exit 1, st')
    /\ fs st' !! sample_file Scenario.wd = Some (File sample_text 1000)
    /\ fs st' !! jobinfo_file Scenario.wd = None.
Proof.
  destruct (main_without_submit_file Scenario.environ Scenario.main_file
              Scenario.accepted Scenario.load_info Scenario.dump_info
              (Whisper.work Scenario.load_descriptor Scenario.device
                 Scenario.load_model Scenario.transcribes)
              1 Scenario.launch (Scenario.boot [(Scenario.wd, Dir)] 1000))
    as (st' & Hrun & Hfs & _).
  - vm_compute. reflexivity.
  - vm_compute. reflexivity.
  - exists st'. split; [exact Hrun|]. rewrite Hfs. split; vm_compute; reflexivity.
Defined.

(** ** Self submission *)

Section SubmissionFacts.

Variable environ : gmap string string.
Variable main_file : Path.
Variable run_shell : string -> string -> CompletedProcess.
Variable dump_info : Info -> string.

(** C4.  When the rendered submission command ends with a non-zero status,
    [self_submission] (and with it the [SIGUSR1] handler) leaves through
    [exit(1)] after logging the command's standard error at level ERROR.  The
    command has been run once; the file system is as before, so no
    [jobinfo.yaml] has been written, and no path was opened for writing. *)
Theorem self_submission_rejected
    (info : Info) (st : state) (wd : Path) (text : string) (mtime : Z) :
  let command := render wd environ text in
  let script := slurm_script main_file wd (i_debug info) in
  let p := run_shell command script in
  workdir (self st) = Some wd ->
  fs st !! submit_file wd = Some (File text mtime) ->
  returncode p <> 0 ->
  exists st',
    self_submission environ main_file run_shell dump_info info st = (Exit 1, st')
    /\ usr1handler environ main_file run_shell dump_info info st = (Exit 1, st')
    /\ fs st' = fs st
    /\ written st' = written st
    /\ ran st' = (ran st ++ [(command, script)])%list
    /\ In (ERROR,
           "Couldn't submit ourselves, rc " +:+ pretty (returncode p) +:+ ": "
             +:+ stderr p)
          (log st').
Proof.
  intros command script p Hwd Hsubmit Hrc.
  unfold usr1handler, self_submission, submit, read_template, read_text,
    subprocess_run, get_workdir, bind.
  rewrite Hwd, Hsubmit.
  fold command script. fold p.
  rewrite (bool_decide_eq_true_2 _ Hrc).
  unfold logging, exit.
  destruct st as [fs0 clk thr lg rn wr hs hd slf]. cbn in Hwd, Hsubmit.
  destruct thr; cbn -[command script p pretty];
    (eexists; split; [reflexivity|]; split; [reflexivity|];
     cbn -[command script p pretty]; repeat split;
     rewrite ?in_app_iff; cbn -[command script p pretty]; auto).
Qed.

End SubmissionFacts.

(** The scheduler answers with status 3 and "no partition" on its standard
    error. *)
Lemma self_submission_rejected_witness :
  exists st',
    self_submission Scenario.environ Scenario.main_file Scenario.rejected
      Scenario.dump_info (fresh_info Scenario.launch)
      (Scenario.in_work Scenario.cold)
    = (Exit 1, st')
    /\ fs st' !! jobinfo_file Scenario.wd = None
    /\ In (ERROR, "Couldn't submit ourselves, rc 3: no partition") (log st').
Proof.
  destruct (self_submission_rejected Scenario.environ Scenario.main_file
              Scenario.rejected Scenario.dump_info (fresh_info Scenario.launch)
              (Scenario.in_work Scenario.cold) Scenario.wd
              "sbatch -D $workdir" 0)
    as (st' & Hrun & _ & Hfs & _ & _ & Hlog).
  - reflexivity.
  - vm_compute. reflexivity.
  - vm_compute. discriminate.
  - exists st'. split; [exact Hrun|]. split.
    + rewrite Hfs. vm_compute. reflexivity.
    + exact Hlog.
Defined.

(** ** The submission lock *)

Lemma unlink_absent (p q : Path) (st : state) :
  fs st !! q = None -> fs (snd (unlink_missing_ok p st)) !! q = None.
Proof.
  intros H. unfold unlink_missing_ok.
  destruct (fs st !! p) as [[c t|]|]; cbn; try exact H.
  destruct (decide (p = q)) as [->|Hne].
  - apply lookup_delete_eq.
  - rewrite lookup_delete_ne by exact Hne. exact H.
Qed.

Lemma unlink_removes (p : Path) (st : state) :
  fs st !! p <> Some Dir -> fs (snd (unlink_missing_ok p st)) !! p = None.
Proof.
  intros H. unfold unlink_missing_ok.
  destruct (fs st !! p) as [[c t|]|] eqn:E; cbn.
  - apply lookup_delete_eq.
  - congruence.
  - exact E.
Qed.

Lemma run_atexit_absent (q : Path) (hs : list handler) : forall st,
  fs st !! q = None -> fs (run_atexit hs st) !! q = None.
Proof.
  induction hs as [|[p] hs IH]; intros st H; cbn [run_atexit run_handler].
  - exact H.
  - apply unlink_absent, IH, H.
Qed.

Lemma run_atexit_app (hs : list handler) (h : handler) (st : state) :
  run_atexit (hs ++ [h]) st = run_atexit hs (snd (run_handler h st)).
Proof.
  induction hs as [|h' hs IH]; cbn [run_atexit app]; [reflexivity|].
  rewrite IH. reflexivity.
Qed.

(** A registered unlink handler for a path that is not a directory leaves
    the path absent once all handlers have run. *)
Lemma run_atexit_unlinks (p : Path) (hs : list handler) (st : state) :
  fs st !! p <> Some Dir ->
  fs (run_atexit (hs ++ [UnlinkMissingOk p]) st) !! p = None.
Proof.
  intros H. rewrite run_atexit_app. apply run_atexit_absent.
  cbn [run_handler]. apply unlink_removes, H.
Qed.

Section LockFacts.

Variable environ : gmap string string.
Variable main_file : Path.
Variable run_shell : string -> string -> CompletedProcess.
Variable load_info : string -> option Info.
Variable dump_info : Info -> string.
Variable work : nat -> M unit.

(** However [fresh_launch] ends once it has the lock, it does not return
    to [main]; the lock is then a file or absent, and the handler registered
    at acquisition is the last one registered. *)
Lemma fresh_launch_guarded {A} (args : Args) (wd : Path) (st : state) :
  workdir (self st) = Some wd ->
  fs st !! lock_file wd = None ->
  exists (o : outcome A) st',
    fresh_launch environ main_file run_shell dump_info args wd st = (o, st')
    /\ (o = Exit 0 \/ o = Exit 1 \/ exists e, o = Raise e)
    /\ fs st' !! lock_file wd <> Some Dir
    /\ atexit_handlers st'
       = (atexit_handlers st ++ [UnlinkMissingOk (lock_file wd)])%list.
Proof.
  intros Hwd Hlock.
  unfold fresh_launch, try_except_only, try_except, acquire, atexit_register,
    self_submission, submit, record, read_template, read_text, write_text,
    subprocess_run, get_workdir, open_x, exists_, unlink_missing_ok, modify,
    logging, exit, raise, ret, bind.
  destruct st as [fs0 clk thr lg rn wr hs hd slf]. cbn in Hwd, Hlock.
  cbn -[render slurm_script pretty submitted_message].
  rewrite Hlock. cbn -[render slurm_script pretty submitted_message].
  rewrite !(lookup_insert_ne _ (lock_file wd) (jobinfo_file wd))
    by apply lock_ne_jobinfo.
  destruct (fs0 !! jobinfo_file wd) as [j|] eqn:Hj;
    cbn -[render slurm_script pretty submitted_message].
  - (* already active *)
    destruct thr; cbn -[render slurm_script pretty submitted_message];
      rewrite ?lookup_insert_eq; cbn;
      (eexists _, _; split; [reflexivity|]; split; [auto|]; split;
       [cbn; rewrite lookup_delete_eq; discriminate|reflexivity]).
  - rewrite Hwd. cbn -[render slurm_script pretty submitted_message].
    rewrite !(lookup_insert_ne _ (lock_file wd) (submit_file wd))
      by apply lock_ne_submit.
    destruct (fs0 !! submit_file wd) as [[text mt|]|] eqn:Ht;
      cbn -[render slurm_script pretty submitted_message].
    + (* the template is read and the command is run *)
      destruct (bool_decide
                  (returncode (run_shell (render wd environ text)
                     (slurm_script main_file wd (a_debug args))) ≠ 0)) eqn:Hrc;
        destruct thr; cbn -[render slurm_script pretty submitted_message];
        rewrite ?Hrc; cbn -[render slurm_script pretty submitted_message];
        rewrite ?(lookup_insert_ne _ (lock_file wd) (jobinfo_file wd))
          by apply lock_ne_jobinfo;
        rewrite ?Hj; cbn -[render slurm_script pretty submitted_message];
        rewrite ?(lookup_insert_ne _ (jobinfo_file wd) (lock_file wd))
          by apply jobinfo_ne_lock;
        rewrite ?lookup_insert_eq; cbn -[render slurm_script pretty submitted_message];
        (eexists _, _; split; [reflexivity|]; split; [eauto|]; split;
         [cbn; rewrite ?lookup_delete_eq, ?lookup_insert_eq; discriminate
         |reflexivity]).
    + (* the template is a directory *)
      eexists _, _; split; [reflexivity|]; split; [eauto|]; split;
        [cbn; rewrite lookup_insert_eq; discriminate|reflexivity].
    + eexists _, _; split; [reflexivity|]; split; [eauto|]; split;
        [cbn; rewrite lookup_insert_eq; discriminate|reflexivity].
Qed.

Let service := run_process environ main_file run_shell load_info dump_info work.

(** C7.  A fresh launch that finds no [submit.lock] creates the file and at
    once registers the handler that unlinks it.  However the process then
    comes to its end, by returning from the block, by [exit], or by an
    exception that nothing catches, it does end, and when it has ended the
    lock file is gone. *)
Theorem lock_removed_at_exit (fuel : nat) (args : Args) (st : state) :
  let wd := a_workdir args in
  fs st !! wd = Some Dir ->
  is_Some (fs st !! submit_file wd) ->
  a_continuation args = false \/ fs st !! jobinfo_file wd = None ->
  fs st !! lock_file wd = None ->
  (exists st1,
      acquire wd st = (Return tt, st1)
      /\ fs st1 !! lock_file wd = Some (File "" (clock st))
      /\ atexit_handlers st1
         = (atexit_handlers st ++ [UnlinkMissingOk (lock_file wd)])%list)
  /\ (exists code st',
        service fuel args st = (Some code, st')
        /\ (code = 0 \/ code = 1)
        /\ fs st' !! lock_file wd = None).
Proof.
  intros wd Hdir [tpl Htpl] Hfresh Hlock. split.
  - unfold acquire, open_x, atexit_register, modify, bind. rewrite Hlock.
    eexists. split; [reflexivity|]. cbn. rewrite lookup_insert_eq. auto.
  - subst service. unfold run_process, main.
    unfold bind at 1. unfold modify at 1.
    unfold bind at 1. unfold set_workdir at 1, modify at 1.
    unfold bind at 1. unfold get_workdir at 1. cbn [self set_self workdir].
    unfold bind at 1. unfold is_dir at 1. cbn [fs set_self set_threshold].
    fold wd. rewrite Hdir. cbn [negb].
    unfold bind at 1. unfold ret at 1.
    unfold bind at 1. unfold exists_ at 1. cbn [fs set_self set_threshold].
    rewrite Htpl. cbn [negb].
    unfold bind at 1. unfold ret at 1.
    unfold bind at 1. unfold exists_ at 1. cbn [fs set_self set_threshold].
    assert (Hcont : a_continuation args
                    && match fs st !! jobinfo_file wd with
                       | Some _ => true
                       | None => false
                       end = false).
    { destruct Hfresh as [-> | ->]; [reflexivity|apply andb_false_r]. }
    rewrite Hcont. cbn [negb].
    unfold bind at 1.
    match goal with
    | |- context [fresh_launch _ _ _ _ _ _ ?s] =>
        destruct (@fresh_launch_guarded Info args wd s) as (o & st' & Hrun & Ho & Hfile & Hhs);
          [reflexivity|exact Hlock|]
    end.
    rewrite Hrun.
    destruct Ho as [-> | [-> | [e ->]]];
      (eexists _, _; split; [reflexivity|]; split; [auto|]);
      rewrite Hhs; apply run_atexit_unlinks, Hfile.
Qed.

End LockFacts.

(** A fresh launch on the cold working directory, the submission rejected. *)
Lemma lock_removed_at_exit_witness :
  exists code st',
    Scenario.run_process Scenario.rejected Scenario.transcribes 1
      Scenario.launch Scenario.cold = (Some code, st')
    /\ fs st' !! lock_file Scenario.wd = None.
Proof.
  destruct (lock_removed_at_exit Scenario.environ Scenario.main_file
              Scenario.rejected Scenario.load_info Scenario.dump_info
              (Scenario.work Scenario.transcribes) 1 Scenario.launch Scenario.cold)
    as [_ (code & st' & Hrun & _ & Hgone)].
  - vm_compute. reflexivity.
  - vm_compute. eexists. reflexivity.
  - left. reflexivity.
  - vm_compute. reflexivity.
  - exists code, st'. split; [exact Hrun|exact Hgone].
Defined.

(** The three ways out of the guarded block, each on a concrete run: the
    submission is accepted and the block is left normally; the submission is
    rejected and [self_submission] calls [exit(1)]; [.submit] is a directory
    and reading it raises. *)
Example lock_after_normal_return :
  let r := Scenario.run_process Scenario.accepted Scenario.transcribes 1
             Scenario.launch Scenario.cold in
  fst r = Some 0
  /\ fs (snd r) !! lock_file Scenario.wd = None
  /\ is_Some (fs (snd r) !! jobinfo_file Scenario.wd).
Proof. vm_compute. repeat split. eexists. reflexivity. Qed.

Example lock_after_early_exit :
  let r := Scenario.run_process Scenario.rejected Scenario.transcribes 1
             Scenario.launch Scenario.cold in
  fst r = Some 1
  /\ fs (snd r) !! lock_file Scenario.wd = None
  /\ fs (snd r) !! jobinfo_file Scenario.wd = None
  /\ log (snd r) = [(ERROR, "Couldn't submit ourselves, rc 3: no partition")].
Proof. vm_compute. repeat split. Qed.

Example lock_after_exception :
  let st := Scenario.boot [(Scenario.wd, Dir); (submit_file Scenario.wd, Dir)] 1000 in
  let r := Scenario.run_process Scenario.accepted Scenario.transcribes 1
             Scenario.launch st in
  fst (main Scenario.environ Scenario.main_file Scenario.accepted
         Scenario.load_info Scenario.dump_info
         (Scenario.work Scenario.transcribes) 1 Scenario.launch st)
  = Raise IsADirectoryError
  /\ fst r = Some 1
  /\ fs (snd r) !! lock_file Scenario.wd = None.
Proof. vm_compute. repeat split. Qed.

(** ** The end of the work loop and the lifecycle record *)

Section LifecycleFacts.

Variable environ : gmap string string.
Variable main_file : Path.
Variable run_shell : string -> string -> CompletedProcess.
Variable load_descriptor : string -> option descriptor.
Variable load_info : string -> option Info.
Variable dump_info : Info -> string.
Variable device : string.
Variable load_model : string -> bool.
Variable transcribe : jobdata -> string -> option string.

Let service_main :=
  Whisper.main environ main_file run_shell load_descriptor load_info dump_info
    device load_model transcribe.
Let service_work := Whisper.work load_descriptor device load_model transcribe.
Let work_loop := Whisper.work_loop load_descriptor load_model transcribe.
Let todo_list := Whisper.get_todo_list load_descriptor.
Let process_models := Whisper.process_models load_model transcribe.

(** The state in which [main] calls [work]. *)
Let at_work (args : Args) (st : state) : state :=
  set_self {| JOB_SETTLE_TIME := JOB_SETTLE_TIME (self st);
              workdir := Some (a_workdir args);
              job_warnings := job_warnings (self st) |}
           (set_threshold (if a_debug args then DEBUG else INFO) st).

(** A continuation run of [main] is [work] followed by the removal of
    [jobinfo.yaml]. *)
Lemma main_continuation (fuel : nat) (args : Args) (st : state)
    (tpl : node) (text : string) (mtime : Z) (info : Info) :
  let wd := a_workdir args in
  fs st !! wd = Some Dir ->
  fs st !! submit_file wd = Some tpl ->
  a_continuation args = true ->
  fs st !! jobinfo_file wd = Some (File text mtime) ->
  load_info text = Some info ->
  service_main fuel args st
  = (service_work fuel ;;
     logging INFO "Finished processing things.  Shutting down." ;;
     unlink_missing_ok (jobinfo_file wd)) (at_work args st).
Proof.
  intros wd Hdir Htpl Hcont Hinfo Hload.
  subst service_main service_work at_work. unfold Whisper.main, main.
  unfold bind at 1. unfold modify at 1.
  unfold bind at 1. unfold set_workdir at 1, modify at 1.
  unfold bind at 1. unfold get_workdir at 1. cbn [self set_self workdir].
  unfold bind at 1. unfold is_dir at 1. cbn [fs set_self set_threshold].
  fold wd. rewrite Hdir. cbn [negb].
  unfold bind at 1. unfold ret at 1.
  unfold bind at 1. unfold exists_ at 1. cbn [fs set_self set_threshold].
  rewrite Htpl. cbn [negb].
  unfold bind at 1. unfold ret at 1.
  unfold bind at 1. unfold exists_ at 1. cbn [fs set_self set_threshold].
  rewrite Hinfo, Hcont. cbn [negb andb].
  unfold bind at 1. unfold bind at 1. unfold read_text at 1.
  cbn [fs set_self set_threshold]. rewrite Hinfo.
  unfold safe_load_info. rewrite Hload. unfold ret at 1.
  reflexivity.
Qed.

(** C6 (amended).  In a continuation run [main] deletes [jobinfo.yaml] when
    and only when the work loop returns to it.  The loop returns when
    discovery finds no pending JobUnit, and it also returns, with a warning,
    when a pass over pending JobUnits has completed no item; in both cases
    the record is deleted.  When the loop ends in any other way, [main] ends
    the same way and the file system is left as the loop left it. *)
Theorem jobinfo_deleted_when_work_returns (fuel : nat) (args : Args) (st : state)
    (tpl : node) (text : string) (mtime : Z) (info : Info) :
  let wd := a_workdir args in
  fs st !! wd = Some Dir ->
  fs st !! submit_file wd = Some tpl ->
  a_continuation args = true ->
  fs st !! jobinfo_file wd = Some (File text mtime) ->
  load_info text = Some info ->
  (forall st1,
      service_work fuel (at_work args st) = (Return tt, st1) ->
      fs st1 !! jobinfo_file wd <> Some Dir ->
      exists st',
        service_main fuel args st = (Return tt, st')
        /\ fs st' !! jobinfo_file wd = None
        /\ (forall p, p <> jobinfo_file wd -> fs st' !! p = fs st1 !! p))
  /\ (forall (o : outcome unit) st1,
        service_work fuel (at_work args st) = (o, st1) ->
        o <> Return tt ->
        service_main fuel args st = (o, st1))
  /\ (forall n s s1,
        todo_list (S n) "whisper.job" s = (Return [], s1) ->
        work_loop (S n) s = (Return tt, s1))
  /\ (forall n s s1 s2 t todo,
        todo_list (S n) "whisper.job" s = (Return (t :: todo), s1) ->
        process_models (remove_dups (map model (t :: todo))) (t :: todo) 0%nat
          (snd (logging INFO
                  ("Starting processing of " +:+ pretty (length (t :: todo))
                     +:+ " jobs") s1))
        = (Return 0%nat, s2) ->
        work_loop (S n) s
        = logging WARNING
            "Some processes didn't complete even though they were valid" s2).
Proof.
  intros wd Hdir Htpl Hcont Hinfo Hload.
  pose proof (main_continuation fuel args st tpl text mtime info
                Hdir Htpl Hcont Hinfo Hload) as Hmain.
  fold wd in Hmain.
  split; [|split; [|split]].
  - intros st1 Hwork Hfile. rewrite Hmain. unfold bind. rewrite Hwork.
    unfold logging, unlink_missing_ok.
    destruct (level_rank (threshold st1) <=? level_rank INFO)%nat; cbn;
      destruct (fs st1 !! jobinfo_file wd) as [[c t|]|] eqn:E;
      try congruence; cbn;
      (eexists; split; [reflexivity|]; cbn; split;
       [rewrite ?lookup_delete_eq; auto
       |intros p Hp; rewrite ?lookup_delete_ne by congruence; reflexivity]).
  - intros o st1 Hwork Ho. rewrite Hmain. unfold bind. rewrite Hwork.
    destruct o as [[]| | |]; congruence.
  - intros n s s1 Htodo. subst work_loop todo_list.
    cbn [Whisper.work_loop]. unfold bind. rewrite Htodo. reflexivity.
  - intros n s s1 s2 t todo Htodo Hpass. subst work_loop todo_list process_models.
    cbn [Whisper.work_loop]. unfold bind at 1. rewrite Htodo.
    unfold bind at 1.
    destruct (logging INFO
                ("Starting processing of " +:+ pretty (length (t :: todo))
                   +:+ " jobs") s1) as [o s1'] eqn:Hlog.
    assert (o = Return tt) as ->.
    { unfold logging in Hlog.
      destruct (level_rank (threshold s1) <=? level_rank INFO)%nat;
        inversion Hlog; reflexivity. }
    cbn [snd] in Hpass. unfold bind. rewrite Hpass. reflexivity.
Qed.

End LifecycleFacts.

(** A continuation run over job [A] whose pending item fails. *)
Lemma jobinfo_deleted_when_work_returns_witness :
  exists st',
    Whisper.main Scenario.environ Scenario.main_file Scenario.accepted
      Scenario.load_descriptor Scenario.load_info Scenario.dump_info
      Scenario.device Scenario.load_model Scenario.fails
      2 Scenario.continuation Scenario.settled_A
    = (Return tt, st')
    /\ fs st' !! jobinfo_file Scenario.wd = None.
Proof.
  destruct (jobinfo_deleted_when_work_returns Scenario.environ Scenario.main_file
              Scenario.accepted Scenario.load_descriptor Scenario.load_info
              Scenario.dump_info Scenario.device Scenario.load_model Scenario.fails
              2 Scenario.continuation Scenario.settled_A
              (File "sbatch -D $workdir" 0) "jobid: 4242" 0
              {| i_debug := false; i_workdir := "/jobs/run1";
                 i_continuation := false; i_jobid := Some "4242" |})
    as (Hreturns & _).
  - vm_compute. reflexivity.
  - vm_compute. reflexivity.
  - reflexivity.
  - vm_compute. reflexivity.
  - vm_compute. reflexivity.
  - destruct (Hreturns
                (snd (Scenario.work Scenario.fails 2
                        (Scenario.in_work Scenario.settled_A))))
      as (st' & Hrun & Hgone & _).
    + vm_compute. reflexivity.
    + vm_compute. discriminate.
    + exists st'. split; [exact Hrun|exact Hgone].
Defined.

(** C6 as stated fails.  One settled job has the pending item [b], whose
    transcription fails.  The pass completes nothing, the loop stops with a
    warning, and [main] deletes [jobinfo.yaml]; discovery on the state the
    process leaves still finds the JobUnit with [b] pending. *)
Lemma jobinfo_deleted_with_pending :
  let r := Scenario.run_process Scenario.accepted Scenario.fails 2
             Scenario.continuation Scenario.settled_A in
  is_Some (fs Scenario.settled_A !! jobinfo_file Scenario.wd)
  /\ fst r = Some 0
  /\ In (WARNING, "Some processes didn't complete even though they were valid")
        (log (snd r))
  /\ fs (snd r) !! jobinfo_file Scenario.wd = None
  /\ fst (Scenario.get_todo_list 1 "whisper.job" (snd r))
     = Return [ {| manifest := ["b"]; model := "small";
                   jobdir := Scenario.wd // "A"; settled := true |} ].
Proof.
  vm_compute. split; [eexists; reflexivity|]. repeat split; auto 10.
Qed.

(** On a drained queue the record is deleted as well. *)
Example jobinfo_deleted_when_drained :
  let r := Scenario.run_process Scenario.accepted Scenario.transcribes 1
             Scenario.continuation Scenario.drained in
  fst r = Some 0
  /\ fs (snd r) !! jobinfo_file Scenario.wd = None
  /\ fst (Scenario.get_todo_list 1 "whisper.job" (snd r)) = Return [].
Proof. vm_compute. repeat split. Qed.

(** ** Discovery and the settle gate *)

Section DiscoveryFacts.

Variable load_descriptor : string -> option descriptor.
Variable filter_jobdata : jobdata -> M jobdata.

Let scan := discover load_descriptor filter_jobdata.
Let todo_list := get_todo_list load_descriptor filter_jobdata.

Lemma logging_returns (l : level) (msg : string) (st : state) :
  exists st',
    logging l msg st = (Return tt, st')
    /\ clock st' = clock st /\ self st' = self st /\ fs st' = fs st
    /\ handed st' = handed st.
Proof.
  unfold logging. destruct (level_rank (threshold st) <=? level_rank l)%nat;
    eexists; split; try reflexivity; auto.
Qed.

(** Once the settle loop has results of which none is settled, it sleeps one
    settle time per turn and never leaves: whatever the fuel, it is still
    running when the fuel is gone, with the clock advanced by one settle time
    per turn and nothing else done. *)
Lemma settle_loop_stuck (results : list jobdata) :
  results <> [] ->
  List.filter settled results = [] ->
  forall (fuel : nat) (st : state),
    0 <= JOB_SETTLE_TIME (self st) ->
    exists st',
      settle_loop fuel results st = (Diverge, st')
      /\ clock st' = clock st + Z.of_nat fuel * JOB_SETTLE_TIME (self st)
      /\ self st' = self st /\ fs st' = fs st /\ handed st' = handed st.
Proof.
  intros Hne Hnone. induction fuel as [|fuel IH]; intros st Hpos.
  - exists st. cbn [settle_loop]. unfold diverge. repeat split. simpl. lia.
  - cbn [settle_loop]. rewrite Hnone.
    destruct results as [|r results]; [congruence|].
    destruct (logging_returns INFO "Waiting for jobs to settle." st)
      as (st1 & Hlog & Hc1 & Hs1 & Hf1 & Hh1).
    unfold bind at 1. rewrite Hlog.
    unfold bind at 1. unfold get at 1.
    unfold bind at 1. unfold sleep.
    rewrite Hs1. destruct (Z.ltb_spec (JOB_SETTLE_TIME (self st)) 0) as [Hneg|_];
      [lia|]. unfold modify.
    destruct (IH (set_clock (clock st1 + JOB_SETTLE_TIME (self st)) st1))
      as (st' & Hrun & Hc & Hs & Hf & Hh).
    { cbn [self set_clock]. rewrite Hs1. exact Hpos. }
    exists st'. split; [exact Hrun|].
    cbn [clock self fs handed set_clock] in Hc, Hs, Hf, Hh.
    rewrite Hc, Hs, Hf, Hh, Hc1, Hs1, Hf1, Hh1. repeat split. lia.
Qed.

(** [get_todo_list] with pending but no settled results does not return. *)
Lemma get_todo_list_stuck (fuel : nat) (jobfile : string) (st st1 : state)
    (wd : Path) (results : list jobdata) :
  workdir (self st) = Some wd ->
  scan (glob_star (fs st) wd jobfile) [] st = (Return results, st1) ->
  results <> [] ->
  List.filter settled results = [] ->
  0 <= JOB_SETTLE_TIME (self st1) ->
  fst (todo_list fuel jobfile st) = Diverge.
Proof.
  intros Hwd Hdisc Hne Hnone Hpos. subst todo_list scan.
  unfold get_todo_list, bind, get_workdir, get. rewrite Hwd, Hdisc.
  destruct (settle_loop_stuck results Hne Hnone fuel st1 Hpos) as (st' & Hrun & _).
  rewrite Hrun. reflexivity.
Qed.

(** With nothing pending, [get_todo_list] returns at once: no sleep. *)
Lemma get_todo_list_drained (fuel : nat) (jobfile : string) (st st1 : state)
    (wd : Path) :
  workdir (self st) = Some wd ->
  scan (glob_star (fs st) wd jobfile) [] st = (Return [], st1) ->
  todo_list (S fuel) jobfile st = (Return [], st1).
Proof.
  intros Hwd Hdisc. subst todo_list scan.
  unfold get_todo_list, bind, get_workdir, get. rewrite Hwd, Hdisc.
  reflexivity.
Qed.

(** With something settled among the results, [get_todo_list] returns all
    results, the unsettled ones included. *)
Lemma get_todo_list_returns_results (fuel : nat) (jobfile : string)
    (st st1 : state) (wd : Path) (results : list jobdata) :
  workdir (self st) = Some wd ->
  scan (glob_star (fs st) wd jobfile) [] st = (Return results, st1) ->
  List.filter settled results <> [] ->
  todo_list (S fuel) jobfile st = (Return results, st1).
Proof.
  intros Hwd Hdisc Hsome. subst todo_list scan.
  unfold get_todo_list, bind, get_workdir, get. rewrite Hwd, Hdisc.
  cbn [settle_loop]. destruct results as [|r results]; [reflexivity|].
  destruct (List.filter settled (r :: results)); [congruence|reflexivity].
Qed.

(** A descriptor that cannot be read or parsed, met by an instance on which
    [job_warnings] was never assigned: the [except] clause itself raises
    [AttributeError], which leaves the loop. *)
Lemma discover_unreadable_raises (jobfile : Path) (rest : list Path)
    (results : list jobdata) (st : state) :
  job_warnings (self st) = None ->
  match fs st !! jobfile with
  | Some (File text _) => load_descriptor text = None
  | _ => True
  end ->
  scan (jobfile :: rest) results st = (Raise AttributeError, st).
Proof.
  intros Hattr Hbad. subst scan. cbn [discover].
  unfold bind at 1. unfold try_except, bind, read_text, safe_load_descriptor,
    get_job_warnings, raise.
  destruct (fs st !! jobfile) as [[text t|]|]; try rewrite Hbad; rewrite ?Hattr;
    reflexivity.
Qed.

End DiscoveryFacts.

(** C1, on the code.  [get_todo_list] computes the settled results but
    returns all results, and [work] processes what it is given.  At time
    1000 with a settle time of 300, job [B]'s descriptor was modified at 900,
    100 seconds ago; job [A] is settled.  [get_todo_list] returns both, [B]
    marked unsettled, and the work loop hands [B]'s item [c] to the
    transcription callback at time 1000. *)
Theorem unsettled_job_handed_to_callback :
  let B := {| manifest := ["c"]; model := "small";
              jobdir := Scenario.wd // "B"; settled := false |} in
  let A := {| manifest := ["b"]; model := "small";
              jobdir := Scenario.wd // "A"; settled := true |} in
  let r := Scenario.run_process Scenario.accepted Scenario.transcribes 3
             Scenario.continuation Scenario.mixed in
  fs Scenario.mixed !! (Scenario.wd // "B" // "whisper.job")
  = Some (File "small: c" 900)
  /\ clock Scenario.mixed - 900 < JOB_SETTLE_TIME (self Scenario.mixed)
  /\ fst (Scenario.get_todo_list 1 "whisper.job" (Scenario.in_work Scenario.mixed))
     = Return [B; A]
  /\ fst r = Some 0
  /\ In (B, "c", 1000) (handed (snd r))
  /\ is_Some (fs (snd r) !! Whisper.marker (Scenario.wd // "B") "c").
Proof.
  vm_compute. repeat split; auto. eexists. reflexivity.
Qed.

(** C2, on the code.  With one pending job that is not settled,
    [get_todo_list] does not return, whatever the number of turns its loop
    is given: the results and their [settled] marks are computed once,
    before the loop, and the loop only sleeps.  A discovery made one settle
    time later would find the same job settled.  With nothing pending the
    call returns the empty list at once. *)
Theorem get_todo_list_never_returns (fuel : nat) :
  fst (Scenario.get_todo_list fuel "whisper.job" (Scenario.in_work Scenario.unsettled))
  = Diverge
  /\ fst (discover Scenario.load_descriptor Whisper.filter_jobdata
            [Scenario.wd // "B" // "whisper.job"] []
            (set_clock 1300 (Scenario.in_work Scenario.unsettled)))
     = Return [ {| manifest := ["c"]; model := "small";
                   jobdir := Scenario.wd // "B"; settled := true |} ]
  /\ Scenario.get_todo_list 1 "whisper.job" (Scenario.in_work Scenario.drained)
     = (Return [], Scenario.in_work Scenario.drained).
Proof.
  split; [|split; vm_compute; reflexivity].
  apply (get_todo_list_stuck Scenario.load_descriptor Whisper.filter_jobdata
           fuel "whisper.job" (Scenario.in_work Scenario.unsettled)
           (Scenario.in_work Scenario.unsettled) Scenario.wd
           [ {| manifest := ["c"]; model := "small";
                jobdir := Scenario.wd // "B"; settled := false |} ]).
  - reflexivity.
  - vm_compute. reflexivity.
  - discriminate.
  - reflexivity.
  - vm_compute. discriminate.
Qed.

(** C3, on the code.  [__init__] never assigns [job_warnings].  With a job
    directory whose descriptor does not parse, the [except] clause of
    [get_todo_list] raises [AttributeError] when it consults the seen-set:
    the call raises, no warning is logged, the job directories that follow
    are not visited, and the process ends with status 1. *)
Theorem malformed_descriptor_raises :
  let r := Scenario.run_process Scenario.accepted Scenario.transcribes 2
             Scenario.continuation Scenario.malformed in
  job_warnings (init None 300) = None
  /\ Scenario.load_descriptor "manifest: [a" = None
  /\ Scenario.get_todo_list 1 "whisper.job" (Scenario.in_work Scenario.malformed)
     = (Raise AttributeError, Scenario.in_work Scenario.malformed)
  /\ fst r = Some 1
  /\ log (snd r) = [(INFO, "Whisper will use cpu for computation")]
  /\ handed (snd r) = [].
Proof.
  vm_compute. repeat split.
Qed.

(** ** Two fresh launches racing *)

Lemma existsb_snoc {A} (f : A -> bool) (l : list A) (e : A) :
  existsb f (l ++ [e]) = existsb f l || f e.
Proof. rewrite existsb_app. cbn. rewrite orb_false_r. reflexivity. Qed.

Lemma prefix_append (s t : string) : String.prefix s (s +:+ t) = true.
Proof.
  induction s as [|c s IH]; [destruct t; reflexivity|].
  rewrite TemplateFacts.append_cons. cbn. rewrite IH.
  destruct (ascii_dec c c); [reflexivity|congruence].
Qed.

Section RaceFacts.

Variable environ : gmap string string.
Variable main_file : Path.
Variable run_shell : string -> string -> CompletedProcess.
Variable dump_info : Info -> string.
Variable wd : Path.

Hypothesis accepted : forall command script, returncode (run_shell command script) = 0.

Let step_proc := Race.step_proc environ main_file run_shell dump_info wd.

(** The invariant does not tell the two processes apart. *)
Lemma inv_sym c p q : Race.inv wd c p q -> Race.inv wd c q p.
Proof.
  intros [Hp Hq Ht Hm Hhp Hhq Hl Ha Hn Hs].
  constructor; try assumption.
  - rewrite andb_comm. exact Hm.
  - rewrite orb_comm. exact Hl.
  - intros H. apply Ha. destruct (Race.submitting (Race.at_ p)), (Race.recording (Race.at_ p)), (Race.submitting (Race.at_ q)), (Race.recording (Race.at_ q)); auto.
  - rewrite Hn. lia.
  - cbv zeta in *. rewrite (orb_comm (Race.recording (Race.at_ q))), (orb_comm (Race.submitting (Race.at_ q))). exact Hs.
Qed.


(** Lookups after the insertions and deletions the blocks make. *)
Ltac maps :=
  repeat first
    [ rewrite lookup_insert_eq
    | rewrite lookup_delete_eq
    | rewrite (lookup_insert_ne _ (lock_file wd) (jobinfo_file wd)) by apply lock_ne_jobinfo
    | rewrite (lookup_insert_ne _ (lock_file wd) (submit_file wd)) by apply lock_ne_submit
    | rewrite (lookup_insert_ne _ (jobinfo_file wd) (lock_file wd)) by apply jobinfo_ne_lock
    | rewrite (lookup_insert_ne _ (jobinfo_file wd) (submit_file wd)) by apply jobinfo_ne_submit
    | rewrite (lookup_delete_ne _ (lock_file wd) (jobinfo_file wd)) by apply lock_ne_jobinfo
    | rewrite (lookup_delete_ne _ (lock_file wd) (submit_file wd)) by apply lock_ne_submit ].

(** Premises that have become trivial or absurd. *)
Ltac forward :=
  repeat match goal with
    | H : true = true -> _ |- _ => specialize (H eq_refl)
    | H : false = true -> _ |- _ => clear H
    | H : true = false -> _ |- _ => clear H
    | H : false = false -> _ |- _ => specialize (H eq_refl)
    | H : Race.AtOpen = Race.AtOpen -> _ |- _ => specialize (H eq_refl)
    | H : is_Some None |- _ => destruct H; discriminate
    end.


Lemma logging_info (msg : string) (st : state) :
  (level_rank (threshold st) <=? level_rank INFO)%nat = true ->
  logging INFO msg st = (Return tt, add_log (INFO, msg) st).
Proof. intros H. unfold logging. rewrite H. reflexivity. Qed.


(** Projections of updated states, and the phases of known positions. *)
Ltac simp_state :=
  cbn [fs clock threshold log ran written atexit_handlers handed self
       set_fs set_clock set_threshold add_log add_ran add_written add_atexit
       add_handed set_self workdir
       Race.at_ Race.own Race.args Race.view
       Race.guarded Race.submitting Race.recording Race.leaving
       andb orb fst snd] in *.

Ltac unfold_obs :=
  unfold Race.observed, Race.says, Race.announces_submission in *; simp_state.


Ltac lookups :=
  maps;
  repeat match goal with
    | H : fs ?c !! ?p = _ |- context [fs ?c !! ?p] => rewrite H
    end.

Ltac fin :=
  simp_state; lookups;
  try solve [ assumption | discriminate | reflexivity | eauto | congruence | lia
            | intuition (eauto; congruence) ].

Lemma announces_snoc_info (l : list (level * string)) (msg : string) :
  existsb (fun e : level * string =>
             let (y, m) := e in
             match y with
             | INFO => String.prefix "Job initially submitted with jobid " m
             | _ => false
             end) (l ++ [(INFO, msg)])
  = existsb (fun e : level * string =>
             let (y, m) := e in
             match y with
             | INFO => String.prefix "Job initially submitted with jobid " m
             | _ => false
             end) l
    || String.prefix "Job initially submitted with jobid " msg.
Proof. rewrite existsb_snoc. reflexivity. Qed.


Lemma announces_snoc_other (l : list (level * string)) (lvl : level) (msg : string) :
  lvl <> INFO ->
  existsb (fun e : level * string =>
             let (y, m) := e in
             match y with
             | INFO => String.prefix "Job initially submitted with jobid " m
             | _ => false
             end) (l ++ [(lvl, msg)])
  = existsb (fun e : level * string =>
             let (y, m) := e in
             match y with
             | INFO => String.prefix "Job initially submitted with jobid " m
             | _ => false
             end) l.
Proof.
  intros H. rewrite existsb_snoc. destruct lvl; try congruence; apply orb_false_r.
Qed.

Lemma logging_cases (lvl : level) (msg : string) (st : state) :
  logging lvl msg st
  = (Return tt,
     if (level_rank (threshold st) <=? level_rank lvl)%nat
     then add_log (lvl, msg) st else st).
Proof. unfold logging. destruct (_ <=? _)%nat; reflexivity. Qed.

Ltac obs_simpl :=
  unfold_obs;
  rewrite ?announces_snoc_info, ?existsb_snoc;
  rewrite ?(bool_decide_eq_true_2 ((INFO, conflict_message) = (INFO, conflict_message)))
    by reflexivity;
  rewrite ?(bool_decide_eq_true_2 ((INFO, active_message) = (INFO, active_message)))
    by reflexivity;
  rewrite ?prefix_append;
  rewrite ?orb_true_r;
  change (String.prefix "Job initially submitted with jobid " conflict_message)
    with false;
  change (String.prefix "Job initially submitted with jobid " active_message)
    with false;
  rewrite ?orb_false_r.

Ltac count_simpl :=
  rewrite ?List.filter_app, ?length_app; cbn [List.filter length];
  rewrite ?(bool_decide_eq_true_2 (jobinfo_file wd = jobinfo_file wd)) by reflexivity;
  cbn [List.filter length].

Ltac close_case kq :=
  destruct kq; simp_state; forward; try discriminate;
  (constructor; [constructor|..]); obs_simpl; count_simpl; fin.

(** Whichever block a process runs, the invariant holds afterwards: by
    cases on the position of the process, on what the block finds in the
    file system, and on the position of the other process. *)
Lemma inv_step c p q c' p' :
  Race.inv wd c p q -> step_proc c p = (c', p') -> Race.inv wd c' p' q.
Proof.
  intros Hinv Hstep. subst step_proc. unfold Race.step_proc in Hstep.
  destruct p as [k a o]. destruct q as [kq aq oq].
  destruct Hinv as [[Hwd Hthr Hhs Hpc Hquiet Hobs] Hq [text [mt Ht]] Hm Hhp Hhq Hl Ha Hn Hs].
  unfold_obs.
  destruct k.
  - (* AtOpen *)
    unfold Race.block in Hstep. simp_state.
    unfold acquire, open_x, atexit_register, modify, bind, Race.leave in Hstep.
    simp_state.
    destruct Hhs as [Hhs | [Hne _]]; [|congruence].
    destruct (fs c !! lock_file wd) as [n|] eqn:HL.
    + destruct (decide (FileExistsError = FileExistsError)); [|congruence].
      rewrite logging_info in Hstep by exact Hthr.
      simp_state. inversion Hstep; subst; clear Hstep.
      forward. close_case kq.
    + simp_state. inversion Hstep; subst; clear Hstep. forward.
      close_case kq.
      all: try (right; split; [discriminate|rewrite Hhs; reflexivity]).
  - (* AtCheck *)
    unfold Race.block in Hstep. simp_state.
    unfold exists_, bind, ret, Race.leave in Hstep. simp_state.
    destruct (fs c !! jobinfo_file wd) as [n|] eqn:HJ; cbn [negb] in Hstep.
    + rewrite logging_info in Hstep by exact Hthr.
      simp_state. inversion Hstep; subst; clear Hstep. forward.
      close_case kq.
    + simp_state. inversion Hstep; subst; clear Hstep. forward.
      close_case kq.
      all: try (destruct Hs as [Hs | (_ & _ & [x Hx])]; [exact Hs|discriminate]).
  - (* AtRead *)
    unfold Race.block in Hstep. simp_state.
    unfold get_workdir, read_template, read_text, bind, ret, Race.leave in Hstep.
    simp_state. rewrite Hwd in Hstep. simp_state. rewrite Ht in Hstep.
    simp_state. inversion Hstep; subst; clear Hstep. forward.
    close_case kq.
  - (* AtRun *)
    unfold Race.block in Hstep. simp_state.
    unfold submit, subprocess_run, bind, ret, Race.leave, Race.view in Hstep.
    rewrite !logging_cases in Hstep. simp_state.
    rewrite accepted in Hstep.
    rewrite (bool_decide_eq_false_2 (0 ≠ 0)) in Hstep by (intros H; apply H; reflexivity).
    simp_state.
    destruct (threshold o); try discriminate;
      cbn [level_rank Nat.leb] in Hstep; simp_state;
      inversion Hstep; subst; clear Hstep; forward.
    + close_case kq.
    + close_case kq.
  - (* AtWrite *)
    unfold Race.block in Hstep. simp_state. subst wd'.
    unfold record, write_text, bind, ret, Race.leave, Race.view in Hstep.
    simp_state. forward. rewrite Ha in Hstep.
    rewrite logging_info in Hstep by exact Hthr.
    simp_state. inversion Hstep; subst; clear Hstep.
    unfold submitted_message in *.
    close_case kq.
    all: try (destruct Hs as [Hs1 Hs2]; right; split; [exact Hs1|];
              split; [lia|eexists; reflexivity]).
  - (* AtUnlink *)
    unfold Race.block in Hstep. simp_state.
    unfold unlink_missing_ok, Race.leave, Race.view in Hstep. simp_state. forward.
    destruct (fs c !! lock_file wd) as [[lc lt|]|] eqn:HL; [| congruence |];
      simp_state; inversion Hstep; subst; clear Hstep.
    + close_case kq.
    + close_case kq.
  - (* AtExit *)
    unfold Race.block in Hstep. simp_state. unfold Race.view in Hstep. simp_state.
    destruct Hhs as [Hhs | [_ Hhs]]; rewrite Hhs in Hstep;
      cbn [run_atexit run_handler] in Hstep.
    + inversion Hstep; subst; clear Hstep. forward. close_case kq.
    + unfold unlink_missing_ok in Hstep. simp_state.
      destruct (fs c !! lock_file wd) as [[lc lt|]|] eqn:HL;
        simp_state; inversion Hstep; subst; clear Hstep; forward.
      * close_case kq.
      * close_case kq.
      * close_case kq.
  - (* Done *)
    unfold Race.block in Hstep. simp_state. unfold Race.view in Hstep.
    inversion Hstep; subst; clear Hstep. forward. close_case kq.
Qed.

(** The invariant holds when both processes are about to open the lock. *)
Lemma inv_start (files : filesystem) (now : Z) (a1 a2 : Args)
    (text : string) (mtime : Z) :
  files !! submit_file wd = Some (File text mtime) ->
  Race.invariant wd (Race.start wd files now a1 a2).
Proof.
  intros Ht. unfold Race.invariant, Race.start, Race.fresh_proc, Race.fresh_state.
  simp_state.
  constructor; [constructor|constructor|..];
    cbn [Race.common Race.first Race.second]; unfold_obs;
    try destruct (a_debug a1); try destruct (a_debug a2); cbn; eauto; try discriminate.
Qed.

Lemma invariant_step (w : Race.world) (who : bool) :
  Race.invariant wd w ->
  Race.invariant wd (Race.step environ main_file run_shell dump_info wd w who).
Proof.
  unfold Race.invariant, Race.step. intros Hinv. destruct who.
  - destruct (Race.step_proc environ main_file run_shell dump_info wd
                (Race.common w) (Race.second w)) as [c' p'] eqn:Hstep.
    cbn [Race.common Race.first Race.second].
    apply inv_sym. eapply inv_step; [apply inv_sym, Hinv|exact Hstep].
  - destruct (Race.step_proc environ main_file run_shell dump_info wd
                (Race.common w) (Race.first w)) as [c' p'] eqn:Hstep.
    cbn [Race.common Race.first Race.second].
    eapply inv_step; [exact Hinv|exact Hstep].
Qed.

Lemma invariant_run (schedule : list bool) : forall w,
  Race.invariant wd w ->
  Race.invariant wd (Race.run environ main_file run_shell dump_info wd schedule w).
Proof.
  unfold Race.run.
  induction schedule as [|who schedule IH]; intros w Hinv; cbn [fold_left].
  - exact Hinv.
  - apply IH, invariant_step, Hinv.
Qed.

(** Every block takes a process at least one block closer to its end. *)
Lemma step_proc_remaining c p c' p' :
  step_proc c p = (c', p') ->
  (Race.remaining (Race.at_ p') <= pred (Race.remaining (Race.at_ p)))%nat.
Proof.
  subst step_proc. unfold Race.step_proc.
  destruct (Race.block environ main_file run_shell dump_info wd p (Race.view c p))
    as [k' st'] eqn:Hb.
  intros H. inversion H; subst; clear H. cbn [Race.at_].
  unfold Race.block in Hb. destruct (Race.at_ p); unfold Race.leave in Hb;
    repeat match type of Hb with
      | context [match ?x with _ => _ end] => destruct x
      end;
    inversion Hb; subst; cbn; lia.
Qed.

(** Each time a process is scheduled it has a block less to run, until it
    has ended. *)
Lemma run_remaining (schedule : list bool) : forall w,
  let w' := Race.run environ main_file run_shell dump_info wd schedule w in
  (Race.remaining (Race.at_ (Race.first w')) + count_occ bool_dec schedule false
   <= Race.remaining (Race.at_ (Race.first w))
   \/ Race.remaining (Race.at_ (Race.first w')) = 0)%nat
  /\ (Race.remaining (Race.at_ (Race.second w')) + count_occ bool_dec schedule true
      <= Race.remaining (Race.at_ (Race.second w))
      \/ Race.remaining (Race.at_ (Race.second w')) = 0)%nat.
Proof.
  unfold Race.run.
  induction schedule as [|who schedule IH]; intros w; cbn [fold_left count_occ].
  - split; left; lia.
  - specialize (IH (Race.step environ main_file run_shell dump_info wd w who)).
    cbv zeta in IH. destruct IH as [IH1 IH2].
    unfold Race.step in *. destruct who.
    + destruct (Race.step_proc environ main_file run_shell dump_info wd
                  (Race.common w) (Race.second w)) as [c' p'] eqn:Hstep.
      apply step_proc_remaining in Hstep.
      cbn [Race.first Race.second] in IH1, IH2.
      destruct (bool_dec true false); [discriminate|].
      destruct (bool_dec true true); [|congruence].
      split; [exact IH1|]. lia.
    + destruct (Race.step_proc environ main_file run_shell dump_info wd
                  (Race.common w) (Race.first w)) as [c' p'] eqn:Hstep.
      apply step_proc_remaining in Hstep.
      cbn [Race.first Race.second] in IH1, IH2.
      destruct (bool_dec false true); [discriminate|].
      destruct (bool_dec false false); [|congruence].
      split; [lia|exact IH2].
Qed.

Lemma remaining_done (k : Race.pc) :
  Race.remaining k = 0%nat -> exists code, k = Race.Done code.
Proof. destruct k; try discriminate. eauto. Qed.

(** C5 (amended).  Two fresh launches race on one working directory whose
    [.submit] is a readable file, with a submission command that succeeds.
    Under every interleaving of their blocks, and at every point of it: the
    submission command has been run at most once, [jobinfo.yaml] has been
    written at most once, and at most one process announces a submission; a
    process that has ended has ended with status 0 and has logged a
    submission, "already in the system", or "Submission conflict", so of
    two ended processes one at least has observed "already active" or
    "conflict".  A process that has been scheduled seven times has ended. *)
Theorem fresh_launch_race (files : filesystem) (now : Z) (a1 a2 : Args)
    (text : string) (mtime : Z) (schedule : list bool) :
  files !! submit_file wd = Some (File text mtime) ->
  let w := Race.run environ main_file run_shell dump_info wd schedule
             (Race.start wd files now a1 a2) in
  (Race.submissions w <= 1)%nat
  /\ (Race.records_created wd w <= 1)%nat
  /\ Race.announces_submission (Race.first w)
     && Race.announces_submission (Race.second w) = false
  /\ (forall p code,
        p = Race.first w \/ p = Race.second w ->
        Race.at_ p = Race.Done code ->
        code = 0 /\ Race.observed p = true)
  /\ ((7 <= count_occ bool_dec schedule false)%nat ->
      exists code, Race.at_ (Race.first w) = Race.Done code)
  /\ ((7 <= count_occ bool_dec schedule true)%nat ->
      exists code, Race.at_ (Race.second w) = Race.Done code).
Proof.
  intros Ht w.
  pose proof (invariant_run schedule _ (inv_start files now a1 a2 text mtime Ht))
    as Hinv.
  pose proof (run_remaining schedule (Race.start wd files now a1 a2)) as Hrem.
  fold w in Hinv. cbv zeta in Hrem. fold w in Hrem.
  destruct Hrem as [Hrem1 Hrem2].
  destruct Hinv as [Hp Hq _ _ _ _ _ _ Hn Hs].
  unfold Race.submissions, Race.records_created. cbv zeta in Hs.
  assert (Hcount :
    (length (ran (Race.common w)) <= 1
     /\ length (List.filter (fun p => bool_decide (p = jobinfo_file wd))
                  (written (Race.common w))) <= 1)%nat).
  { destruct (Race.recording (Race.at_ (Race.first w))
              || Race.recording (Race.at_ (Race.second w)));
      [|destruct (Race.submitting (Race.at_ (Race.first w))
                  || Race.submitting (Race.at_ (Race.second w)))];
      intuition lia. }
  destruct Hcount as [Hran Hwritten].
  split; [exact Hran|]. split; [exact Hwritten|]. split; [|split; [|split]].
  - destruct (Race.announces_submission (Race.first w)),
      (Race.announces_submission (Race.second w)); try reflexivity. lia.
  - intros p code [-> | ->] Hdone.
    + destruct Hp as [_ _ _ Hpc _ Hobs]. rewrite Hdone in Hpc, Hobs.
      split; [exact Hpc|apply Hobs; reflexivity].
    + destruct Hq as [_ _ _ Hpc _ Hobs]. rewrite Hdone in Hpc, Hobs.
      split; [exact Hpc|apply Hobs; reflexivity].
  - intros Hseven. apply remaining_done.
    cbn [Race.start Race.first Race.fresh_proc Race.at_ Race.remaining] in Hrem1. lia.
  - intros Hseven. apply remaining_done.
    cbn [Race.start Race.second Race.fresh_proc Race.at_ Race.remaining] in Hrem2. lia.
Qed.

End RaceFacts.

(** The race on the cold working directory, the two processes taking turns. *)
Lemma fresh_launch_race_witness :
  let w := Race.run Scenario.environ Scenario.main_file Scenario.accepted
             Scenario.dump_info Scenario.wd
             [false; true; false; true; false; true; false;
              true; false; true; false; true; false; true]
             (Race.start Scenario.wd (fs Scenario.cold) 1000
                Scenario.launch Scenario.launch) in
  (Race.submissions w <= 1)%nat
  /\ (Race.records_created Scenario.wd w <= 1)%nat
  /\ Race.announces_submission (Race.first w)
     && Race.announces_submission (Race.second w) = false
  /\ (forall p code,
        p = Race.first w \/ p = Race.second w ->
        Race.at_ p = Race.Done code ->
        code = 0 /\ Race.observed p = true)
  /\ ((7 <= 7)%nat -> exists code, Race.at_ (Race.first w) = Race.Done code)
  /\ ((7 <= 7)%nat -> exists code, Race.at_ (Race.second w) = Race.Done code).
Proof.
  apply (fresh_launch_race Scenario.environ Scenario.main_file Scenario.accepted
           Scenario.dump_info Scenario.wd (fun _ _ => eq_refl)
           (fs Scenario.cold) 1000 Scenario.launch Scenario.launch
           "sbatch -D $workdir" 0
           [false; true; false; true; false; true; false;
            true; false; true; false; true; false; true]).
  vm_compute. reflexivity.
Defined.

(** One interleaving in full: the first process submits, the second finds
    the lock held. *)
Example race_submitted_and_conflict :
  let w := Race.run Scenario.environ Scenario.main_file Scenario.accepted
             Scenario.dump_info Scenario.wd
             [false; true; false; true; false; true; false;
              true; false; true; false; true; false; true]
             (Race.start Scenario.wd (fs Scenario.cold) 1000
                Scenario.launch Scenario.launch) in
  Race.at_ (Race.first w) = Race.Done 0
  /\ Race.at_ (Race.second w) = Race.Done 0
  /\ log (Race.own (Race.first w)) = [(INFO, "Job initially submitted with jobid 4242")]
  /\ log (Race.own (Race.second w)) = [(INFO, "Submission conflict")]
  /\ Race.submissions w = 1%nat
  /\ Race.records_created Scenario.wd w = 1%nat
  /\ fs (Race.common w) !! lock_file Scenario.wd = None.
Proof. vm_compute. repeat split. Qed.

(** C5 as stated fails when the scheduler rejects the submission.  The first
    process runs the command, is rejected and exits with status 1, leaving
    neither [jobinfo.yaml] nor the lock; the second process then finds the
    lock free and no record, runs the command again and exits with status 1
    as well, having observed neither "already active" nor "conflict". *)
Lemma rejected_submission_repeated :
  ~ (forall (run_shell : string -> string -> CompletedProcess)
            (schedule : list bool),
       let w := Race.run Scenario.environ Scenario.main_file run_shell
                  Scenario.dump_info Scenario.wd schedule
                  (Race.start Scenario.wd (fs Scenario.cold) 1000
                     Scenario.launch Scenario.launch) in
       (Race.submissions w <= 1)%nat
       /\ (forall code,
             Race.at_ (Race.second w) = Race.Done code ->
             code = 0
             /\ Race.says active_message (Race.second w)
                || Race.says conflict_message (Race.second w) = true)).
Proof.
  intros H.
  specialize (H Scenario.rejected (repeat false 7 ++ repeat true 7)%list).
  cbv zeta in H. destruct H as [H _].
  vm_compute in H. lia.
Qed.

(** ** One process on its own

    The blocks of the interleaving model, run one after the other by a
    single process, are [fresh_launch] followed by the [atexit] handlers. *)

Section SoloFacts.

Variable environ : gmap string string.
Variable main_file : Path.
Variable run_shell : string -> string -> CompletedProcess.
Variable dump_info : Info -> string.
Variable wd : Path.

Local Abbreviation alone := (Race.alone environ main_file run_shell dump_info wd).
Local Abbreviation ahead_open := (Race.ahead_open environ main_file run_shell dump_info wd).
Local Abbreviation ahead_check := (Race.ahead_check environ main_file run_shell dump_info wd).
Local Abbreviation ahead_read := (Race.ahead_read environ main_file run_shell dump_info wd).
Local Abbreviation ahead_run := (Race.ahead_run environ main_file run_shell dump_info wd).
Local Abbreviation ahead_write := (Race.ahead_write dump_info wd).

Lemma view_own (c : state) (k : Race.pc) (a : Args) :
  Race.view c {| Race.at_ := k; Race.args := a; Race.own := c |} = c.
Proof. destruct c. reflexivity. Qed.

Lemma alone_done (n : nat) (c : state) (a : Args) (code : Z) :
  alone n c {| Race.at_ := Race.Done code; Race.args := a; Race.own := c |}
  = (c, {| Race.at_ := Race.Done code; Race.args := a; Race.own := c |}).
Proof.
  induction n as [|n IH]; [reflexivity|].
  cbn [Race.alone]. unfold Race.step_proc, Race.block. cbn [Race.at_ Race.args].
  rewrite view_own. exact IH.
Qed.

Lemma alone_exit (n : nat) (c : state) (a : Args) (code : Z) (o : outcome unit) :
  Race.status o = code ->
  alone (S n) c {| Race.at_ := Race.AtExit code; Race.args := a; Race.own := c |}
  = Race.finish a (o, c).
Proof.
  intros <-. cbn [Race.alone].
  unfold Race.step_proc, Race.block. cbn [Race.at_ Race.args].
  rewrite view_own. apply alone_done.
Qed.

(** One block inside the [try], followed by the blocks after it. *)
Lemma alone_leave {A} (m : M A) (next : A -> Race.pc) (rest : A -> M unit)
    (n : nat) (c : state) (a : Args) :
  (forall x st,
      alone (S n) st {| Race.at_ := next x; Race.args := a; Race.own := st |}
      = Race.finish a (Race.guard (rest x) st)) ->
  (let '(k, st) := Race.leave (m c) next in
   alone (S n) st {| Race.at_ := k; Race.args := a; Race.own := st |})
  = Race.finish a (Race.guard (x <- m ;; rest x) c).
Proof.
  intros Hnext. unfold Race.leave, Race.guard, try_except_only, try_except, bind.
  destruct (m c) as [[x|code|e|] st] eqn:Hm.
  - rewrite Hnext. unfold Race.guard, try_except_only, try_except, bind. reflexivity.
  - apply (alone_exit n st a code (Exit code)). reflexivity.
  - destruct (decide (e = FileExistsError)) as [->|Hne].
    + rewrite logging_cases. cbn [snd].
      apply (alone_exit n _ a 0 (Exit 0)). reflexivity.
    + unfold raise. apply (alone_exit n st a 1 (Raise e)). reflexivity.
  - apply (alone_exit n st a 1 Diverge). reflexivity.
Qed.

Lemma alone_step (n : nat) (c : state) (k : Race.pc) (a : Args) :
  alone (S n) c {| Race.at_ := k; Race.args := a; Race.own := c |}
  = let '(k', st) :=
      Race.block environ main_file run_shell dump_info wd
        {| Race.at_ := k; Race.args := a; Race.own := c |} c in
    alone n st {| Race.at_ := k'; Race.args := a; Race.own := st |}.
Proof.
  cbn [Race.alone]. unfold Race.step_proc. rewrite view_own.
  destruct (Race.block _ _ _ _ _ _ c) as [k' st]. reflexivity.
Qed.

Lemma solo_unlink (n : nat) (c : state) (a : Args) :
  alone (S (S n)) c {| Race.at_ := Race.AtUnlink; Race.args := a; Race.own := c |}
  = Race.finish a (Race.guard (Race.release wd) c).
Proof.
  rewrite alone_step. unfold Race.block. cbn [Race.at_].
  rewrite (alone_leave (unlink_missing_ok (lock_file wd)) (fun _ => Race.AtExit 0)
             (fun _ => ret tt)).
  - unfold Race.guard, Race.release, try_except_only, try_except, bind, ret.
    destruct (unlink_missing_ok (lock_file wd) c) as [[[]|code|e|] st]; reflexivity.
  - intros _ st. apply (alone_exit n st a 0 (Exit 0)). reflexivity.
Qed.

Lemma solo_write (n : nat) (c : state) (a : Args) (wd' : Path) (r : CompletedProcess) :
  alone (S (S (S n))) c {| Race.at_ := Race.AtWrite wd' r; Race.args := a; Race.own := c |}
  = Race.finish a (Race.guard (ahead_write a wd' r) c).
Proof.
  rewrite alone_step. unfold Race.block. cbn [Race.at_ Race.args].
  rewrite (alone_leave
             (info <- record dump_info wd' (fresh_info a) r ;;
              logging INFO (submitted_message info))
             (fun _ => Race.AtUnlink) (fun _ => Race.release wd)).
  - unfold Race.guard, Race.ahead_write, try_except_only, try_except, bind.
    destruct (record dump_info wd' (fresh_info a) r c) as [[info|code|e|] st];
      try reflexivity.
    all: destruct (logging INFO (submitted_message info) st) as [[[]|code|e|] st'];
      reflexivity.
  - intros _ st. apply solo_unlink.
Qed.

Lemma solo_run (n : nat) (c : state) (a : Args) (wd' : Path) (text : string) :
  alone (S (S (S (S n)))) c {| Race.at_ := Race.AtRun wd' text; Race.args := a; Race.own := c |}
  = Race.finish a (Race.guard (ahead_run a wd' text) c).
Proof.
  rewrite alone_step. unfold Race.block. cbn [Race.at_ Race.args].
  rewrite (alone_leave
             (submit environ main_file run_shell wd' (fresh_info a) text)
             (Race.AtWrite wd') (ahead_write a wd')).
  - reflexivity.
  - intros r st. apply solo_write.
Qed.

Lemma solo_read (n : nat) (c : state) (a : Args) :
  alone (S (S (S (S (S n))))) c {| Race.at_ := Race.AtRead; Race.args := a; Race.own := c |}
  = Race.finish a (Race.guard (ahead_read a) c).
Proof.
  rewrite alone_step. unfold Race.block. cbn [Race.at_ Race.args].
  rewrite (alone_leave
             (wd' <- get_workdir ;; text <- read_template wd' ;; ret (wd', text))
             (fun '(wd', text) => Race.AtRun wd' text)
             (fun '(wd', text) => ahead_run a wd' text)).
  - unfold Race.guard, Race.ahead_read, try_except_only, try_except, bind, ret.
    destruct (get_workdir c) as [[wd'|code|e|] st]; try reflexivity.
    destruct (read_template wd' st) as [[text|code|e|] st']; reflexivity.
  - intros [wd' text] st. apply solo_run.
Qed.

Lemma solo_check (n : nat) (c : state) (a : Args) :
  alone (S (S (S (S (S (S n)))))) c {| Race.at_ := Race.AtCheck; Race.args := a; Race.own := c |}
  = Race.finish a (Race.guard (ahead_check a) c).
Proof.
  rewrite alone_step. unfold Race.block. cbn [Race.at_ Race.args].
  rewrite (alone_leave
             (j <- exists_ (jobinfo_file wd) ;;
              if negb j then ret true
              else (logging INFO active_message ;; ret false))
             (fun submit : bool => if submit then Race.AtRead else Race.AtUnlink)
             (fun submit : bool => if submit then ahead_read a else Race.release wd)).
  - unfold Race.guard, Race.ahead_check, try_except_only, try_except, bind, ret.
    destruct (exists_ (jobinfo_file wd) c) as [[[|]|code|e|] st]; try reflexivity.
    cbn [negb].
    destruct (logging INFO active_message st) as [[[]|code|e|] st']; reflexivity.
  - intros [|] st; [apply solo_read|apply (solo_unlink (S (S (S n))))].
Qed.

Lemma solo_open (n : nat) (c : state) (a : Args) :
  alone (S (S (S (S (S (S (S n))))))) c {| Race.at_ := Race.AtOpen; Race.args := a; Race.own := c |}
  = Race.finish a (Race.guard (ahead_open a) c).
Proof.
  rewrite alone_step. unfold Race.block. cbn [Race.at_ Race.args].
  rewrite (alone_leave (acquire wd) (fun _ => Race.AtCheck) (fun _ => ahead_check a)).
  - reflexivity.
  - intros _ st. apply solo_check.
Qed.

(** [fresh_launch] is the guarded remainder from the first block on. *)
Lemma fresh_launch_guard (a : Args) (c : state) :
  fresh_launch environ main_file run_shell dump_info a wd c
  = Race.guard (ahead_open a) c.
Proof.
  unfold fresh_launch, Race.guard, Race.ahead_open, Race.ahead_check,
    Race.ahead_read, Race.ahead_run, Race.ahead_write, Race.release,
    self_submission, try_except_only, try_except, bind.
  destruct (acquire wd c) as [[[]|code|e|] st1]; try reflexivity.
  destruct (exists_ (jobinfo_file wd) st1) as [[[|]|code|e|] st2]; try reflexivity.
  cbn [negb].
  destruct (get_workdir st2) as [[wd'|code|e|] st3]; try reflexivity.
  destruct (read_template wd' st3) as [[text|code|e|] st4]; try reflexivity.
  destruct (submit environ main_file run_shell wd' (fresh_info a) text st4)
    as [[r|code|e|] st5]; try reflexivity.
  destruct (record dump_info wd' (fresh_info a) r st5) as [[info|code|e|] st6];
    reflexivity.
Qed.

(** A process scheduled on its own runs [fresh_launch] and the [atexit]
    handlers: after its seven blocks it has ended with the status of
    [fresh_launch]'s outcome, in the state the handlers leave. *)
Lemma alone_is_fresh_launch (a : Args) (c : state) :
  alone 7 c {| Race.at_ := Race.AtOpen; Race.args := a; Race.own := c |}
  = Race.finish a (fresh_launch environ main_file run_shell dump_info a wd c).
Proof. rewrite fresh_launch_guard. apply (solo_open 0). Qed.

End SoloFacts.

(** ** Further properties of [main] and [self_submission] *)

Lemma logging_logged (l : level) (msg : string) (st : state) :
  logging l msg st = (Return tt, logged l msg st).
Proof. apply logging_cases. Qed.

Lemma logged_fs l msg st : fs (logged l msg st) = fs st.
Proof. unfold logged. destruct (_ <=? _)%nat; reflexivity. Qed.
Lemma logged_clock l msg st : clock (logged l msg st) = clock st.
Proof. unfold logged. destruct (_ <=? _)%nat; reflexivity. Qed.
Lemma logged_threshold l msg st : threshold (logged l msg st) = threshold st.
Proof. unfold logged. destruct (_ <=? _)%nat; reflexivity. Qed.
Lemma logged_ran l msg st : ran (logged l msg st) = ran st.
Proof. unfold logged. destruct (_ <=? _)%nat; reflexivity. Qed.
Lemma logged_written l msg st : written (logged l msg st) = written st.
Proof. unfold logged. destruct (_ <=? _)%nat; reflexivity. Qed.
Lemma logged_atexit l msg st : atexit_handlers (logged l msg st) = atexit_handlers st.
Proof. unfold logged. destruct (_ <=? _)%nat; reflexivity. Qed.
Lemma logged_handed l msg st : handed (logged l msg st) = handed st.
Proof. unfold logged. destruct (_ <=? _)%nat; reflexivity. Qed.
Lemma logged_self l msg st : self (logged l msg st) = self st.
Proof. unfold logged. destruct (_ <=? _)%nat; reflexivity. Qed.

Lemma logged_log l msg st :
  (level_rank (threshold st) <=? level_rank l)%nat = true ->
  log (logged l msg st) = (log st ++ [(l, msg)])%list.
Proof. intros H. unfold logged. rewrite H. reflexivity. Qed.

Create Rewrite HintDb frame.
#[export] Hint Rewrite logged_fs logged_clock logged_threshold logged_ran logged_written
  logged_atexit logged_handed logged_self : frame.

Ltac frame :=
  repeat (autorewrite with frame;
          cbn [fs clock threshold log ran written atexit_handlers handed self
               set_fs set_clock set_threshold add_log add_ran add_written add_atexit
               add_handed set_self workdir JOB_SETTLE_TIME job_warnings]).

Lemma bind_return {A B} (m : M A) (k : A -> M B) (st st' : state) (x : A) :
  m st = (Return x, st') -> bind m k st = k x st'.
Proof. intros H. unfold bind. rewrite H. reflexivity. Qed.

Lemma bind_exit {A B} (m : M A) (k : A -> M B) (st st' : state) (code : Z) :
  m st = (Exit code, st') -> bind m k st = (Exit code, st').
Proof. intros H. unfold bind. rewrite H. reflexivity. Qed.

Lemma bind_raise {A B} (m : M A) (k : A -> M B) (st st' : state) (e : exn) :
  m st = (Raise e, st') -> bind m k st = (Raise e, st').
Proof. intros H. unfold bind. rewrite H. reflexivity. Qed.

Section MainPaths.

Variable environ : gmap string string.
Variable main_file : Path.
Variable run_shell : string -> string -> CompletedProcess.
Variable load_info : string -> option Info.
Variable dump_info : Info -> string.

Local Abbreviation service_main := (main environ main_file run_shell load_info dump_info).
Local Abbreviation service := (run_process environ main_file run_shell load_info dump_info).
Local Abbreviation launch A := (@fresh_launch environ main_file run_shell dump_info A).

(** [main] on a working directory that passes the two checks: what is left
    is the choice between the fresh launch and the continuation. *)
Lemma main_configured (work : nat -> M unit) (fuel : nat) (args : Args) (st : state)
    (tpl : node) :
  let wd := a_workdir args in
  fs st !! wd = Some Dir ->
  fs st !! submit_file wd = Some tpl ->
  service_main work fuel args st
  = ((info <- (if negb (a_continuation args
                        && match fs st !! jobinfo_file wd with
                           | Some _ => true
                           | None => false
                           end)
               then launch Info args wd
               else (text <- read_text (jobinfo_file wd) ;; safe_load_info load_info text)) ;;
      work fuel ;;
      logging INFO "Finished processing things.  Shutting down." ;;
      unlink_missing_ok (jobinfo_file wd)) (after_setup args st)).
Proof.
  intros wd Hdir Htpl. unfold main, after_setup.
  unfold bind at 1. unfold modify at 1.
  unfold bind at 1. unfold set_workdir at 1, modify at 1.
  unfold bind at 1. unfold get_workdir at 1. cbn [self set_self workdir].
  unfold bind at 1. unfold is_dir at 1. cbn [fs set_self set_threshold].
  fold wd. rewrite Hdir. cbn [negb].
  unfold bind at 1. unfold ret at 1.
  unfold bind at 1. unfold exists_ at 1. cbn [fs set_self set_threshold].
  rewrite Htpl. cbn [negb].
  unfold bind at 1. unfold ret at 1.
  unfold bind at 1. unfold exists_ at 1. cbn [fs set_self set_threshold].
  reflexivity.
Qed.

(** X1.  When the working directory given on the command line is not a
    directory (it is missing, or it is a regular file), [main] logs the
    error and leaves through [exit(1)]; the file system, the commands run,
    the paths written and the exit handlers are as before. *)
Theorem main_not_a_directory (work : nat -> M unit) (fuel : nat) (args : Args)
    (st : state) :
  fs st !! a_workdir args <> Some Dir ->
  exists st',
    service_main work fuel args st = (Exit 1, st')
    /\ fs st' = fs st
    /\ ran st' = ran st
    /\ written st' = written st
    /\ atexit_handlers st' = atexit_handlers st
    /\ log st'
       = (log st ++ [(ERROR, "The working directory " +:+ path_str (a_workdir args)
                               +:+ " isn't a directory")])%list.
Proof.
  intros Hdir. unfold main.
  unfold bind at 1. unfold modify at 1.
  unfold bind at 1. unfold set_workdir at 1, modify at 1.
  unfold bind at 1. unfold get_workdir at 1. cbn [self set_self workdir].
  unfold bind at 1. unfold is_dir at 1. cbn [fs set_self set_threshold].
  assert (Hno : match fs st !! a_workdir args with Some Dir => true | _ => false end = false).
  { destruct (fs st !! a_workdir args) as [[c t|]|]; congruence. }
  rewrite Hno. cbn [negb].
  unfold bind at 1. unfold bind at 1. unfold logging at 1.
  cbn [threshold set_self set_threshold].
  replace (level_rank (if a_debug args then DEBUG else INFO) <=? level_rank ERROR)%nat
    with true by (destruct (a_debug args); reflexivity).
  unfold exit. eexists. repeat split.
Qed.

(** The fresh launch ends the process: what follows it is never run. *)
Lemma fresh_launch_bind {A B} (k : A -> M B) (args : Args) (wd : Path) (st : state) :
  bind (launch A args wd) k st = launch B args wd st.
Proof.
  unfold fresh_launch, bind, exit.
  destruct (try_except_only _ _ _ st) as [[[]|code|e|] st']; reflexivity.
Qed.

Lemma main_not_dir (work : nat -> M unit) (fuel : nat) (args : Args) (st : state) :
  fs st !! a_workdir args <> Some Dir ->
  service_main work fuel args st
  = (Exit 1,
     add_log (ERROR, "The working directory " +:+ path_str (a_workdir args)
                       +:+ " isn't a directory") (after_setup args st)).
Proof.
  intros Hdir. unfold main, after_setup.
  unfold bind at 1. unfold modify at 1.
  unfold bind at 1. unfold set_workdir at 1, modify at 1.
  unfold bind at 1. unfold get_workdir at 1. cbn [self set_self workdir].
  unfold bind at 1. unfold is_dir at 1. cbn [fs set_self set_threshold].
  assert (Hno : match fs st !! a_workdir args with Some Dir => true | _ => false end = false).
  { destruct (fs st !! a_workdir args) as [[c t|]|]; congruence. }
  rewrite Hno. cbn [negb].
  unfold bind at 1. unfold bind at 1. unfold logging at 1.
  cbn [threshold set_self set_threshold].
  replace (level_rank (if a_debug args then DEBUG else INFO) <=? level_rank ERROR)%nat
    with true by (destruct (a_debug args); reflexivity).
  reflexivity.
Qed.

Lemma refuse_unconfigured_ends (wd : Path) (st : state) :
  exists o st',
    refuse_unconfigured wd st = (o, st')
    /\ (o = Exit 1 \/ o = Raise IsADirectoryError).
Proof.
  unfold refuse_unconfigured.
  erewrite bind_return by apply logging_cases.
  set (st1 := if (_ <=? _)%nat then _ else st).
  unfold bind at 1. unfold exists_ at 1.
  destruct (fs st1 !! sample_file wd) as [n|] eqn:Hs; cbn [negb].
  - unfold bind, ret, exit. eauto.
  - unfold bind at 1.
    erewrite bind_return by apply logging_cases.
    set (st2 := if (_ <=? _)%nat then _ else st1).
    unfold write_text.
    destruct (fs st2 !! sample_file wd) as [[c t|]|]; unfold exit; eauto.
Qed.

Lemma main_no_submit (work : nat -> M unit) (fuel : nat) (args : Args) (st : state) :
  let wd := a_workdir args in
  fs st !! wd = Some Dir ->
  fs st !! submit_file wd = None ->
  service_main work fuel args st = refuse_unconfigured wd (after_setup args st).
Proof.
  intros wd Hdir Hno. unfold main.
  unfold bind at 1. unfold modify at 1.
  unfold bind at 1. unfold set_workdir at 1, modify at 1.
  unfold bind at 1. unfold get_workdir at 1. cbn [self set_self workdir].
  unfold bind at 1. unfold is_dir at 1. cbn [fs set_self set_threshold].
  fold wd. rewrite Hdir. cbn [negb].
  unfold bind at 1. unfold ret at 1.
  unfold bind at 1. unfold exists_ at 1. cbn [fs set_self set_threshold].
  rewrite Hno. cbn [negb].
  fold (refuse_unconfigured wd).
  match goal with |- bind _ _ ?s = _ => change s with (after_setup args st) end.
  destruct (refuse_unconfigured_ends wd (after_setup args st))
    as (o & st' & Heq & [->| ->]); rewrite Heq.
  - apply (bind_exit _ _ _ _ _ Heq).
  - apply (bind_raise _ _ _ _ _ Heq).
Qed.

(** A fresh launch that finds the lock: nothing but the log entry. *)
Lemma fresh_launch_conflict {A} (args : Args) (wd : Path) (st : state) (n : node) :
  fs st !! lock_file wd = Some n ->
  launch A args wd st
  = (Exit 0,
     if (level_rank (threshold st) <=? level_rank INFO)%nat
     then add_log (INFO, conflict_message) st else st).
Proof.
  intros Hlock. unfold fresh_launch.
  unfold bind at 1. unfold try_except_only, try_except.
  unfold bind at 1. unfold acquire. unfold bind at 1. unfold open_x at 1.
  rewrite Hlock. rewrite decide_True by reflexivity.
  rewrite logging_cases. reflexivity.
Qed.

(** X3.  On the fresh-launch path (no [--continuation], or no
    [jobinfo.yaml]) [main] never calls [work]: its result is the same
    whatever [work] is, and it never returns normally, it ends with [exit]
    or with an exception. *)
Theorem fresh_launch_never_works (work work' : nat -> M unit) (fuel fuel' : nat)
    (args : Args) (st : state) :
  a_continuation args = false \/ fs st !! jobinfo_file (a_workdir args) = None ->
  service_main work fuel args st = service_main work' fuel' args st
  /\ exists o st',
       service_main work fuel args st = (o, st')
       /\ ((exists code, o = Exit code) \/ (exists e, o = Raise e)).
Proof.
  intros Hfresh.
  assert (Hcase : fs st !! a_workdir args = Some Dir
                  \/ fs st !! a_workdir args <> Some Dir).
  { destruct (fs st !! a_workdir args) as [[c t|]|]; auto; right; congruence. }
  destruct Hcase as [Hdir|Hdir].
  2:{ rewrite !main_not_dir by assumption. split; [reflexivity|]. eauto 6. }
  destruct (fs st !! submit_file (a_workdir args)) as [tpl|] eqn:Htpl.
  2:{ rewrite !main_no_submit by assumption. split; [reflexivity|].
      destruct (refuse_unconfigured_ends (a_workdir args) (after_setup args st))
        as (o & st' & -> & [->| ->]); eauto 6. }
  rewrite !(main_configured _ _ _ _ tpl) by assumption.
  assert (Hc : a_continuation args
               && match fs st !! jobinfo_file (a_workdir args) with
                  | Some _ => true | None => false end = false).
  { destruct Hfresh as [->| ->]; [reflexivity|apply andb_false_r]. }
  rewrite Hc. cbn [negb].
  rewrite !fresh_launch_bind. split; [reflexivity|].
  destruct (fs (after_setup args st) !! lock_file (a_workdir args)) as [n|] eqn:Hlock.
  - erewrite fresh_launch_conflict by exact Hlock. eauto 6.
  - destruct (fresh_launch_guarded environ main_file run_shell dump_info (A:=unit)
                args (a_workdir args) (after_setup args st) eq_refl Hlock)
      as (o & st' & Heq & Ho & _).
    exists o, st'. split; [exact Heq|].
    destruct Ho as [->|[->|[e ->]]]; eauto.
Qed.



Local Abbreviation submission := (self_submission environ main_file run_shell dump_info).

(** The state an accepted submission leaves. *)
Lemma self_submission_steps (info : Info) (st : state) (wd : Path)
    (text : string) (mtime : Z) :
  let command := render wd environ text in
  let script := slurm_script main_file wd (i_debug info) in
  let p := run_shell command script in
  let st1 := add_ran (command, script)
               (logged DEBUG ("Submitting job with slurm script:" +:+ nl +:+ script)
                  (logged DEBUG ("Submission command:" +:+ nl +:+ command) st)) in
  workdir (self st) = Some wd ->
  fs st !! submit_file wd = Some (File text mtime) ->
  returncode p = 0 ->
  submission info st = record dump_info wd info p st1.
Proof.
  intros command script p st1 Hwd Htpl Hrc.
  unfold self_submission.
  unfold bind at 1. unfold get_workdir at 1. rewrite Hwd.
  unfold bind at 1. unfold read_template, read_text. rewrite Htpl.
  unfold bind at 1. unfold submit.
  fold command. fold script.
  erewrite bind_return by apply logging_logged.
  erewrite bind_return by apply logging_logged.
  unfold bind at 1. unfold subprocess_run at 1. fold p. fold st1.
  rewrite bool_decide_eq_false_2 by (intros H; apply H; exact Hrc).
  unfold bind at 1. unfold ret at 1 2. reflexivity.
Qed.

Lemma self_submission_state (info : Info) (st : state) (wd : Path)
    (text : string) (mtime : Z) :
  let command := render wd environ text in
  let script := slurm_script main_file wd (i_debug info) in
  let p := run_shell command script in
  let info' := set_jobid (Some (PyStr.strip (stdout p))) info in
  workdir (self st) = Some wd ->
  fs st !! submit_file wd = Some (File text mtime) ->
  returncode p = 0 ->
  fs st !! jobinfo_file wd <> Some Dir ->
  exists st',
    submission info st = (Return info', st')
    /\ fs st' = <[jobinfo_file wd := File (dump_info info') (clock st)]> (fs st)
    /\ ran st' = (ran st ++ [(command, script)])%list
    /\ written st' = (written st ++ [jobinfo_file wd])%list
    /\ atexit_handlers st' = atexit_handlers st
    /\ threshold st' = threshold st
    /\ clock st' = clock st
    /\ self st' = self st
    /\ handed st' = handed st.
Proof.
  intros command script p info' Hwd Htpl Hrc Hrec.
  rewrite (self_submission_steps info st wd text mtime Hwd Htpl Hrc).
  fold command script p. unfold record. fold info'.
  unfold bind at 1. unfold write_text at 1. frame.
  destruct (fs st !! jobinfo_file wd) as [[c t|]|] eqn:E; try congruence;
    (eexists; split; [reflexivity|]; frame; repeat split; auto).
Qed.

(** X8.  An accepted submission: [self_submission] returns the job
    information with [jobid] set to the stripped standard output of the
    command, has run that one command, has written [jobinfo.yaml] with the
    dump and has touched no other path; the [SIGUSR1] handler then leaves
    through [exit(0)]. *)
Theorem self_submission_accepted (info : Info) (st : state) (wd : Path)
    (text : string) (mtime : Z) :
  let command := render wd environ text in
  let script := slurm_script main_file wd (i_debug info) in
  let p := run_shell command script in
  let info' := set_jobid (Some (PyStr.strip (stdout p))) info in
  workdir (self st) = Some wd ->
  fs st !! submit_file wd = Some (File text mtime) ->
  returncode p = 0 ->
  fs st !! jobinfo_file wd <> Some Dir ->
  exists st',
    submission info st = (Return info', st')
    /\ usr1handler environ main_file run_shell dump_info info st = (Exit 0, st')
    /\ fs st' = <[jobinfo_file wd := File (dump_info info') (clock st)]> (fs st)
    /\ ran st' = (ran st ++ [(command, script)])%list
    /\ written st' = (written st ++ [jobinfo_file wd])%list
    /\ atexit_handlers st' = atexit_handlers st.
Proof.
  intros command script p info' Hwd Htpl Hrc Hrec.
  destruct (self_submission_state info st wd text mtime Hwd Htpl Hrc Hrec)
    as (st' & Heq & Hfs & Hran & Hwr & Hat & _).
  exists st'. unfold usr1handler. erewrite bind_return by exact Heq.
  fold command script p info' in Hfs, Hran, Hwr. unfold exit. auto 10.
Qed.

(** X9.  The command is run before the record is opened: when
    [jobinfo.yaml] cannot be opened for writing (it is a directory),
    [self_submission] raises after the job has been submitted and leaves
    the file system without a record of it. *)
Theorem self_submission_unrecorded (info : Info) (st : state) (wd : Path)
    (text : string) (mtime : Z) :
  let command := render wd environ text in
  let script := slurm_script main_file wd (i_debug info) in
  let p := run_shell command script in
  workdir (self st) = Some wd ->
  fs st !! submit_file wd = Some (File text mtime) ->
  returncode p = 0 ->
  fs st !! jobinfo_file wd = Some Dir ->
  exists st',
    submission info st = (Raise IsADirectoryError, st')
    /\ ran st' = (ran st ++ [(command, script)])%list
    /\ fs st' = fs st
    /\ written st' = written st.
Proof.
  intros command script p Hwd Htpl Hrc Hrec.
  rewrite (self_submission_steps info st wd text mtime Hwd Htpl Hrc).
  fold command script p. unfold record.
  unfold bind at 1. unfold write_text at 1. frame. rewrite Hrec.
  eexists; split; [reflexivity|]. frame. auto.
Qed.

(** X10.  Without a readable [.submit], [self_submission] raises from the
    read and changes nothing: no command is run. *)
Theorem self_submission_without_template (info : Info) (st : state) (wd : Path) :
  workdir (self st) = Some wd ->
  (forall text mtime, fs st !! submit_file wd <> Some (File text mtime)) ->
  exists e, submission info st = (Raise e, st).
Proof.
  intros Hwd Htpl. unfold self_submission.
  unfold bind at 1. unfold get_workdir at 1. rewrite Hwd.
  unfold bind at 1. unfold read_template, read_text.
  destruct (fs st !! submit_file wd) as [[c t|]|] eqn:E; eauto.
  exfalso. eapply Htpl. reflexivity.
Qed.


Lemma acquire_free (wd : Path) (st : state) :
  fs st !! lock_file wd = None ->
  acquire wd st
  = (Return tt,
     add_atexit (UnlinkMissingOk (lock_file wd))
       (set_fs (insert (lock_file wd) (File "" (clock st))) st)).
Proof.
  intros Hlock. unfold acquire. unfold bind, open_x. rewrite Hlock. reflexivity.
Qed.

Lemma try_returns {A} (E : exn) (body handler : M A) (st st' : state) (x : A) :
  body st = (Return x, st') -> try_except_only E body handler st = (Return x, st').
Proof. intros H. unfold try_except_only, try_except. rewrite H. reflexivity. Qed.

(** A fresh launch on a free, unrecorded directory whose submission is
    accepted. *)
Lemma fresh_launch_submits_state {A} (args : Args) (wd : Path) (st : state)
    (text : string) (mtime : Z) :
  let command := render wd environ text in
  let script := slurm_script main_file wd (a_debug args) in
  let p := run_shell command script in
  let info' := set_jobid (Some (PyStr.strip (stdout p))) (fresh_info args) in
  workdir (self st) = Some wd ->
  fs st !! submit_file wd = Some (File text mtime) ->
  fs st !! jobinfo_file wd = None ->
  fs st !! lock_file wd = None ->
  returncode p = 0 ->
  exists st',
    launch A args wd st = (Exit 0, st')
    /\ fs st' = <[jobinfo_file wd := File (dump_info info') (clock st)]> (fs st)
    /\ ran st' = (ran st ++ [(command, script)])%list
    /\ written st' = (written st ++ [jobinfo_file wd])%list
    /\ atexit_handlers st'
       = (atexit_handlers st ++ [UnlinkMissingOk (lock_file wd)])%list
    /\ ((level_rank (threshold st) <=? level_rank INFO)%nat = true ->
        In (INFO, submitted_message info') (log st')).
Proof.
  intros command script p info' Hwd Htpl Hrec Hlock Hrc.
  set (s1 := add_atexit (UnlinkMissingOk (lock_file wd))
               (set_fs (insert (lock_file wd) (File "" (clock st))) st)).
  assert (Hs1 : fs s1 = <[lock_file wd := File "" (clock st)]> (fs st)) by reflexivity.
  destruct (self_submission_state (fresh_info args) s1 wd text mtime) as
    (s2 & Hsub & Hfs2 & Hran2 & Hwr2 & Hat2 & Hthr2 & Hclk2 & Hself2 & Hhd2).
  { exact Hwd. }
  { rewrite Hs1, lookup_insert_ne by apply lock_ne_submit. exact Htpl. }
  { exact Hrc. }
  { rewrite Hs1, lookup_insert_ne by apply lock_ne_jobinfo. rewrite Hrec. discriminate. }
  cbn [i_debug fresh_info] in Hfs2, Hran2, Hsub. fold command script p info' in Hfs2, Hran2, Hsub.
  set (s3 := logged INFO (submitted_message info') s2).
  exists (set_fs (delete (lock_file wd)) s3).
  split.
  - unfold fresh_launch.
    erewrite bind_return; [reflexivity|].
    apply try_returns.
    erewrite bind_return by (apply acquire_free; exact Hlock). fold s1.
    unfold bind at 1. unfold exists_ at 1.
    rewrite Hs1, lookup_insert_ne by apply lock_ne_jobinfo. rewrite Hrec. cbn [negb].
    unfold bind at 1. erewrite bind_return by exact Hsub.
    rewrite logging_logged. fold s3.
    unfold unlink_missing_ok.
    assert (Hl3 : fs s3 !! lock_file wd = Some (File "" (clock st))).
    { unfold s3. rewrite logged_fs, Hfs2, lookup_insert_ne by apply jobinfo_ne_lock.
      rewrite Hs1. apply lookup_insert_eq. }
    rewrite Hl3. reflexivity.
  - unfold s3. frame. rewrite Hfs2, Hran2, Hwr2, Hat2, Hs1.
    repeat split.
    + rewrite delete_insert_ne by apply lock_ne_jobinfo.
      rewrite delete_insert_id by exact Hlock. reflexivity.
    + intros Hthr. rewrite logged_log.
      * apply in_or_app. right. left. reflexivity.
      * rewrite Hthr2. exact Hthr.
Qed.


Lemma after_setup_fs args st : fs (after_setup args st) = fs st.
Proof. reflexivity. Qed.

Lemma threshold_after_setup args st :
  (level_rank (threshold (after_setup args st)) <=? level_rank INFO)%nat = true.
Proof. unfold after_setup. cbn. destruct (a_debug args); reflexivity. Qed.

Lemma unlink_gone (p : Path) (st : state) :
  fs st !! p = None -> unlink_missing_ok p st = (Return tt, st).
Proof. intros H. unfold unlink_missing_ok. rewrite H. reflexivity. Qed.

(** X4.  A fresh launch on a configured directory with neither record nor
    lock, whose submission command is accepted, ends the process with
    status 0.  Afterwards the file system is the one before with
    [jobinfo.yaml] added (the lock is gone again); the record holds the dump
    of the job information with the stripped output of the command as job
    id; exactly one command has been run, and the submission is announced
    at level INFO. *)
Theorem fresh_launch_submits (work : nat -> M unit) (fuel : nat) (args : Args)
    (st : state) (text : string) (mtime : Z) :
  let wd := a_workdir args in
  let command := render wd environ text in
  let script := slurm_script main_file wd (a_debug args) in
  let p := run_shell command script in
  let info' := set_jobid (Some (PyStr.strip (stdout p))) (fresh_info args) in
  fs st !! wd = Some Dir ->
  fs st !! submit_file wd = Some (File text mtime) ->
  fs st !! jobinfo_file wd = None ->
  fs st !! lock_file wd = None ->
  atexit_handlers st = [] ->
  returncode p = 0 ->
  exists st',
    service work fuel args st = (Some 0, st')
    /\ fs st' = <[jobinfo_file wd := File (dump_info info') (clock st)]> (fs st)
    /\ ran st' = (ran st ++ [(command, script)])%list
    /\ written st' = (written st ++ [jobinfo_file wd])%list
    /\ In (INFO, submitted_message info') (log st').
Proof.
  intros wd command script p info' Hdir Htpl Hrec Hlock Hat Hrc.
  destruct (fresh_launch_submits_state (A:=unit) args wd (after_setup args st) text mtime)
    as (st' & Heq & Hfs & Hran & Hwr & Hat' & Hlog); try assumption; try reflexivity.
  fold command script p info' in Hfs, Hran, Hwr, Hlog.
  specialize (Hlog (threshold_after_setup args st)).
  exists st'. unfold run_process.
  rewrite (main_configured _ _ _ _ _ Hdir Htpl). fold wd.
  rewrite Hrec, andb_false_r. cbn [negb].
  rewrite fresh_launch_bind, Heq.
  rewrite Hat'. change (atexit_handlers (after_setup args st)) with (atexit_handlers st).
  rewrite Hat. cbn [app run_atexit run_handler].
  rewrite unlink_gone.
  2:{ rewrite Hfs, lookup_insert_ne by apply jobinfo_ne_lock. exact Hlock. }
  cbn [snd]. auto.
Qed.

(** A fresh launch on a free directory that already has its record. *)
Lemma fresh_launch_active_state {A} (args : Args) (wd : Path) (st : state) (n : node) :
  fs st !! jobinfo_file wd = Some n ->
  fs st !! lock_file wd = None ->
  launch A args wd st
  = (Exit 0,
     set_fs (delete (lock_file wd))
       (logged INFO active_message
          (add_atexit (UnlinkMissingOk (lock_file wd))
             (set_fs (insert (lock_file wd) (File "" (clock st))) st)))).
Proof.
  intros Hrec Hlock.
  unfold fresh_launch.
  erewrite bind_return; [reflexivity|].
  apply try_returns.
  erewrite bind_return by (apply acquire_free; exact Hlock).
  unfold bind at 1. unfold exists_ at 1. frame.
  rewrite lookup_insert_ne by apply lock_ne_jobinfo. rewrite Hrec. cbn [negb].
  erewrite bind_return by apply logging_logged.
  unfold unlink_missing_ok. frame. rewrite lookup_insert_eq. reflexivity.
Qed.

(** X5.  A fresh launch that finds the lock, or else the record, stands
    down: status 0, the file system exactly as found, no command run, no
    path written, nothing handed to the callback, and one more line in the
    log, the submission conflict for the lock and the already-active
    message for the record. *)
Theorem fresh_launch_stands_down (work : nat -> M unit) (fuel : nat) (args : Args)
    (st : state) (tpl found : node) :
  let wd := a_workdir args in
  fs st !! wd = Some Dir ->
  fs st !! submit_file wd = Some tpl ->
  a_continuation args = false ->
  atexit_handlers st = [] ->
  fs st !! lock_file wd = Some found
  \/ (fs st !! lock_file wd = None /\ fs st !! jobinfo_file wd = Some found) ->
  exists st',
    service work fuel args st = (Some 0, st')
    /\ fs st' = fs st
    /\ ran st' = ran st
    /\ written st' = written st
    /\ handed st' = handed st
    /\ log st'
       = (log st ++ [(INFO, match fs st !! lock_file wd with
                            | Some _ => conflict_message
                            | None => active_message
                            end)])%list.
Proof.
  intros wd Hdir Htpl Hfresh Hat Hfound.
  unfold run_process.
  rewrite (main_configured _ _ _ _ _ Hdir Htpl). fold wd.
  rewrite Hfresh. cbn [andb negb].
  rewrite fresh_launch_bind.
  destruct Hfound as [Hlock|[Hlock Hrec]].
  - erewrite fresh_launch_conflict by exact Hlock.
    rewrite threshold_after_setup. rewrite Hlock.
    cbn [atexit_handlers after_setup add_log set_self set_threshold].
    rewrite Hat. cbn [run_atexit].
    eexists; split; [reflexivity|]. frame. auto.
  - erewrite fresh_launch_active_state by (first [exact Hrec|exact Hlock]).
    rewrite Hlock. frame. unfold after_setup at 1. frame. rewrite Hat.
    cbn [app run_atexit run_handler].
    rewrite unlink_gone by (frame; apply lookup_delete_eq).
    eexists; split; [reflexivity|]. cbn [snd]. frame.
    rewrite logged_log by (frame; apply threshold_after_setup).
    unfold after_setup. frame.
    rewrite delete_insert_id by exact Hlock. auto.
Qed.


(** X2.  With no [jobinfo.yaml] in the working directory, [--continuation]
    makes no difference: [main] does exactly what it does without the
    flag. *)
Theorem spurious_continuation_is_fresh_launch (work : nat -> M unit) (fuel : nat)
    (args : Args) (st : state) :
  fs st !! jobinfo_file (a_workdir args) = None ->
  service_main work fuel args st
  = service_main work fuel
      {| a_debug := a_debug args; a_workdir := a_workdir args;
         a_continuation := false |} st.
Proof.
  intros Hrec. destruct args as [dbg wd c]. cbn [a_debug a_workdir] in *.
  assert (Hcase : fs st !! wd = Some Dir \/ fs st !! wd <> Some Dir).
  { destruct (fs st !! wd) as [[c' t|]|]; auto; right; congruence. }
  destruct Hcase as [Hdir|Hdir].
  2:{ rewrite !main_not_dir by assumption. reflexivity. }
  destruct (fs st !! submit_file wd) as [tpl|] eqn:Htpl.
  2:{ rewrite !main_no_submit by assumption. reflexivity. }
  rewrite !(main_configured _ _ _ _ tpl) by assumption.
  cbn [a_debug a_workdir a_continuation].
  rewrite Hrec, andb_false_r. cbn [andb negb].
  rewrite !fresh_launch_bind. reflexivity.
Qed.

(** X6.  A continuation whose [jobinfo.yaml] is a directory or does not parse
    ends with the exception of the read ([IsADirectoryError], [YAMLError])
    before [work] is called; nothing but the logger level and [workdir] has
    changed, so the record is still there. *)
Theorem continuation_with_unreadable_record (work : nat -> M unit) (fuel : nat)
    (args : Args) (st : state) (tpl : node) :
  let wd := a_workdir args in
  fs st !! wd = Some Dir ->
  fs st !! submit_file wd = Some tpl ->
  a_continuation args = true ->
  match fs st !! jobinfo_file wd with
  | Some (File text _) => load_info text = None
  | Some Dir => True
  | None => False
  end ->
  service_main work fuel args st
  = (Raise (match fs st !! jobinfo_file wd with
            | Some Dir => IsADirectoryError
            | _ => YAMLError
            end), after_setup args st).
Proof.
  intros wd Hdir Htpl Hcont Hbad.
  rewrite (main_configured _ _ _ _ _ Hdir Htpl). fold wd.
  rewrite Hcont.
  destruct (fs st !! jobinfo_file wd) as [[text t|]|] eqn:Hrec; try contradiction;
    cbn [andb negb].
  - unfold bind at 1. unfold bind at 1. unfold read_text at 1.
    rewrite after_setup_fs, Hrec. unfold safe_load_info. rewrite Hbad. reflexivity.
  - unfold bind at 1. unfold bind at 1. unfold read_text at 1.
    rewrite after_setup_fs, Hrec. reflexivity.
Qed.

(** X7.  What a successful fresh launch leaves is what a continuation needs:
    when the dumped job information loads again, [main --continuation] on
    the state the launching process left goes straight to [work], followed
    by the shutdown message and the removal of [jobinfo.yaml]. *)
Theorem continuation_after_launch (work work' : nat -> M unit) (fuel fuel' : nat)
    (args : Args) (st : state) (text : string) (mtime : Z) :
  let wd := a_workdir args in
  let command := render wd environ text in
  let script := slurm_script main_file wd (a_debug args) in
  let p := run_shell command script in
  let info' := set_jobid (Some (PyStr.strip (stdout p))) (fresh_info args) in
  let resumed := {| a_debug := a_debug args; a_workdir := wd; a_continuation := true |} in
  fs st !! wd = Some Dir ->
  fs st !! submit_file wd = Some (File text mtime) ->
  fs st !! jobinfo_file wd = None ->
  fs st !! lock_file wd = None ->
  atexit_handlers st = [] ->
  returncode p = 0 ->
  is_Some (load_info (dump_info info')) ->
  let st1 := snd (service work fuel args st) in
  service_main work' fuel' resumed st1
  = ((work' fuel' ;;
      logging INFO "Finished processing things.  Shutting down." ;;
      unlink_missing_ok (jobinfo_file wd)) (after_setup resumed st1)).
Proof.
  intros wd command script p info' resumed Hdir Htpl Hrec Hlock Hat Hrc [i Hload] st1.
  destruct (fresh_launch_submits_state (A:=unit) args wd (after_setup args st) text mtime)
    as (st' & Heq & Hfs & Hran & Hwr & Hat' & Hlog); try assumption; try reflexivity.
  fold command script p info' in Hfs.
  assert (Hst1 : fs st1 = <[jobinfo_file wd := File (dump_info info') (clock st)]> (fs st)).
  { unfold st1, run_process.
    rewrite (main_configured _ _ _ _ _ Hdir Htpl). fold wd.
    rewrite Hrec, andb_false_r. cbn [negb].
    rewrite fresh_launch_bind, Heq.
    rewrite Hat'. change (atexit_handlers (after_setup args st)) with (atexit_handlers st).
    rewrite Hat. cbn [app run_atexit run_handler].
    rewrite unlink_gone.
    2:{ rewrite Hfs, lookup_insert_ne by apply jobinfo_ne_lock. exact Hlock. }
    cbn [snd]. exact Hfs. }
  clearbody st1.
  assert (Hdir1 : fs st1 !! wd = Some Dir).
  { rewrite Hst1, lookup_insert_ne; [exact Hdir|].
    unfold jobinfo_file, joinpath. intros H. apply (f_equal length) in H.
    rewrite length_app in H. cbn in H. lia. }
  assert (Htpl1 : fs st1 !! submit_file wd = Some (File text mtime)).
  { rewrite Hst1, lookup_insert_ne by apply jobinfo_ne_submit. exact Htpl. }
  rewrite (main_configured work' fuel' resumed st1 _ Hdir1 Htpl1).
  cbn [a_workdir a_continuation resumed].
  rewrite Hst1, lookup_insert_eq. cbn [andb negb].
  unfold bind at 1. unfold bind at 1. unfold read_text at 1.
  rewrite after_setup_fs, Hst1, lookup_insert_eq.
  unfold safe_load_info. rewrite Hload. reflexivity.
Qed.

End MainPaths.

Local Abbreviation whisper_work :=
  (Whisper.work Scenario.load_descriptor Scenario.device Scenario.load_model
     Scenario.transcribes).

Lemma main_not_a_directory_witness :
  exists st',
    main Scenario.environ Scenario.main_file Scenario.accepted Scenario.load_info
      Scenario.dump_info whisper_work 1 Scenario.launch (Scenario.boot [] 1000)
    = (Exit 1, st')
    /\ fs st' = fs (Scenario.boot [] 1000)
    /\ ran st' = [].
Proof.
  destruct (main_not_a_directory Scenario.environ Scenario.main_file Scenario.accepted
              Scenario.load_info Scenario.dump_info whisper_work 1 Scenario.launch
              (Scenario.boot [] 1000))
    as (st' & Hrun & Hfs & Hran & _).
  - vm_compute. discriminate.
  - exists st'. auto.
Defined.

Lemma spurious_continuation_is_fresh_launch_witness :
  main Scenario.environ Scenario.main_file Scenario.accepted Scenario.load_info
    Scenario.dump_info whisper_work 1 Scenario.continuation Scenario.cold
  = main Scenario.environ Scenario.main_file Scenario.accepted Scenario.load_info
      Scenario.dump_info whisper_work 1 Scenario.launch Scenario.cold.
Proof.
  apply (spurious_continuation_is_fresh_launch Scenario.environ Scenario.main_file
           Scenario.accepted Scenario.load_info Scenario.dump_info whisper_work 1
           Scenario.continuation Scenario.cold).
  vm_compute. reflexivity.
Defined.

Lemma fresh_launch_never_works_witness :
  main Scenario.environ Scenario.main_file Scenario.accepted Scenario.load_info
    Scenario.dump_info whisper_work 1 Scenario.launch Scenario.cold
  = main Scenario.environ Scenario.main_file Scenario.accepted Scenario.load_info
      Scenario.dump_info (fun _ => raise CallbackError) 0 Scenario.launch Scenario.cold.
Proof.
  apply (fresh_launch_never_works Scenario.environ Scenario.main_file Scenario.accepted
           Scenario.load_info Scenario.dump_info whisper_work
           (fun _ => raise CallbackError) 1 0 Scenario.launch Scenario.cold).
  left. reflexivity.
Defined.

Lemma fresh_launch_submits_witness :
  exists st',
    Scenario.run_process Scenario.accepted Scenario.transcribes 1 Scenario.launch
      Scenario.cold
    = (Some 0, st')
    /\ fs st' !! jobinfo_file Scenario.wd = Some (File "jobid: 4242" 1000)
    /\ fs st' !! lock_file Scenario.wd = None
    /\ length (ran st') = 1%nat.
Proof.
  destruct (fresh_launch_submits Scenario.environ Scenario.main_file Scenario.accepted
              Scenario.load_info Scenario.dump_info whisper_work 1 Scenario.launch
              Scenario.cold "sbatch -D $workdir" 0)
    as (st' & Hrun & Hfs & Hran & _).
  - vm_compute. reflexivity.
  - vm_compute. reflexivity.
  - vm_compute. reflexivity.
  - vm_compute. reflexivity.
  - reflexivity.
  - reflexivity.
  - exists st'. split; [exact Hrun|]. rewrite Hfs, Hran.
    split; [apply lookup_insert_eq|]. split; [|reflexivity].
    rewrite lookup_insert_ne by apply jobinfo_ne_lock. vm_compute. reflexivity.
Defined.

Lemma fresh_launch_stands_down_witness :
  exists st',
    Scenario.run_process Scenario.accepted Scenario.transcribes 1 Scenario.launch
      Scenario.drained
    = (Some 0, st')
    /\ fs st' = fs Scenario.drained
    /\ ran st' = []
    /\ log st' = [(INFO, active_message)].
Proof.
  destruct (fresh_launch_stands_down Scenario.environ Scenario.main_file
              Scenario.accepted Scenario.load_info Scenario.dump_info whisper_work 1
              Scenario.launch Scenario.drained (File "sbatch -D $workdir" 0)
              (File "jobid: 4242" 0))
    as (st' & Hrun & Hfs & Hran & _ & _ & Hlog).
  - vm_compute. reflexivity.
  - vm_compute. reflexivity.
  - reflexivity.
  - reflexivity.
  - right. split; vm_compute; reflexivity.
  - exists st'. split; [exact Hrun|]. split; [exact Hfs|]. split; [exact Hran|].
    rewrite Hlog. vm_compute. reflexivity.
Defined.

Lemma continuation_with_unreadable_record_witness :
  main Scenario.environ Scenario.main_file Scenario.accepted Scenario.load_info
    Scenario.dump_info whisper_work 1 Scenario.continuation garbled
  = (Raise YAMLError, after_setup Scenario.continuation garbled).
Proof.
  apply (continuation_with_unreadable_record Scenario.environ Scenario.main_file
           Scenario.accepted Scenario.load_info Scenario.dump_info whisper_work 1
           Scenario.continuation garbled (File "sbatch -D $workdir" 0)).
  - vm_compute. reflexivity.
  - vm_compute. reflexivity.
  - reflexivity.
  - vm_compute. reflexivity.
Defined.

Lemma continuation_after_launch_witness :
  let st1 := snd (Scenario.run_process Scenario.accepted Scenario.transcribes 1
                    Scenario.launch Scenario.cold) in
  main Scenario.environ Scenario.main_file Scenario.accepted Scenario.load_info
    Scenario.dump_info whisper_work 1 Scenario.continuation st1
  = ((whisper_work 1 ;;
      logging INFO "Finished processing things.  Shutting down." ;;
      unlink_missing_ok (jobinfo_file Scenario.wd))
       (after_setup Scenario.continuation st1)).
Proof.
  apply (continuation_after_launch Scenario.environ Scenario.main_file Scenario.accepted
           Scenario.load_info Scenario.dump_info whisper_work whisper_work 1 1
           Scenario.launch Scenario.cold "sbatch -D $workdir" 0).
  - vm_compute. reflexivity.
  - vm_compute. reflexivity.
  - vm_compute. reflexivity.
  - vm_compute. reflexivity.
  - reflexivity.
  - reflexivity.
  - vm_compute. eexists. reflexivity.
Defined.

Lemma self_submission_accepted_witness :
  exists st',
    self_submission Scenario.environ Scenario.main_file Scenario.accepted
      Scenario.dump_info (fresh_info Scenario.launch) (Scenario.in_work Scenario.cold)
    = (Return (set_jobid (Some "4242") (fresh_info Scenario.launch)), st')
    /\ fs st' !! jobinfo_file Scenario.wd = Some (File "jobid: 4242" 1000)
    /\ length (ran st') = 1%nat.
Proof.
  destruct (self_submission_accepted Scenario.environ Scenario.main_file
              Scenario.accepted Scenario.dump_info (fresh_info Scenario.launch)
              (Scenario.in_work Scenario.cold) Scenario.wd "sbatch -D $workdir" 0)
    as (st' & Hrun & _ & Hfs & Hran & _).
  - reflexivity.
  - vm_compute. reflexivity.
  - reflexivity.
  - vm_compute. discriminate.
  - exists st'. split; [exact Hrun|]. rewrite Hfs, Hran.
    split; [apply lookup_insert_eq|reflexivity].
Defined.

Lemma self_submission_unrecorded_witness :
  exists st',
    self_submission Scenario.environ Scenario.main_file Scenario.accepted
      Scenario.dump_info (fresh_info Scenario.launch) blocked_record
    = (Raise IsADirectoryError, st')
    /\ length (ran st') = 1%nat.
Proof.
  destruct (self_submission_unrecorded Scenario.environ Scenario.main_file
              Scenario.accepted Scenario.dump_info (fresh_info Scenario.launch)
              blocked_record Scenario.wd "sbatch -D $workdir" 0)
    as (st' & Hrun & Hran & _).
  - reflexivity.
  - vm_compute. reflexivity.
  - reflexivity.
  - vm_compute. reflexivity.
  - exists st'. split; [exact Hrun|]. rewrite Hran. reflexivity.
Defined.

Lemma self_submission_without_template_witness :
  exists e,
    self_submission Scenario.environ Scenario.main_file Scenario.accepted
      Scenario.dump_info (fresh_info Scenario.launch)
      (Scenario.in_work (Scenario.boot [(Scenario.wd, Dir)] 1000))
    = (Raise e, Scenario.in_work (Scenario.boot [(Scenario.wd, Dir)] 1000)).
Proof.
  apply (self_submission_without_template Scenario.environ Scenario.main_file
           Scenario.accepted Scenario.dump_info (fresh_info Scenario.launch)
           (Scenario.in_work (Scenario.boot [(Scenario.wd, Dir)] 1000)) Scenario.wd).
  - reflexivity.
  - intros text mtime. vm_compute. discriminate.
Defined.

Section WorkFails.

Variable environ : gmap string string.
Variable main_file : Path.
Variable run_shell : string -> string -> CompletedProcess.
Variable load_info : string -> option Info.
Variable dump_info : Info -> string.

(** X22.  When [work] does not return (it raises, exits or is still
    running), [main] ends the same way, in the state [work] left: neither
    the shutdown message nor the removal of [jobinfo.yaml] happens. *)
Theorem jobinfo_kept_when_work_fails (work : nat -> M unit) (fuel : nat) (args : Args)
    (st st1 : state) (tpl : node) (text : string) (mtime : Z) (info : Info)
    (o : outcome unit) :
  let wd := a_workdir args in
  fs st !! wd = Some Dir ->
  fs st !! submit_file wd = Some tpl ->
  a_continuation args = true ->
  fs st !! jobinfo_file wd = Some (File text mtime) ->
  load_info text = Some info ->
  work fuel (after_setup args st) = (o, st1) ->
  (forall u, o <> Return u) ->
  main environ main_file run_shell load_info dump_info work fuel args st = (o, st1).
Proof.
  intros wd Hdir Htpl Hcont Hrec Hload Hwork Hfail.
  rewrite (main_configured environ main_file run_shell load_info dump_info
             work fuel args st tpl Hdir Htpl).
  fold wd. rewrite Hcont, Hrec. cbn [andb negb].
  unfold bind at 1. unfold bind at 1. unfold read_text at 1.
  rewrite after_setup_fs. fold wd. rewrite Hrec.
  unfold safe_load_info. rewrite Hload. unfold ret at 1.
  unfold bind at 1. rewrite Hwork.
  destruct o as [u|code|e|]; [exfalso; eapply Hfail; reflexivity| | |]; reflexivity.
Qed.

End WorkFails.

Local Abbreviation deaf_work :=
  (Whisper.work Scenario.load_descriptor Scenario.device (fun _ => false)
     Scenario.transcribes).

Lemma jobinfo_kept_when_work_fails_witness :
  exists st1,
    main Scenario.environ Scenario.main_file Scenario.accepted Scenario.load_info
      Scenario.dump_info deaf_work 1 Scenario.continuation Scenario.mixed
    = (Raise CallbackError, st1)
    /\ fs st1 !! jobinfo_file Scenario.wd = Some (File "jobid: 4242" 0)
    /\ handed st1 = [].
Proof.
  pose (r := deaf_work 1 (after_setup Scenario.continuation Scenario.mixed)).
  assert (E : r = (Raise CallbackError, snd r)) by (vm_compute; reflexivity).
  exists (snd r). split.
  - apply (jobinfo_kept_when_work_fails Scenario.environ Scenario.main_file
             Scenario.accepted Scenario.load_info Scenario.dump_info deaf_work 1
             Scenario.continuation Scenario.mixed (snd r)
             (File "sbatch -D $workdir" 0) "jobid: 4242" 0
             {| i_debug := false; i_workdir := "/jobs/run1";
                i_continuation := false; i_jobid := Some "4242" |}).
    + vm_compute. reflexivity.
    + vm_compute. reflexivity.
    + reflexivity.
    + vm_compute. reflexivity.
    + reflexivity.
    + exact E.
    + discriminate.
  - split; vm_compute; reflexivity.
Defined.

(** ** Further properties of discovery *)

Lemma untouched_refl st : untouched st st.
Proof. repeat split. Qed.

Lemma untouched_trans st1 st2 st3 :
  untouched st1 st2 -> untouched st2 st3 -> untouched st1 st3.
Proof.
  intros (H1 & H2 & H3 & H4 & H5) (K1 & K2 & K3 & K4 & K5).
  repeat split; congruence.
Qed.

Lemma read_only_ret {A} (x : A) : read_only (ret x).
Proof. intros st. apply untouched_refl. Qed.

Lemma read_only_raise {A} (e : exn) : read_only (raise (A:=A) e).
Proof. intros st. apply untouched_refl. Qed.

Lemma read_only_diverge {A} : read_only (diverge (A:=A)).
Proof. intros st. apply untouched_refl. Qed.

Lemma read_only_bind {A B} (m : M A) (k : A -> M B) :
  read_only m -> (forall x, read_only (k x)) -> read_only (bind m k).
Proof.
  intros Hm Hk st. unfold bind. specialize (Hm st).
  destruct (m st) as [[x|c|e|] st1]; cbn [snd] in *; try exact Hm.
  eapply untouched_trans; [exact Hm|apply Hk].
Qed.

Lemma read_only_try {A} (body : M A) (handler : exn -> M A) :
  read_only body -> (forall e, read_only (handler e)) ->
  read_only (try_except body handler).
Proof.
  intros Hm Hk st. unfold try_except. specialize (Hm st).
  destruct (body st) as [[x|c|e|] st1]; cbn [snd] in *; try exact Hm.
  eapply untouched_trans; [exact Hm|apply Hk].
Qed.

Lemma read_only_logging l msg : read_only (logging l msg).
Proof. intros st. rewrite logging_logged. cbn [snd]. unfold untouched. frame. auto. Qed.

Lemma read_only_read_text p : read_only (read_text p).
Proof.
  intros st. unfold read_text. destruct (fs st !! p) as [[c t|]|]; apply untouched_refl.
Qed.

Lemma read_only_stat_mtime p : read_only (stat_mtime p).
Proof.
  intros st. unfold stat_mtime. destruct (fs st !! p) as [[c t|]|]; apply untouched_refl.
Qed.

Lemma read_only_time : read_only time.
Proof. intros st. apply untouched_refl. Qed.

Lemma read_only_get : read_only get.
Proof. intros st. apply untouched_refl. Qed.

Lemma read_only_sleep d : read_only (sleep d).
Proof. intros st. unfold sleep. destruct (d <? 0); repeat split. Qed.

Lemma read_only_get_workdir : read_only get_workdir.
Proof. intros st. unfold get_workdir. destruct (workdir (self st)); apply untouched_refl. Qed.

Lemma read_only_get_job_warnings : read_only get_job_warnings.
Proof.
  intros st. unfold get_job_warnings. destruct (job_warnings (self st)); apply untouched_refl.
Qed.

Lemma read_only_set_job_warnings s : read_only (set_job_warnings s).
Proof. intros st. repeat split. Qed.

Lemma bind_returns {A B} (m : M A) (k : A -> M B) (st st' : state) (y : B) :
  bind m k st = (Return y, st') ->
  exists x s, m st = (Return x, s) /\ k x s = (Return y, st').
Proof.
  unfold bind. destruct (m st) as [[x|c|e|] s]; intros H; try discriminate. eauto.
Qed.

Section Discovery.

Variable load_descriptor : string -> option descriptor.
Variable filter_jobdata : jobdata -> M jobdata.

Local Abbreviation scan := (discover load_descriptor filter_jobdata).
Local Abbreviation todo_list := (get_todo_list load_descriptor filter_jobdata).

Lemma read_only_safe_load text : read_only (safe_load_descriptor load_descriptor text).
Proof.
  unfold safe_load_descriptor. destruct (load_descriptor text);
    [apply read_only_ret|apply read_only_raise].
Qed.

Lemma read_only_settle_loop (fuel : nat) (results : list jobdata) :
  read_only (settle_loop fuel results).
Proof.
  induction fuel as [|fuel IH]; cbn [settle_loop]; [apply read_only_diverge|].
  destruct results as [|r results]; [apply read_only_ret|].
  destruct (List.filter settled (r :: results)); [|apply read_only_ret].
  apply read_only_bind; [apply read_only_logging|intros _].
  apply read_only_bind; [apply read_only_get|intros st].
  apply read_only_bind; [apply read_only_sleep|intros _]. exact IH.
Qed.

Lemma read_only_discover :
  (forall jd, read_only (filter_jobdata jd)) ->
  forall files results, read_only (scan files results).
Proof.
  intros Hfilter. induction files as [|jobfile rest IH]; intros results;
    cbn [discover]; [apply read_only_ret|].
  apply read_only_bind.
  - apply read_only_try.
    + apply read_only_bind; [apply read_only_read_text|intros text].
      apply read_only_bind; [apply read_only_safe_load|intros d]. apply read_only_ret.
    + intros e.
      apply read_only_bind; [apply read_only_get_job_warnings|intros seen].
      apply read_only_bind; [|intros _; apply read_only_ret].
      destruct (bool_decide (jobfile ∈ seen)); [apply read_only_ret|].
      apply read_only_bind; [apply read_only_set_job_warnings|intros _].
      apply read_only_logging.
  - intros [d|]; [|apply IH].
    apply read_only_bind; [apply read_only_time|intros now].
    apply read_only_bind; [apply read_only_stat_mtime|intros mtime].
    apply read_only_bind; [apply read_only_get|intros st].
    apply read_only_bind; [apply Hfilter|intros jd].
    destruct (manifest jd); [|apply IH].
    apply read_only_bind; [apply read_only_logging|intros _]. apply IH.
Qed.

Lemma read_only_get_todo_list (fuel : nat) (jobfile : string) :
  (forall jd, read_only (filter_jobdata jd)) ->
  read_only (todo_list fuel jobfile).
Proof.
  intros Hfilter. unfold get_todo_list.
  apply read_only_bind; [apply read_only_get_workdir|intros wd].
  apply read_only_bind; [apply read_only_get|intros st].
  apply read_only_bind; [apply read_only_discover, Hfilter|intros results].
  apply read_only_settle_loop.
Qed.

(** What the settle loop returns is what it was given, and the loop returns
    only an empty list or a list with a settled job in it. *)
Lemma settle_loop_returns (fuel : nat) (results out : list jobdata) : forall st st',
  settle_loop fuel results st = (Return out, st') ->
  out = results /\ st' = st
  /\ (results = [] \/ List.filter settled results <> []).
Proof.
  induction fuel as [|fuel IH]; intros st st' H; cbn [settle_loop] in H;
    [discriminate|].
  destruct results as [|r results]; [inversion H; auto|].
  destruct (List.filter settled (r :: results)) as [|t todo] eqn:Hf.
  - exfalso.
    apply bind_returns in H as (_ & s1 & _ & H).
    apply bind_returns in H as (s & s2 & _ & H).
    apply bind_returns in H as (_ & s3 & _ & H).
    apply IH in H as (_ & _ & [H|H]); [discriminate|]. apply H. reflexivity.
  - inversion H; subst. split; [reflexivity|]. split; [reflexivity|]. right. discriminate.
Qed.

Lemma discover_keeps_work : forall files results out st st',
  scan files results st = (Return out, st') ->
  Forall (fun jd => manifest jd <> []) results ->
  Forall (fun jd => manifest jd <> []) out /\ results `prefix_of` out.
Proof.
  induction files as [|jobfile rest IH]; intros results out st st' H Hres;
    cbn [discover] in H.
  - inversion H; subst. split; [exact Hres|reflexivity].
  - apply bind_returns in H as ([d|] & s1 & _ & H); [|eapply IH; eassumption].
    apply bind_returns in H as (now & s2 & _ & H).
    apply bind_returns in H as (mtime & s3 & _ & H).
    apply bind_returns in H as (s & s4 & _ & H).
    apply bind_returns in H as (jd & s5 & _ & H).
    destruct (manifest jd) as [|f m] eqn:Hm.
    + apply bind_returns in H as (_ & s6 & _ & H). eapply IH; eassumption.
    + apply IH in H as [Hout Hpre].
      * split; [exact Hout|]. etransitivity; [|exact Hpre]. apply prefix_app_r. reflexivity.
      * apply Forall_app. split; [exact Hres|]. constructor; [|constructor].
        rewrite Hm. discriminate.
Qed.

(** X11.  Whatever the subclass's filter does, a list that [get_todo_list]
    returns holds no job with an empty manifest, and it is either empty or
    holds at least one settled job. *)
Theorem todo_list_has_work (fuel : nat) (jobfile : string) (st st' : state)
    (out : list jobdata) :
  todo_list fuel jobfile st = (Return out, st') ->
  Forall (fun jd => manifest jd <> []) out
  /\ (out = [] \/ Exists (fun jd => settled jd = true) out).
Proof.
  intros H. unfold get_todo_list in H.
  apply bind_returns in H as (wd & s1 & _ & H).
  apply bind_returns in H as (s & s2 & _ & H).
  apply bind_returns in H as (results & s3 & Hscan & H).
  apply settle_loop_returns in H as (-> & _ & Hsettled).
  apply discover_keeps_work in Hscan as [Hout _]; [|constructor].
  split; [exact Hout|].
  destruct Hsettled as [->|Hsome]; [left; reflexivity|right].
  destruct (List.filter settled results) as [|t todo] eqn:Hf; [congruence|].
  assert (Hin : In t (List.filter settled results)) by (rewrite Hf; left; reflexivity).
  apply filter_In in Hin as [Hin Hset].
  apply List.Exists_exists. exists t. split; [exact Hin|exact Hset].
Qed.

(** One step of discovery on a descriptor that cannot be read or parsed, on
    an instance whose [job_warnings] is assigned. *)
Lemma discover_unreadable_step (jobfile : Path) (rest : list Path)
    (results : list jobdata) (st : state) (seen : gset Path) :
  job_warnings (self st) = Some seen ->
  match fs st !! jobfile with
  | Some (File text _) => load_descriptor text = None
  | _ => True
  end ->
  let e := match fs st !! jobfile with
           | Some (File _ _) => YAMLError
           | Some Dir => IsADirectoryError
           | None => FileNotFoundError
           end in
  scan (jobfile :: rest) results st
  = scan rest results
      (if bool_decide (jobfile ∈ seen) then st
       else logged WARNING ("Cannot read " +:+ path_str jobfile +:+ ": " +:+ exn_str e)
              (set_self {| JOB_SETTLE_TIME := JOB_SETTLE_TIME (self st);
                           workdir := workdir (self st);
                           job_warnings := Some ({[ jobfile ]} ∪ seen) |} st)).
Proof.
  intros Hseen Hbad e. cbn [discover].
  unfold bind at 1. unfold try_except.
  unfold bind at 1. unfold read_text at 1.
  destruct (fs st !! jobfile) as [[text t|]|] eqn:Hf.
  1: unfold bind at 1; unfold safe_load_descriptor at 1; rewrite Hbad; unfold raise at 1.
  all: unfold bind at 1; unfold get_job_warnings at 1; rewrite Hseen.
  all: unfold bind at 1.
  all: case_bool_decide.
  all: try (unfold ret at 1 2; reflexivity).
  all: unfold bind at 1; unfold set_job_warnings at 1, modify at 1.
  all: rewrite logging_logged; unfold ret at 1; reflexivity.
Qed.



End Discovery.

Lemma filter_twice {A} (f : A -> bool) (l : list A) :
  List.filter f (List.filter f l) = List.filter f l.
Proof.
  induction l as [|x l IH]; [reflexivity|].
  cbn [List.filter]. destruct (f x) eqn:Hx; [|exact IH].
  cbn [List.filter]. rewrite Hx, IH. reflexivity.
Qed.

Section WhisperDiscovery.

Variable load_descriptor : string -> option descriptor.

Lemma read_only_whisper_filter (jd : jobdata) : read_only (Whisper.filter_jobdata jd).
Proof. intros s. rewrite filter_jobdata_filter. apply untouched_refl. Qed.

(** X13.  [get_todo_list] with Whisper's filter only looks: however it ends,
    the file system, the commands run, the paths written, the items handed
    over and the exit handlers are as before. *)
Theorem discovery_is_read_only (fuel : nat) (jobfile : string) (st : state) :
  untouched st (snd (Whisper.get_todo_list load_descriptor fuel jobfile st)).
Proof. apply read_only_get_todo_list, read_only_whisper_filter. Qed.

(** X14.  Filtering twice is filtering once: [filter_jobdata] on its own
    result removes nothing more. *)
Theorem filter_jobdata_idempotent (jd : jobdata) (st : state) :
  exists jd',
    Whisper.filter_jobdata jd st = (Return jd', st)
    /\ Whisper.filter_jobdata jd' st = (Return jd', st).
Proof.
  eexists. split; [apply filter_jobdata_filter|].
  rewrite filter_jobdata_filter. cbn [manifest model jobdir settled].
  rewrite filter_twice. reflexivity.
Qed.

End WhisperDiscovery.

Lemma todo_list_has_work_witness :
  exists out st',
    Scenario.get_todo_list 1 "whisper.job" (Scenario.in_work Scenario.mixed)
    = (Return out, st')
    /\ length out = 2%nat
    /\ Forall (fun jd => manifest jd <> []) out
    /\ (out = [] \/ Exists (fun jd => settled jd = true) out).
Proof.
  pose (r := Scenario.get_todo_list 1 "whisper.job" (Scenario.in_work Scenario.mixed)).
  assert (E : r = (Return (match fst r with Return o => o | _ => [] end), snd r))
    by (vm_compute; reflexivity).
  eexists _, _. split; [exact E|]. split; [vm_compute; reflexivity|].
  exact (todo_list_has_work Scenario.load_descriptor
           (Whisper.filter_jobdata) 1 "whisper.job" _ _ _ E).
Defined.


(** ** The to-do list of [whisper_service.py] *)

Section Pending.

Variable load_descriptor : string -> option descriptor.

Local Abbreviation whisper_scan := (discover load_descriptor Whisper.filter_jobdata).

Lemma same_view_refl st : same_view st st.
Proof. repeat split; auto. Qed.

Lemma same_view_trans st1 st2 st3 :
  same_view st1 st2 -> same_view st2 st3 -> same_view st1 st3.
Proof.
  intros (H1 & H2 & H3 & H4 & H5) (K1 & K2 & K3 & K4 & K5).
  repeat split; try congruence. auto.
Qed.

Lemma pending_job_same_view st st' jobfile :
  same_view st st' ->
  pending_job load_descriptor st' jobfile = pending_job load_descriptor st jobfile.
Proof.
  intros (Hfs & Hclk & Hset & _). unfold pending_job, Whisper.finished.
  rewrite Hfs, Hclk, Hset. reflexivity.
Qed.

Lemma same_view_logged l msg st : same_view st (logged l msg st).
Proof. unfold same_view. frame. repeat split; auto. Qed.

Lemma omap_same_view st st1 (files : list Path) :
  same_view st st1 ->
  omap (pending_job load_descriptor st1) files = omap (pending_job load_descriptor st) files.
Proof.
  intros Hv. induction files as [|f files IH]; [reflexivity|].
  cbn [omap list_omap]. rewrite (pending_job_same_view st st1 f Hv).
  destruct (pending_job load_descriptor st f); [f_equal|]; exact IH.
Qed.

Lemma discover_pending : forall (files : list Path) (results : list jobdata) (st : state),
  is_Some (job_warnings (self st)) \/ Forall (readable load_descriptor st) files ->
  exists st',
    whisper_scan files results st
    = (Return (results ++ omap (pending_job load_descriptor st) files)%list, st')
    /\ same_view st st'.
Proof.
  induction files as [|jobfile rest IH]; intros results st Hok.
  - exists st. cbn [discover omap list_omap]. rewrite app_nil_r.
    split; [reflexivity|apply same_view_refl].
  - assert (Hnext : forall st1, same_view st st1 ->
              is_Some (job_warnings (self st1)) \/ Forall (readable load_descriptor st1) rest).
    { intros st1 Hv. destruct Hok as [Hw|Hall].
      - left. apply Hv, Hw.
      - right. apply Forall_cons in Hall as [_ Hall].
        eapply Forall_impl; [exact Hall|].
        intros f (text & mtime & d & Hf & Hd). exists text, mtime, d.
        destruct Hv as (-> & _). auto. }
    cbn [omap list_omap].
    destruct (fs st !! jobfile) as [[text mtime|]|] eqn:Hf.
    1: destruct (load_descriptor text) as [d|] eqn:Hd.
    + (* a descriptor that reads and parses *)
      cbn [discover]. erewrite bind_return.
      2:{ unfold try_except, bind, read_text, safe_load_descriptor, ret.
          rewrite Hf, Hd. reflexivity. }
      unfold bind at 1. unfold time at 1.
      unfold bind at 1. unfold stat_mtime at 1. rewrite Hf.
      unfold bind at 1. unfold get at 1.
      erewrite bind_return by apply filter_jobdata_filter.
      cbn [manifest model jobdir settled d_manifest d_model].
      unfold pending_job at 1. rewrite Hf, Hd.
      destruct (List.filter _ (d_manifest d)) as [|f m] eqn:Hm.
      * erewrite bind_return by apply logging_logged.
        set (st1 := logged DEBUG _ st).
        assert (Hv : same_view st st1) by apply same_view_logged.
        destruct (IH results st1 (Hnext st1 Hv)) as (st' & Hrun & Hv').
        exists st'. rewrite Hrun.
        rewrite (omap_same_view st st1 rest Hv).
        split; [reflexivity|eapply same_view_trans; eassumption].
      * destruct (IH (results ++ [ {| manifest := f :: m; model := d_model d;
                                      jobdir := parent jobfile;
                                      settled := JOB_SETTLE_TIME (self st) <? clock st - mtime |} ])%list
                    st (Hnext st (same_view_refl st))) as (st' & Hrun & Hv').
        exists st'. rewrite Hrun. rewrite <- app_assoc. cbn [app].
        split; [reflexivity|exact Hv'].
    + (* a descriptor that does not parse *)
      destruct Hok as [[seen Hseen]|Hall].
      2:{ apply Forall_cons in Hall as [(t' & m' & d' & Hf' & Hd') _].
          rewrite Hf in Hf'. injection Hf' as <- <-. congruence. }
      rewrite (discover_unreadable_step load_descriptor Whisper.filter_jobdata
                 jobfile rest results st seen Hseen) by (rewrite Hf; exact Hd).
      unfold pending_job at 1. rewrite Hf, Hd.
      set (st1 := if bool_decide (jobfile ∈ seen) then st else _).
      assert (Hv : same_view st st1).
      { unfold st1. destruct (bool_decide (jobfile ∈ seen)); [apply same_view_refl|].
        unfold same_view. frame. repeat split; eauto. }
      destruct (IH results st1 (Hnext st1 Hv)) as (st' & Hrun & Hv').
      exists st'. rewrite Hrun.
      rewrite (omap_same_view st st1 rest Hv).
      split; [reflexivity|eapply same_view_trans; eassumption].
    + (* a directory in the place of the descriptor *)
      destruct Hok as [[seen Hseen]|Hall].
      2:{ apply Forall_cons in Hall as [(t' & m' & d' & Hf' & Hd') _].
          rewrite Hf in Hf'. discriminate. }
      rewrite (discover_unreadable_step load_descriptor Whisper.filter_jobdata
                 jobfile rest results st seen Hseen) by (rewrite Hf; exact I).
      unfold pending_job at 1. rewrite Hf.
      set (st1 := if bool_decide (jobfile ∈ seen) then st else _).
      assert (Hv : same_view st st1).
      { unfold st1. destruct (bool_decide (jobfile ∈ seen)); [apply same_view_refl|].
        unfold same_view. frame. repeat split; eauto. }
      destruct (IH results st1 (Hnext st1 Hv)) as (st' & Hrun & Hv').
      exists st'. rewrite Hrun.
      rewrite (omap_same_view st st1 rest Hv).
      split; [reflexivity|eapply same_view_trans; eassumption].
    + (* no file *)
      destruct Hok as [[seen Hseen]|Hall].
      2:{ apply Forall_cons in Hall as [(t' & m' & d' & Hf' & Hd') _].
          rewrite Hf in Hf'. discriminate. }
      rewrite (discover_unreadable_step load_descriptor Whisper.filter_jobdata
                 jobfile rest results st seen Hseen) by (rewrite Hf; exact I).
      unfold pending_job at 1. rewrite Hf.
      set (st1 := if bool_decide (jobfile ∈ seen) then st else _).
      assert (Hv : same_view st st1).
      { unfold st1. destruct (bool_decide (jobfile ∈ seen)); [apply same_view_refl|].
        unfold same_view. frame. repeat split; eauto. }
      destruct (IH results st1 (Hnext st1 Hv)) as (st' & Hrun & Hv').
      exists st'. rewrite Hrun.
      rewrite (omap_same_view st st1 rest Hv).
      split; [reflexivity|eapply same_view_trans; eassumption].
Qed.


End Pending.


(** ** The work loop of [whisper_service.py] *)

Ltac frame_all :=
  repeat (autorewrite with frame in *;
          cbn [fs clock threshold log ran written atexit_handlers handed self
               set_fs set_clock set_threshold add_log add_ran add_written add_atexit
               add_handed set_self workdir JOB_SETTLE_TIME job_warnings] in *).

Lemma append_cancel_r (t : string) : forall s1 s2 : string,
  s1 +:+ t = s2 +:+ t -> s1 = s2.
Proof.
  induction s1 as [|c s1 IH]; intros [|d s2] H.
  - reflexivity.
  - apply (f_equal String.length) in H.
    rewrite !TemplateFacts.length_append in H. cbn in H. lia.
  - apply (f_equal String.length) in H.
    rewrite !TemplateFacts.length_append in H. cbn in H. lia.
  - rewrite !TemplateFacts.append_cons in H. injection H as -> H. f_equal. apply IH, H.
Qed.

Lemma marker_inj (dir : Path) (f g : string) :
  Whisper.marker dir f = Whisper.marker dir g -> f = g.
Proof.
  unfold Whisper.marker. intros H. apply joinpath_inj in H.
  eapply append_cancel_r, H.
Qed.

(** Grouping a list by a key that runs over each key once rearranges it. *)
Lemma flat_map_nil {A B} (l : list A) : flat_map (fun _ : A => @nil B) l = [].
Proof. induction l as [|x l IH]; [reflexivity|exact IH]. Qed.

Lemma flat_map_pick {K B} `{EqDecision K} (x : K) (b : B) (g : K -> list B) :
  forall ks : list K,
    NoDup ks -> x ∈ ks ->
    flat_map (fun k => ((if bool_decide (x = k) then [b] else []) ++ g k)%list) ks
    ≡ₚ b :: flat_map g ks.
Proof.
  induction ks as [|k ks IH]; intros Hnd Hin.
  - apply elem_of_nil in Hin as [].
  - apply NoDup_cons in Hnd as [Hk Hnd]. cbn [flat_map].
    case_bool_decide as Hx.
    + subst k. cbn [app]. constructor. apply Permutation_app_head.
      assert (Hext : forall l, x ∉ l ->
                flat_map (fun k => ((if bool_decide (x = k) then [b] else []) ++ g k)%list) l
                = flat_map g l).
      { induction l as [|k l IHl]; intros Hl; [reflexivity|]. cbn [flat_map].
        rewrite bool_decide_eq_false_2 by (intros ->; apply Hl; left).
        cbn [app]. f_equal. apply IHl. intros H. apply Hl. right. exact H. }
      rewrite Hext by exact Hk. reflexivity.
    + cbn [app]. apply elem_of_cons in Hin as [Hin|Hin]; [congruence|].
      rewrite (IH Hnd Hin). symmetry. apply Permutation_middle.
Qed.

Lemma group_by_model (ms : list string) (todo : list jobdata) :
  NoDup ms -> (forall t, t ∈ todo -> model t ∈ ms) ->
  flat_map (fun m => List.filter (fun t => bool_decide (model t = m)) todo) ms ≡ₚ todo.
Proof.
  intros Hnd. induction todo as [|t todo IH]; intros Hall.
  - cbn [List.filter]. rewrite flat_map_nil. reflexivity.
  - rewrite (flat_map_ext _
               (fun m => ((if bool_decide (model t = m) then [t] else [])
                            ++ List.filter (fun t => bool_decide (model t = m)) todo)%list)).
    2:{ intros m. cbn [List.filter]. destruct (bool_decide (model t = m)); reflexivity. }
    rewrite flat_map_pick; [|exact Hnd|apply Hall; left].
    constructor. apply IH. intros u Hu. apply Hall. right. exact Hu.
Qed.

Section WorkFacts.

Variable load_descriptor : string -> option descriptor.
Variable load_model : string -> bool.
Variable transcribe : jobdata -> string -> option string.

Local Abbreviation item := (Whisper.process_item transcribe).
Local Abbreviation entries := (Whisper.process_manifest transcribe).
Local Abbreviation jobs := (Whisper.process_jobs transcribe).
Local Abbreviation models := (Whisper.process_models load_model transcribe).

Lemma steady_refl st : steady st st.
Proof. repeat split; auto. Qed.

Lemma steady_trans st1 st2 st3 : steady st1 st2 -> steady st2 st3 -> steady st1 st3.
Proof.
  intros (H1 & H2 & H3 & H4) (K1 & K2 & K3 & K4).
  repeat split; try congruence; intros H.
  - apply H4, K4, H.
  - apply K4, H4, H.
Qed.

Lemma completes_steady st st' t f :
  steady st st' -> completes transcribe st' t f = completes transcribe st t f.
Proof.
  intros (_ & _ & _ & Hd). unfold completes.
  destruct (transcribe t f); [|reflexivity].
  specialize (Hd (Whisper.marker (jobdir t) f)).
  destruct (fs st' !! Whisper.marker (jobdir t) f) as [[c m|]|],
    (fs st !! Whisper.marker (jobdir t) f) as [[c' m'|]|]; try reflexivity;
    exfalso; destruct Hd as [H1 H2]; try (specialize (H1 eq_refl); discriminate);
    try (specialize (H2 eq_refl); discriminate).
Qed.

Lemma process_item_spec (t : jobdata) (f : string) (n : nat) (st : state) :
  exists st',
    item t f n st
    = (Return (if completes transcribe st t f then S n else n), st')
    /\ handed st' = (handed st ++ [(t, f, clock st)])%list
    /\ steady st st'
    /\ (forall p, p <> Whisper.marker (jobdir t) f -> fs st' !! p = fs st !! p)
    /\ (forall r, completes transcribe st t f = true -> transcribe t f = Some r ->
        fs st' !! Whisper.marker (jobdir t) f = Some (File r (clock st)))
    /\ (completes transcribe st t f = false -> fs st' = fs st).
Proof.
  unfold Whisper.process_item, try_except.
  erewrite bind_return by apply logging_logged.
  unfold bind at 1. unfold get at 1.
  unfold bind at 1. unfold modify at 1.
  unfold completes.
  destruct (transcribe t f) as [r|] eqn:Htr.
  - unfold bind at 1. unfold ret at 1.
    unfold bind at 1. unfold write_text at 1. frame.
    destruct (fs st !! Whisper.marker (jobdir t) f) as [[c m|]|] eqn:Hm.
    2:{ erewrite bind_return by apply logging_logged. unfold ret.
        eexists. split; [reflexivity|]. unfold steady.
        repeat split; intros; frame_all; auto; try discriminate. }
    all: unfold ret; eexists; (split; [reflexivity|]); unfold steady.
    all: repeat split; intros; frame_all; auto; try discriminate.
    all: try (rewrite lookup_insert_ne by (intros E; subst; congruence); reflexivity).
    all: try match goal with H : Some _ = Some ?r' |- _ => injection H as <- end.
    all: try apply lookup_insert_eq.
    all: destruct (decide (p = Whisper.marker (jobdir t) f)) as [->|Hne].
    all: try (rewrite lookup_insert_eq in *; discriminate).
    all: try (rewrite lookup_insert_ne in * by (intros E; apply Hne; symmetry; exact E);
              assumption).
    all: try congruence.
  - unfold bind at 1. unfold raise at 1.
    erewrite bind_return by apply logging_logged. unfold ret.
    eexists. split; [reflexivity|]. unfold steady.
    repeat split; intros; frame_all; auto; try discriminate.
Qed.

Local Abbreviation done_at st :=
  (fun i : jobdata * string => completes transcribe st (fst i) (snd i)).
Local Abbreviation with_model m := (fun t : jobdata => bool_decide (model t = m)).

Lemma items_of_app (a b : list jobdata) : items_of (a ++ b) = (items_of a ++ items_of b)%list.
Proof. apply flat_map_app. Qed.

Lemma filter_pairs (st : state) (t : jobdata) (items : list string) :
  List.filter (done_at st) (map (pair t) items)
  = map (pair t) (List.filter (completes transcribe st t) items).
Proof.
  induction items as [|f items IH]; [reflexivity|].
  cbn [map List.filter fst snd]. destruct (completes transcribe st t f);
    cbn [map]; rewrite IH; reflexivity.
Qed.

Lemma done_at_steady (st st' : state) (l : list (jobdata * string)) :
  steady st st' -> List.filter (done_at st') l = List.filter (done_at st) l.
Proof. intros H. apply List.filter_ext. intros [t f]. apply completes_steady, H. Qed.

Lemma filter_nil_app {A} (f : A -> bool) (a b : list A) :
  List.filter f (a ++ b) = [] -> List.filter f a = [] /\ List.filter f b = [].
Proof. rewrite List.filter_app. apply app_eq_nil. Qed.

Lemma process_manifest_spec (t : jobdata) : forall (items : list string) (n : nat)
    (st : state),
  exists st',
    entries t items n st
    = (Return (n + length (List.filter (completes transcribe st t) items))%nat, st')
    /\ handed st' = (handed st ++ stamp (clock st) (map (pair t) items))%list
    /\ steady st st'
    /\ (List.filter (completes transcribe st t) items = [] -> fs st' = fs st).
Proof.
  induction items as [|f items IH]; intros n st; cbn [Whisper.process_manifest].
  - exists st. unfold ret. cbn [List.filter length map stamp].
    rewrite Nat.add_0_r, app_nil_r. auto using steady_refl.
  - destruct (process_item_spec t f n st) as (s1 & Hitem & Hh1 & Hs1 & _ & _ & Hidle1).
    erewrite bind_return by exact Hitem.
    destruct (IH (if completes transcribe st t f then S n else n) s1)
      as (s2 & Hrest & Hh2 & Hs2 & Hidle2).
    exists s2.
    assert (Hclk : clock s1 = clock st) by apply Hs1.
    assert (Hsame : List.filter (completes transcribe s1 t) items
                    = List.filter (completes transcribe st t) items).
    { apply List.filter_ext. intros x. apply completes_steady, Hs1. }
    rewrite Hsame in Hidle2.
    split.
    { rewrite Hrest, Hsame. cbn [List.filter].
      destruct (completes transcribe st t f); cbn [length]; do 2 f_equal; lia. }
    split.
    { rewrite Hh2, Hh1, Hclk. cbn [map stamp]. rewrite <- app_assoc. reflexivity. }
    split; [eapply steady_trans; eassumption|].
    cbn [List.filter]. destruct (completes transcribe st t f); [discriminate|].
    intros Hnone. rewrite Hidle2, Hidle1 by auto. reflexivity.
Qed.

Lemma process_jobs_spec (m : string) : forall (todo : list jobdata) (n : nat) (st : state),
  let items := items_of (List.filter (with_model m) todo) in
  exists st',
    jobs m todo n st
    = (Return (n + length (List.filter (done_at st) items))%nat, st')
    /\ handed st' = (handed st ++ stamp (clock st) items)%list
    /\ steady st st'
    /\ (List.filter (done_at st) items = [] -> fs st' = fs st).
Proof.
  induction todo as [|t todo IH]; intros n st; cbn zeta; cbn [Whisper.process_jobs].
  - exists st. unfold ret. cbn. rewrite Nat.add_0_r, app_nil_r.
    auto using steady_refl.
  - cbn [List.filter]. destruct (decide (model t = m)) as [Hm|Hm].
    2:{ rewrite (bool_decide_eq_true_2 (model t <> m)) by exact Hm.
        rewrite (bool_decide_eq_false_2 (model t = m)) by exact Hm. apply IH. }
    rewrite (bool_decide_eq_false_2 (model t <> m)) by (intros H; apply H, Hm).
    rewrite (bool_decide_eq_true_2 (model t = m)) by exact Hm.
    erewrite bind_return by apply logging_logged.
    set (s0 := logged INFO _ st).
    assert (Hs0 : steady st s0).
    { unfold s0, steady. frame. repeat split; auto. }
    assert (Hfs0 : fs s0 = fs st) by (unfold s0; frame; reflexivity).
    destruct (process_manifest_spec t (manifest t) n s0)
      as (s1 & Hent & Hh1 & Hs1 & Hidle1).
    erewrite bind_return by exact Hent.
    destruct (IH (n + length (List.filter (completes transcribe s0 t) (manifest t)))%nat s1)
      as (s2 & Hrest & Hh2 & Hs2 & Hidle2).
    exists s2.
    assert (Hs01 : steady st s1) by (eapply steady_trans; eassumption).
    assert (Hclk0 : clock s0 = clock st) by apply Hs0.
    assert (Hclk1 : clock s1 = clock st) by apply Hs01.
    rewrite (done_at_steady st s1) in Hidle2 by exact Hs01.
    rewrite (List.filter_ext _ _ (fun f => completes_steady st s0 t f Hs0)) in Hidle1.
    change (items_of (t :: ?l)) with (map (pair t) (manifest t) ++ items_of l)%list.
    split.
    { rewrite Hrest. rewrite List.filter_app, length_app, filter_pairs, length_map.
      rewrite (done_at_steady st s1) by exact Hs01.
      rewrite (List.filter_ext _ _ (fun f => completes_steady st s0 t f Hs0)).
      do 2 f_equal. lia. }
    split.
    { rewrite Hh2, Hh1. unfold s0 at 1. frame. rewrite Hclk0, Hclk1.
      unfold stamp. rewrite map_app, <- app_assoc. reflexivity. }
    split; [eapply steady_trans; eassumption|].
    intros Hnone. apply filter_nil_app in Hnone as [Ha Hb].
    rewrite filter_pairs in Ha. apply map_eq_nil in Ha.
    rewrite Hidle2, Hidle1, Hfs0 by assumption. reflexivity.
Qed.

Lemma process_models_spec (todo : list jobdata) : forall (ms : list string) (n : nat)
    (st : state),
  (forall m, In m ms -> load_model m = true) ->
  let items := items_of (flat_map (fun m => List.filter (with_model m) todo) ms) in
  exists st',
    models ms todo n st
    = (Return (n + length (List.filter (done_at st) items))%nat, st')
    /\ handed st' = (handed st ++ stamp (clock st) items)%list
    /\ steady st st'
    /\ (List.filter (done_at st) items = [] -> fs st' = fs st).
Proof.
  induction ms as [|m ms IH]; intros n st Hload; cbn zeta; cbn [Whisper.process_models].
  - exists st. unfold ret. cbn. rewrite Nat.add_0_r, app_nil_r.
    auto using steady_refl.
  - erewrite bind_return by apply logging_logged.
    set (s0 := logged INFO _ st).
    assert (Hs0 : steady st s0).
    { unfold s0, steady. frame. repeat split; auto. }
    assert (Hfs0 : fs s0 = fs st) by (unfold s0; frame; reflexivity).
    rewrite (Hload m) by (left; reflexivity).
    unfold bind at 1. unfold ret at 1.
    destruct (process_jobs_spec m todo n s0) as (s1 & Hjobs & Hh1 & Hs1 & Hidle1).
    erewrite bind_return by exact Hjobs.
    destruct (IH (n + length (List.filter (done_at s0)
                                (items_of (List.filter (with_model m) todo))))%nat s1)
      as (s2 & Hrest & Hh2 & Hs2 & Hidle2).
    { intros m' Hm'. apply Hload. right. exact Hm'. }
    exists s2.
    assert (Hs01 : steady st s1) by (eapply steady_trans; eassumption).
    assert (Hclk0 : clock s0 = clock st) by apply Hs0.
    assert (Hclk1 : clock s1 = clock st) by apply Hs01.
    rewrite (done_at_steady st s1) in Hidle2 by exact Hs01.
    rewrite (done_at_steady st s0) in Hidle1 by exact Hs0.
    cbn [flat_map]. rewrite items_of_app.
    split.
    { rewrite Hrest. rewrite List.filter_app, length_app.
      rewrite (done_at_steady st s1) by exact Hs01.
      rewrite (done_at_steady st s0) by exact Hs0.
      do 2 f_equal. lia. }
    split.
    { rewrite Hh2, Hh1. unfold s0 at 1. frame. rewrite Hclk0, Hclk1.
      unfold stamp. rewrite map_app, <- app_assoc. reflexivity. }
    split; [eapply steady_trans; eassumption|].
    intros Hnone. apply filter_nil_app in Hnone as [Ha Hb].
    rewrite Hidle2, Hidle1, Hfs0 by assumption. reflexivity.
Qed.

Lemma filter_length_Permutation {A} (f : A -> bool) (l l' : list A) :
  l ≡ₚ l' -> length (List.filter f l) = length (List.filter f l').
Proof.
  induction 1 as [|x l l' _ IH|x y l|l1 l2 l3 _ IH1 _ IH2]; cbn [List.filter].
  - reflexivity.
  - destruct (f x); cbn [length]; rewrite IH; reflexivity.
  - destruct (f x), (f y); reflexivity.
  - congruence.
Qed.


Lemma pass_items (ms : list string) (todo : list jobdata) :
  NoDup ms ->
  (forall t, In t todo -> In (model t) ms) ->
  items_of (flat_map (fun m => List.filter (with_model m) todo) ms) ≡ₚ items_of todo.
Proof.
  intros Hnd Hall. unfold items_of. apply Permutation_flat_map.
  apply group_by_model; [exact Hnd|].
  intros t Ht. apply list_elem_of_In, Hall, list_elem_of_In, Ht.
Qed.



End WorkFacts.



(** ** The bootstrap of [activate_venv.py] *)

Module ActivateVenvFacts.
Import ActivateVenv.

Lemma extends_refl env : extends env env.
Proof. intros key old H. exists "". exact H. Qed.

Lemma extends_trans env1 env2 env3 :
  extends env1 env2 -> extends env2 env3 -> extends env1 env3.
Proof.
  intros H12 H23 key old H.
  destruct (H12 key old H) as [pre1 H1].
  destruct (H23 key _ H1) as [pre2 H2].
  exists (pre2 +:+ pre1). rewrite H2, TemplateFacts.append_assoc. reflexivity.
Qed.

Lemma setenv_grows_at key val (p : process) :
  (forall old, environ p !! key = Some old -> exists pre, val = pre +:+ old) ->
  extends (environ p) (environ (snd (setenv key val p)))
  /\ forall path argv, fst (setenv key val p) <> Replaced path argv.
Proof.
  intros Hval. unfold setenv.
  destruct (illegal_name key || has_nul val); cbn [fst snd environ].
  - split; [apply extends_refl|discriminate].
  - split; [|discriminate]. intros k old Hk.
    destruct (decide (key = k)) as [->|Hne].
    + rewrite lookup_insert_eq. destruct (Hval old Hk) as [pre ->]. eauto.
    + rewrite lookup_insert_ne by exact Hne. exists "". exact Hk.
Qed.

Lemma update_env_grows key val delim : grows (update_env key val delim).
Proof.
  intros p. unfold update_env.
  destruct (environ p !! key) as [old|] eqn:Hk; apply setenv_grows_at.
  - intros old' Hold. rewrite Hk in Hold. injection Hold as <-.
    exists (val +:+ delim). symmetry. apply TemplateFacts.append_assoc.
  - intros old' Hold. rewrite Hk in Hold. discriminate.
Qed.

Lemma print_grows line : grows (print line).
Proof. intros p. split; [apply extends_refl|discriminate]. Qed.

Lemma print_env_grows label key : grows (print_env label key).
Proof.
  intros p. unfold print_env. destruct (environ p !! key);
    (split; [apply extends_refl|discriminate]).
Qed.

Lemma run_grows (body : list stmt) : Forall grows body -> grows (run body).
Proof.
  induction 1 as [|s body Hs _ IH]; intros p; cbn [run].
  - split; [apply extends_refl|discriminate].
  - destruct (Hs p) as [Hext Hrep].
    destruct (s p) as [[|e|path argv] p1] eqn:Hsp; cbn [fst snd] in *.
    + destruct (IH p1) as [Hext1 Hrep1].
      split; [eapply extends_trans; eassumption|exact Hrep1].
    + split; [exact Hext|discriminate].
    + exfalso. eapply Hrep. reflexivity.
Qed.

Lemma print_looks line : looks (print line).
Proof. intros p. split; [reflexivity|left; reflexivity]. Qed.

Lemma print_env_looks label key : looks (print_env label key).
Proof.
  intros p. unfold print_env. destruct (environ p !! key).
  - split; [reflexivity|left; reflexivity].
  - split; [reflexivity|right; eauto].
Qed.

Lemma run_looks (body : list stmt) : Forall looks body -> looks (run body).
Proof.
  induction 1 as [|s body Hs _ IH]; intros p; cbn [run].
  - split; [reflexivity|left; reflexivity].
  - destruct (Hs p) as [Henv Hst].
    destruct (s p) as [[|e|path argv] p1] eqn:Hsp; cbn [fst snd] in *.
    + destruct (IH p1) as [Henv1 Hst1]. split; [congruence|exact Hst1].
    + split; [exact Henv|exact Hst].
    + destruct Hst as [Hst|[key Hst]]; discriminate.
Qed.

Lemma run_app (a b : list stmt) (p : process) :
  run (a ++ b) p
  = match run a p with
    | (Running, p') => run b p'
    | r => r
    end.
Proof.
  revert p. induction a as [|s a IH]; intros p; cbn [run app]; [reflexivity|].
  destruct (s p) as [[|e|path argv] p1]; [apply IH|reflexivity|reflexivity].
Qed.

Section BootstrapFacts.

Variable script_dir venv_path : string.
Variable lib_dirs : list string.
Variable environ_files : list (string * option string).
Variable this_script : string.
Variable argv : list string.
Variable executable : bool.
Variable python_version pid argv_repr : string.

Local Abbreviation boot :=
  (bootstrap script_dir venv_path lib_dirs environ_files this_script argv executable
     python_version pid argv_repr).

Lemma update_lib_path_grows debug : grows (update_lib_path lib_dirs debug).
Proof.
  apply run_grows, Forall_app. split.
  - apply List.Forall_forall. intros s Hs. apply in_map_iff in Hs as (d & <- & _).
    apply update_env_grows.
  - destruct debug; [|constructor]. constructor; [apply print_env_grows|constructor].
Qed.

Lemma load_environ_file_grows entry : grows (load_environ_file entry).
Proof.
  intros p. unfold load_environ_file. destruct (snd entry).
  - apply update_env_grows.
  - split; [apply extends_refl|discriminate].
Qed.

Lemma execve_keeps (p : process) :
  environ (snd (execve this_script argv executable p)) = environ p.
Proof. unfold execve. destruct executable; reflexivity. Qed.

(** The statements of the first round before [os.execve]. *)
Let prepare (debug : bool) : list stmt :=
  ([ update_env "VIRTUAL_ENV" venv_path ":";
     update_env "PATH" (child venv_path "bin") ":";
     update_env "VENV_RESTART" "1" ":";
     update_lib_path lib_dirs debug;
     update_env "PYTHONPATH" script_dir ":" ]
   ++ map load_environ_file environ_files
   ++ (if debug then
         [ print ("Preparing to re-exec " +:+ pid);
           print ("args: " +:+ this_script +:+ " " +:+ argv_repr) ]
       else []))%list.

Lemma prepare_grows debug : grows (run (prepare debug)).
Proof.
  apply run_grows. unfold prepare.
  repeat (apply Forall_cons; split; [first [apply update_env_grows|apply update_lib_path_grows]|]).
  apply Forall_app. split.
  - apply List.Forall_forall. intros s Hs. apply in_map_iff in Hs as (d & <- & _).
    apply load_environ_file_grows.
  - destruct debug; [|constructor].
    constructor; [apply print_grows|]. constructor; [apply print_grows|constructor].
Qed.


Lemma update_env_sets key val delim (p p1 : process) :
  update_env key val delim p = (Running, p1) -> is_Some (environ p1 !! key).
Proof.
  unfold update_env, setenv. intros H.
  destruct (environ p !! key);
    match type of H with (if ?b then _ else _) = _ => destruct b end;
    try discriminate; injection H as <-; cbn [environ]; rewrite lookup_insert_eq; eauto.
Qed.

Lemma extends_is_Some env env' key :
  extends env env' -> is_Some (env !! key) -> is_Some (env' !! key).
Proof. intros H [old Hold]. destruct (H key old Hold) as [pre Hpre]. eauto. Qed.

(** The second round: what the body does once [VENV_RESTART] is set. *)
Lemma second_round_looks (debug : bool) :
  looks (run (if debug then
                [ print ("Second go-round " +:+ pid);
                  print_env "PATH:" "PATH";
                  print_env "LD_LIBRARY_PATH:" "LD_LIBRARY_PATH" ]
              else [])).
Proof.
  apply run_looks. destruct debug; [|constructor].
  constructor; [apply print_looks|].
  constructor; [apply print_env_looks|].
  constructor; [apply print_env_looks|constructor].
Qed.

(** [bootstrap] as the optional first line and the choice that follows. *)
Lemma bootstrap_unfold (p : process) :
  let debug := bool_decide (is_Some (environ p !! "ACTIVATE_DEBUG")) in
  let p0 := if debug then snd (print ("Using Python Version: " +:+ python_version) p)
            else p in
  boot p
  = match environ p !! "VENV_RESTART" with
    | None => run (prepare debug ++ [execve this_script argv executable])%list p0
    | Some _ =>
        run (if debug then
               [ print ("Second go-round " +:+ pid);
                 print_env "PATH:" "PATH";
                 print_env "LD_LIBRARY_PATH:" "LD_LIBRARY_PATH" ]
             else []) p0
    end.
Proof.
  intros debug p0. unfold bootstrap. fold debug.
  assert (Henv : environ p0 = environ p) by (unfold p0; destruct debug; reflexivity).
  rewrite run_app.
  assert (Hpre : run (if debug
                      then [print ("Using Python Version: " +:+ python_version)]
                      else []) p = (Running, p0)).
  { unfold p0. destruct debug; reflexivity. }
  rewrite Hpre. cbn [run]. rewrite Henv.
  destruct (environ p !! "VENV_RESTART").
  - destruct (run _ p0) as [[] ?]; reflexivity.
  - unfold prepare. rewrite <- !app_assoc. cbn [app].
    destruct (run _ p0) as [[] ?]; reflexivity.
Qed.

Lemma prepare_sets_sentinel (debug : bool) (p0 p1 : process) :
  run (prepare debug) p0 = (Running, p1) -> is_Some (environ p1 !! "VENV_RESTART").
Proof.
  change (prepare debug) with
    ([ update_env "VIRTUAL_ENV" venv_path ":";
       update_env "PATH" (child venv_path "bin") ":";
       update_env "VENV_RESTART" "1" ":" ]
     ++ (update_lib_path lib_dirs debug
         :: update_env "PYTHONPATH" script_dir ":"
         :: map load_environ_file environ_files
         ++ (if debug then
               [ print ("Preparing to re-exec " +:+ pid);
                 print ("args: " +:+ this_script +:+ " " +:+ argv_repr) ]
             else [])))%list.
  rewrite run_app. cbn [run].
  destruct (update_env "VIRTUAL_ENV" venv_path ":" p0) as [[|e|x y] q1]; try discriminate.
  destruct (update_env "PATH" (child venv_path "bin") ":" q1) as [[|e|x y] q2];
    try discriminate.
  destruct (update_env "VENV_RESTART" "1" ":" q2) as [[|e|x y] q3] eqn:Hsent;
    try discriminate.
  apply update_env_sets in Hsent.
  set (rest := [update_lib_path lib_dirs debug; update_env "PYTHONPATH" script_dir ":"]).
  intros Hrest.
  assert (Hgrows : grows (run (update_lib_path lib_dirs debug
         :: update_env "PYTHONPATH" script_dir ":"
         :: map load_environ_file environ_files
         ++ (if debug then
               [ print ("Preparing to re-exec " +:+ pid);
                 print ("args: " +:+ this_script +:+ " " +:+ argv_repr) ]
             else []))%list)).
  { apply run_grows.
    constructor; [apply update_lib_path_grows|].
    constructor; [apply update_env_grows|].
    apply Forall_app. split.
    - apply List.Forall_forall. intros s Hs. apply in_map_iff in Hs as (d & <- & _).
      apply load_environ_file_grows.
    - destruct debug; [|constructor].
      constructor; [apply print_grows|]. constructor; [apply print_grows|constructor]. }
  destruct (Hgrows q3) as [Hext _]. cbn [run] in Hext. rewrite Hrest in Hext.
  eapply extends_is_Some; eassumption.
Qed.

(** X18.  The bootstrap never removes or overwrites a variable of the
    environment: however it ends, each variable set before is still set,
    its old value at the end of the new one. *)
Theorem bootstrap_only_prepends (p : process) :
  extends (environ p) (environ (snd (boot p))).
Proof.
  rewrite bootstrap_unfold. cbv zeta.
  set (debug := bool_decide _).
  set (p0 := if debug then _ else p).
  assert (Henv : environ p0 = environ p) by (unfold p0; destruct debug; reflexivity).
  destruct (environ p !! "VENV_RESTART"); rewrite <- Henv.
  - destruct (second_round_looks debug p0) as [-> _]. apply extends_refl.
  - rewrite run_app.
    destruct (prepare_grows debug p0) as [Hext _].
    destruct (run (prepare debug) p0) as [[|e|path argv'] p1]; cbn [snd] in *;
      try exact Hext.
    cbn [run]. destruct (execve this_script argv executable p1) as [[] p2] eqn:Hx;
      cbn [snd]; replace p2 with (snd (execve this_script argv executable p1))
        by (rewrite Hx; reflexivity); rewrite execve_keeps; exact Hext.
Qed.

End BootstrapFacts.

(** X19.  The re-exec happens at most once.  When the bootstrap replaces the
    process, [VENV_RESTART] was unset before and is set in the environment
    passed on, and the program run is the script itself with [sys.argv].
    The bootstrap of the new process, whatever it finds under [.venv],
    leaves the environment as it is and does not re-exec again: it runs on
    or, in debug mode, fails with a [KeyError]. *)
Theorem bootstrap_restarts_once
    (script_dir venv_path : string) (lib_dirs : list string)
    (environ_files : list (string * option string)) (this_script : string)
    (argv : list string) (executable : bool) (python_version pid argv_repr : string)
    (p p' : process) (path : string) (args : list string) :
  bootstrap script_dir venv_path lib_dirs environ_files this_script argv executable
    python_version pid argv_repr p = (Replaced path args, p') ->
  environ p !! "VENV_RESTART" = None
  /\ is_Some (environ p' !! "VENV_RESTART")
  /\ path = this_script /\ args = argv
  /\ forall lib_dirs' environ_files' python_version' pid' argv_repr',
       let again :=
         bootstrap script_dir venv_path lib_dirs' environ_files' this_script argv
           executable python_version' pid' argv_repr' (restarted p') in
       environ (snd again) = environ p'
       /\ (fst again = Running \/ exists key, fst again = Raised (KeyError key)).
Proof.
  intros Hboot. rewrite bootstrap_unfold in Hboot. cbv zeta in Hboot.
  set (debug := bool_decide _) in Hboot.
  set (p0 := if debug then _ else p) in Hboot.
  destruct (environ p !! "VENV_RESTART") as [v|] eqn:Hsent.
  { exfalso. destruct (second_round_looks pid debug p0) as [_ Hst].
    rewrite Hboot in Hst. destruct Hst as [Hst|[key Hst]]; discriminate. }
  split; [reflexivity|].
  rewrite run_app in Hboot.
  destruct (prepare_grows script_dir venv_path lib_dirs environ_files this_script
              pid argv_repr debug p0) as [_ Hrep].
  pose proof (prepare_sets_sentinel script_dir venv_path lib_dirs environ_files
                this_script pid argv_repr debug p0) as Hset.
  destruct (run _ p0) as [[|e|x y] p1]; cbn [fst] in Hrep.
  2:{ discriminate. }
  2:{ exfalso. eapply Hrep. reflexivity. }
  specialize (Hset p1 eq_refl).
  cbn [run] in Hboot. unfold execve in Hboot.
  destruct executable; [|discriminate].
  injection Hboot as <- <- <-.
  split; [exact Hset|]. split; [reflexivity|]. split; [reflexivity|].
  intros lib_dirs' environ_files' python_version' pid' argv_repr' again.
  unfold again. rewrite bootstrap_unfold. cbv zeta.
  cbn [environ restarted].
  destruct Hset as [v ->].
  set (debug' := bool_decide _).
  set (p2 := if debug' then _ else restarted p1).
  assert (Henv2 : environ p2 = environ p1) by (unfold p2; destruct debug'; reflexivity).
  destruct (second_round_looks pid' debug' p2) as [Henv Hst].
  rewrite Henv, Henv2. split; [reflexivity|exact Hst].
Qed.

(** X20.  With [ACTIVATE_DEBUG] set on the first round, no shared library
    under [.venv] and no [LD_LIBRARY_PATH] in the environment, the
    bootstrap does not reach [os.execve]: the debug print of
    [os.environ['LD_LIBRARY_PATH']] raises [KeyError], unless an earlier
    assignment was already refused with [ValueError]. *)
Theorem bootstrap_debug_needs_library_path
    (script_dir venv_path : string)
    (environ_files : list (string * option string)) (this_script : string)
    (argv : list string) (executable : bool) (python_version pid argv_repr : string)
    (p : process) :
  is_Some (environ p !! "ACTIVATE_DEBUG") ->
  environ p !! "VENV_RESTART" = None ->
  environ p !! "LD_LIBRARY_PATH" = None ->
  let r := bootstrap script_dir venv_path [] environ_files this_script argv executable
             python_version pid argv_repr p in
  fst r = Raised (KeyError "LD_LIBRARY_PATH") \/ fst r = Raised ValueError.
Proof.
  intros Hdebug Hsent Hlib r. unfold r. rewrite bootstrap_unfold. cbv zeta.
  rewrite Hsent, (bool_decide_eq_true_2 _ Hdebug).
  set (p0 := snd (print _ p)).
  assert (Hlib0 : environ p0 !! "LD_LIBRARY_PATH" = None) by exact Hlib.
  clearbody p0. cbn [app run].
  assert (Hstep : forall key val q,
            key <> "LD_LIBRARY_PATH" ->
            environ q !! "LD_LIBRARY_PATH" = None ->
            (exists q', update_env key val ":" q = (Running, q')
                        /\ environ q' !! "LD_LIBRARY_PATH" = None)
            \/ exists q', update_env key val ":" q = (Raised ValueError, q')).
  { intros key val q Hne Hq. unfold update_env, setenv.
    destruct (environ q !! key);
      match goal with |- context [if ?b then _ else _] => destruct b end; eauto;
      left; eexists; (split; [reflexivity|]); cbn [environ];
      rewrite lookup_insert_ne by exact Hne; exact Hq. }
  destruct (Hstep "VIRTUAL_ENV" venv_path p0 ltac:(discriminate) Hlib0)
    as [(q1 & -> & H1)|(q1 & ->)]; [|right; reflexivity].
  destruct (Hstep "PATH" (child venv_path "bin") q1 ltac:(discriminate) H1)
    as [(q2 & -> & H2)|(q2 & ->)]; [|right; reflexivity].
  destruct (Hstep "VENV_RESTART" "1" q2 ltac:(discriminate) H2)
    as [(q3 & -> & H3)|(q3 & ->)]; [|right; reflexivity].
  unfold update_lib_path. cbn [map app run]. unfold print_env. rewrite H3.
  left. reflexivity.
Qed.

End ActivateVenvFacts.

Lemma bootstrap_restarts_once_witness :
  let p' := snd (Startup.bootstrap true Startup.login) in
  ActivateVenv.environ p' !! "PATH" = Some "/opt/amp/.venv/bin:/usr/bin"
  /\ is_Some (ActivateVenv.environ p' !! "VENV_RESTART")
  /\ fst (Startup.bootstrap true (ActivateVenv.restarted p')) = ActivateVenv.Running.
Proof.
  intros p'.
  destruct (ActivateVenvFacts.bootstrap_restarts_once
              Startup.script_dir Startup.venv_path Startup.lib_dirs Startup.environ_files
              Startup.this_script Startup.argv true
              "('3', '11', '4')" "4711" "['whisper_service.py', '/jobs/run1']"
              Startup.login p' Startup.this_script Startup.argv)
    as (_ & Hsent & _ & _ & Hagain).
  - vm_compute. reflexivity.
  - split; [vm_compute; reflexivity|]. split; [exact Hsent|].
    vm_compute. reflexivity.
Defined.

Lemma bootstrap_debug_needs_library_path_witness :
  fst (ActivateVenv.bootstrap Startup.script_dir Startup.venv_path []
         Startup.environ_files Startup.this_script Startup.argv true
         "('3', '11', '4')" "4711" "['whisper_service.py', '/jobs/run1']"
         Startup.debugging)
  = ActivateVenv.Raised (ActivateVenv.KeyError "LD_LIBRARY_PATH").
Proof.
  destruct (ActivateVenvFacts.bootstrap_debug_needs_library_path
              Startup.script_dir Startup.venv_path
              Startup.environ_files Startup.this_script Startup.argv true
              "('3', '11', '4')" "4711" "['whisper_service.py', '/jobs/run1']"
              Startup.debugging) as [H|H].
  - vm_compute. eexists. reflexivity.
  - vm_compute. reflexivity.
  - vm_compute. reflexivity.
  - exact H.
  - vm_compute in H. discriminate.
Defined.
